(** * HackJudge AI: judge intelligence, pace coaching and demo critique

    A shallow embedding of [services/geminiService.ts] and of the speech
    pacing logic of [components/SmartMirror.tsx], followed by the properties
    of the specification that concern them.

    JavaScript values are embedded untyped: the result of [JSON.parse] is
    cast to [HackathonData] without any run-time check, so the sanitation
    code is modelled on every value [JSON.parse] can produce.  Numbers are
    IEEE 754 binary64 values ([spec_float] at precision 53). *)

From Stdlib Require Import ZArith List String Ascii Bool Lia.
From Stdlib Require Import Floats.SpecFloat.
From Stdlib Require Import DecimalString DecimalNat.
Import ListNotations.

Local Open Scope string_scope.
Local Set Warnings "-register-all".

(** ** JavaScript numbers *)

Module Number.

Definition number := spec_float.

Definition prec : Z := 53.
Definition emax : Z := 1024.

(** An integer as a number (exact below 2^53, correctly rounded above). *)
Definition of_Z (n : Z) : number := binary_normalize prec emax n 0 false.

Definition zero : number := S754_zero false.

(** [x - y] *)
Definition sub (x y : number) : number := SFsub prec emax x y.

(** [x / y] *)
Definition div (x y : number) : number := SFdiv prec emax x y.

(** [x > y] *)
Definition gt (x y : number) : bool := SFltb y x.

(** ToBoolean on numbers: [0], [-0] and [NaN] are falsy. *)
Definition truthy (x : number) : bool :=
  match x with
  | S754_zero _ | S754_nan => false
  | _ => true
  end.

(** [Math.round]: the integer closest to [x], ties towards +infinity;
    a value with a non-negative exponent is an integer already, and a
    result of zero keeps the sign of [x]. *)
Definition Math_round (x : number) : number :=
  match x with
  | S754_finite s m e =>
      if (0 <=? e)%Z then x
      else
        let n := ((2 * cond_Zopp s (Zpos m) + 2 ^ (- e)) / 2 ^ (1 - e))%Z in
        if (n =? 0)%Z then S754_zero s else of_Z n
  | _ => x
  end.

(** The literal [0.08]: the binary64 value nearest to 8/100,
    5764607523034235 * 2^-56. *)
Definition lit_0_08 : number := S754_finite false 5764607523034235 (-56).

(** The literal [60000]. *)
Definition lit_60000 : number := of_Z 60000.

End Number.

Export Number.

(** ** JavaScript values, property reads and writes *)

Module JS.

(** Arrays carry their elements and, like every JavaScript object, may
    carry named own properties; objects keep their properties in
    insertion order. *)
Inductive value : Type :=
| VUndefined
| VNull
| VBool (b : bool)
| VNum (x : number)
| VStr (s : string)
| VArr (elems : list value) (named : list (string * value))
| VObj (props : list (string * value)).

Definition props := list (string * value).

Inductive error : Type :=
| TypeError
| SyntaxError
| Error (message : string)
| Rejected (reason : string).

(** A computation either completes with a value or throws. *)
Inductive result (A : Type) : Type :=
| Ok (a : A)
| Throw (e : error).

Arguments Ok {A} a.
Arguments Throw {A} e.

Definition bind {A B : Type} (r : result A) (k : A -> result B) : result B :=
  match r with
  | Ok a => k a
  | Throw e => Throw e
  end.

Fixpoint lookup (k : string) (ps : props) : option value :=
  match ps with
  | [] => None
  | (k', v) :: ps' => if String.eqb k k' then Some v else lookup k ps'
  end.

(** Writing a property replaces it where it stands or appends it. *)
Fixpoint update (k : string) (v : value) (ps : props) : props :=
  match ps with
  | [] => [(k, v)]
  | (k', v') :: ps' =>
      if String.eqb k k' then (k', v) :: ps' else (k', v') :: update k v ps'
  end.

(** ToBoolean. *)
Definition truthy (v : value) : bool :=
  match v with
  | VUndefined | VNull => false
  | VBool b => b
  | VNum x => Number.truthy x
  | VStr s => negb (String.eqb s EmptyString)
  | VArr _ _ | VObj _ => true
  end.

Definition Array_isArray (v : value) : bool :=
  match v with
  | VArr _ _ => true
  | _ => false
  end.

Definition own (k : string) (ps : props) : value :=
  match lookup k ps with
  | Some v => v
  | None => VUndefined
  end.

(** [v.k] for an identifier [k] other than [length]: a read on [undefined]
    or [null] throws a TypeError; on any other value it yields the own
    property or [undefined] (none of the names the program reads is
    defined on a built-in prototype). *)
Definition get (v : value) (k : string) : result value :=
  match v with
  | VUndefined | VNull => Throw TypeError
  | VBool _ | VNum _ | VStr _ => Ok VUndefined
  | VArr _ named => Ok (own k named)
  | VObj ps => Ok (own k ps)
  end.

(** [v.k = x] in strict mode (the sources are ES modules): a write on
    [undefined], [null] or a primitive throws a TypeError. *)
Definition set (v : value) (k : string) (x : value) : result value :=
  match v with
  | VArr elems named => Ok (VArr elems (update k x named))
  | VObj ps => Ok (VObj (update k x ps))
  | _ => Throw TypeError
  end.

(** [v.k1.k2 = x]: the object held by [v.k1] is changed in place.  Values
    produced by [JSON.parse] share no structure, so the change is visible
    through [v.k1] only. *)
Definition set_in (v : value) (k1 k2 : string) (x : value) : result value :=
  bind (get v k1) (fun o =>
  bind (set o k2 x) (fun o' =>
  set v k1 o')).

Definition strings (l : list string) : value := VArr (map VStr l) [].

End JS.

Export JS.

Notation "x <- e ;; k" := (bind e (fun x => k))
  (at level 61, e at next level, right associativity).

(** ** services/geminiService.ts *)

Module GeminiService.

Definition MODEL_FAST : string := "gemini-2.0-flash-exp".
Definition MODEL_REASONING : string := "gemini-2.0-flash-exp".

(** The response schemas handed to the inference service. *)
Inductive schema : Type :=
| STRING
| NUMBER
| ARRAY (items : schema)
| OBJECT (properties : list (string * schema)).

Definition judgeSchema : schema :=
  OBJECT [ ("name", STRING); ("role", STRING); ("company", STRING);
           ("values", ARRAY STRING); ("focusAreas", ARRAY STRING);
           ("redFlags", ARRAY STRING);
           ("recommendedTalkingPoints", ARRAY STRING) ].

Definition strategySchema : schema :=
  OBJECT [ ("structure",
             ARRAY (OBJECT [ ("time", STRING); ("action", STRING) ]));
           ("keyPhrases", ARRAY STRING);
           ("featuresToEmphasize", ARRAY STRING);
           ("generatedScript", STRING) ].

Definition hackathonSchema : schema :=
  OBJECT [ ("title", STRING); ("url", STRING);
           ("criteria", ARRAY STRING);
           ("judges", ARRAY judgeSchema);
           ("strategy", strategySchema) ].

Definition analysisSchema : schema :=
  OBJECT [ ("overallScore", NUMBER);
           ("strengths", ARRAY STRING);
           ("improvements", ARRAY STRING);
           ("judgeSpecificFeedback",
             ARRAY (OBJECT [ ("judgeName", STRING); ("feedback", STRING) ]));
           ("qaQuestions", ARRAY (OBJECT [ ("question", STRING) ])) ].

Fixpoint field (k : string) (properties : list (string * schema))
  : option schema :=
  match properties with
  | [] => None
  | (k', s) :: rest => if String.eqb k k' then Some s else field k rest
  end.

(** A value has the shape a schema declares: every property is optional
    (no schema lists required properties), and a property that is present
    is declared and has the declared shape. *)
Fixpoint conforms (s : schema) (v : value) {struct s} : bool :=
  match s, v with
  | STRING, VStr _ => true
  | NUMBER, VNum _ => true
  | ARRAY items, VArr elems [] => forallb (conforms items) elems
  | OBJECT properties, VObj ps =>
      forallb
        (fun kv =>
           (fix declared (l : list (string * schema)) : bool :=
              match l with
              | [] => false
              | (k', s') :: rest =>
                  if String.eqb (fst kv) k' then conforms s' (snd kv)
                  else declared rest
              end) properties)
        ps
  | _, _ => false
  end.

(** What is sent to the service.  Each prompt is a fixed template around
    the interpolated values, so it is represented by those values. *)
Inductive contents : Type :=
| HackathonPrompt (url : string)
| VideoPrompt (base64Video : value) (title judgesList criteria : string)
| TipPrompt (transcript : string) (wpm : number).

Record request : Type := {
  model : string;
  prompt : contents;
  googleSearch : bool;
  responseSchema : option schema;
  maxOutputTokens : option Z
}.

(** [response.text] is a string or [undefined]. *)
Record response : Type := { text : option string }.

(** [try { body } catch (e) { handler }] *)
Definition try_catch {A : Type} (body : result A) (handler : error -> result A)
  : result A :=
  match body with
  | Ok a => Ok a
  | Throw e => handler e
  end.

Fixpoint mapM {A B : Type} (f : A -> result B) (l : list A)
  : result (list B) :=
  match l with
  | [] => Ok []
  | a :: l' => b <- f a ;; bs <- mapM f l' ;; Ok (b :: bs)
  end.

(** [s.split(c)] for a one-character separator. *)
Fixpoint split (c : ascii) (s : string) : list string :=
  match s with
  | EmptyString => [EmptyString]
  | String a s' =>
      if Ascii.eqb a c then EmptyString :: split c s'
      else match split c s' with
           | [] => [String a EmptyString]
           | w :: ws => String a w :: ws
           end
  end.

Definition fallbackJudges : value :=
  VArr
    [ VObj [ ("name", VStr "The Technical Judge");
             ("role", VStr "Senior Engineer");
             ("company", VStr "Tech Corp");
             ("values", strings ["Clean Code"; "Scalability"]);
             ("focusAreas", strings ["Architecture"; "Stack choice"]);
             ("redFlags", strings ["Spaghetti code"; "Security flaws"]);
             ("recommendedTalkingPoints",
               strings ["Mention your tech stack"; "Explain how it scales"]) ];
      VObj [ ("name", VStr "The Product Judge");
             ("role", VStr "Product Manager");
             ("company", VStr "Innovation Inc");
             ("values", strings ["User Experience"; "Problem/Solution Fit"]);
             ("focusAreas", strings ["UI/UX"; "User Journey"]);
             ("redFlags",
               strings ["Confusing UI"; "No clear problem statement"]);
             ("recommendedTalkingPoints",
               strings ["Show the user flow"; "Explain the 'Why'"]) ] ]
    [].

Definition defaultStrategy : value :=
  VObj [ ("structure", VArr [] []);
         ("keyPhrases", VArr [] []);
         ("featuresToEmphasize", VArr [] []);
         ("generatedScript",
           VStr "Could not generate script. Please try analyzing again.") ].

(** [v.length === 0], read on an array only. *)
Definition length_is_0 (v : value) : bool :=
  match v with
  | VArr elems _ => Nat.eqb (List.length elems) 0
  | _ => false
  end.

(** [!data.judges || !Array.isArray(data.judges) || data.judges.length === 0] *)
Definition no_judges (judges : value) : bool :=
  negb (truthy judges) || negb (Array_isArray judges) || length_is_0 judges.

(** The data sanitation of [analyzeHackathonUrl], applied to the parsed
    response. *)
Definition sanitize (data : value) : result value :=
  judges <- get data "judges" ;;
  data <- (if no_judges judges
           then set data "judges" fallbackJudges else Ok data) ;;
  strategy <- get data "strategy" ;;
  data <- (if negb (truthy strategy)
           then set data "strategy" defaultStrategy else Ok data) ;;
  strategy <- get data "strategy" ;;
  generatedScript <- get strategy "generatedScript" ;;
  data <- (if negb (truthy generatedScript)
           then set_in data "strategy" "generatedScript"
                  (VStr "Script generation incomplete.")
           else Ok data) ;;
  strategy <- get data "strategy" ;;
  structure <- get strategy "structure" ;;
  data <- (if negb (truthy structure)
           then set_in data "strategy" "structure" (VArr [] [])
           else Ok data) ;;
  strategy <- get data "strategy" ;;
  keyPhrases <- get strategy "keyPhrases" ;;
  data <- (if negb (truthy keyPhrases)
           then set_in data "strategy" "keyPhrases" (VArr [] [])
           else Ok data) ;;
  Ok data.

Section Platform.

(** The platform and the inference service: [JSON.parse] ([None] for a
    SyntaxError), ToString and ToNumber on values, [FileReader]
    ([None] when it reports an error) and [ai.models.generateContent]. *)
Variable JSON_parse : string -> option value.
Variable ToString : value -> result string.
Variable ToNumber : value -> result number.
Variable Blob : Type.
Variable readAsDataURL : Blob -> option string.
Variable generateContent : request -> result response.

Definition hackathonRequest (url : string) : request :=
  {| model := MODEL_REASONING;
     prompt := HackathonPrompt url;
     googleSearch := true;
     responseSchema := Some hackathonSchema;
     maxOutputTokens := None |}.

Definition analyzeHackathonUrl (url : string) : result value :=
  try_catch
    (response <- generateContent (hackathonRequest url) ;;
     match text response with
     | Some t =>
         if negb (String.eqb t EmptyString) then
           data <- try_catch
                     (match JSON_parse t with
                      | Some data => Ok data
                      | None => Throw SyntaxError
                      end)
                     (fun _ =>
                        Throw (Error "Invalid JSON response from AI")) ;;
           sanitize data
         else Throw (Error "No data returned from Gemini")
     | None => Throw (Error "No data returned from Gemini")
     end)
    (fun error => Throw error).

(** [(reader.result as string).split(',')[1]], or rejection. *)
Definition blobToBase64 (blob : Blob) : result value :=
  match readAsDataURL blob with
  | Some dataUrl =>
      Ok (match nth_error (split ","%char dataUrl) 1 with
          | Some part => VStr part
          | None => VUndefined
          end)
  | None => Throw (Rejected "FileReader error")
  end.

(** [v.length > 0] *)
Definition length_gt_0 (v : value) : result bool :=
  match v with
  | VUndefined | VNull => Throw TypeError
  | VBool _ | VNum _ => Ok false
  | VStr s => Ok (Nat.ltb 0 (String.length s))
  | VArr elems _ => Ok (Nat.ltb 0 (List.length elems))
  | VObj ps => n <- ToNumber (own "length" ps) ;; Ok (gt n zero)
  end.

(** [Array.prototype.join] with separator [', ']. *)
Definition join (elems : list value) : result string :=
  parts <- mapM (fun v => match v with
                          | VUndefined | VNull => Ok EmptyString
                          | _ => ToString v
                          end) elems ;;
  Ok (String.concat ", " parts).

(** A method of [Array.prototype] called on [v]: a TypeError unless [v]
    is an array that does not shadow the method. *)
Definition array_method (name : string) (v : value)
  : result (list value) :=
  match v with
  | VArr elems named =>
      match lookup name named with
      | None => Ok elems
      | Some _ => Throw TypeError
      end
  | _ => Throw TypeError
  end.

Definition judgesList (hackathonData : value) : result string :=
  judges <- get hackathonData "judges" ;;
  nonEmpty <- (if truthy judges then length_gt_0 judges else Ok false) ;;
  if (nonEmpty : bool) then
    elems <- array_method "map" judges ;;
    names <- mapM (fun j => get j "name") elems ;;
    join names
  else Ok "Standard Hackathon Judges".

(** [hackathonData.criteria?.join(', ') || 'General Hackathon Criteria'] *)
Definition criteriaList (hackathonData : value) : result string :=
  criteria <- get hackathonData "criteria" ;;
  match criteria with
  | VUndefined | VNull => Ok "General Hackathon Criteria"
  | _ =>
      elems <- array_method "join" criteria ;;
      s <- join elems ;;
      Ok (if String.eqb s EmptyString
          then "General Hackathon Criteria" else s)
  end.

Definition videoRequest (base64Video : value)
    (title judges criteria : string) : request :=
  {| model := MODEL_FAST;
     prompt := VideoPrompt base64Video title judges criteria;
     googleSearch := false;
     responseSchema := Some analysisSchema;
     maxOutputTokens := None |}.

Definition analyzeVideoDemo (videoBlob : Blob) (hackathonData : value)
  : result value :=
  try_catch
    (base64Video <- blobToBase64 videoBlob ;;
     judges <- judgesList hackathonData ;;
     title <- (t <- get hackathonData "title" ;; ToString t) ;;
     criteria <- criteriaList hackathonData ;;
     response <- generateContent
                   (videoRequest base64Video title judges criteria) ;;
     match text response with
     | Some t =>
         if negb (String.eqb t EmptyString) then
           match JSON_parse t with
           | Some analysis => Ok analysis
           | None => Throw SyntaxError
           end
         else Throw (Error "Analysis failed")
     | None => Throw (Error "Analysis failed")
     end)
    (fun error => Throw error).

Definition tipRequest (transcript : string) (wpm : number) : request :=
  {| model := MODEL_FAST;
     prompt := TipPrompt transcript wpm;
     googleSearch := false;
     responseSchema := None;
     maxOutputTokens := Some 30%Z |}.

Definition getRealTimeFeedback (transcript : string) (wpm : number)
  : result string :=
  try_catch
    (response <- generateContent (tipRequest transcript wpm) ;;
     Ok (match text response with
         | Some t =>
             if negb (String.eqb t EmptyString) then t else "Keep going!"
         | None => "Keep going!"
         end))
    (fun _ => Ok "Keep going!").

End Platform.

End GeminiService.

(** ** components/SmartMirror.tsx: speech pacing and recording *)

Module SmartMirror.

Import GeminiService.

(** A call of [getRealTimeFeedback] whose promise has not settled yet.
    The program keeps no handle on it; [call_id] only names it here. *)
Record tip_call : Type := {
  call_id : nat;
  call_transcript : string;
  call_wpm : number
}.

(** The component's state and refs, the utterances handed to speech
    synthesis (latest first) and the pending tip calls (oldest first). *)
Record state : Type := {
  isRecording : bool;
  recordingTime : Z;
  wpm : number;
  coachFeedback : string;
  streamRef : bool;
  mediaRecorderRef : bool;
  chunksRef : list Z;
  lastTranscriptTimeRef : Z;
  wordCountRef : Z;
  spoken : list string;
  pendingTips : list tip_call;
  issued : nat
}.

(** The state when the component mounts at time [now]. *)
Definition mount (now : Z) (stream : bool) : state :=
  {| isRecording := false;
     recordingTime := 0;
     wpm := zero;
     coachFeedback := "Ready when you are...";
     streamRef := stream;
     mediaRecorderRef := false;
     chunksRef := [];
     lastTranscriptTimeRef := now;
     wordCountRef := 0;
     spoken := [];
     pendingTips := [];
     issued := 0 |}.

Definition setIsRecording (b : bool) (st : state) : state :=
  {| isRecording := b; recordingTime := recordingTime st; wpm := wpm st;
     coachFeedback := coachFeedback st; streamRef := streamRef st;
     mediaRecorderRef := mediaRecorderRef st; chunksRef := chunksRef st;
     lastTranscriptTimeRef := lastTranscriptTimeRef st;
     wordCountRef := wordCountRef st; spoken := spoken st;
     pendingTips := pendingTips st; issued := issued st |}.

Definition setRecordingTime (t : Z) (st : state) : state :=
  {| isRecording := isRecording st; recordingTime := t; wpm := wpm st;
     coachFeedback := coachFeedback st; streamRef := streamRef st;
     mediaRecorderRef := mediaRecorderRef st; chunksRef := chunksRef st;
     lastTranscriptTimeRef := lastTranscriptTimeRef st;
     wordCountRef := wordCountRef st; spoken := spoken st;
     pendingTips := pendingTips st; issued := issued st |}.

Definition setWpm (w : number) (st : state) : state :=
  {| isRecording := isRecording st; recordingTime := recordingTime st;
     wpm := w;
     coachFeedback := coachFeedback st; streamRef := streamRef st;
     mediaRecorderRef := mediaRecorderRef st; chunksRef := chunksRef st;
     lastTranscriptTimeRef := lastTranscriptTimeRef st;
     wordCountRef := wordCountRef st; spoken := spoken st;
     pendingTips := pendingTips st; issued := issued st |}.

Definition setCoachFeedback (fb : string) (st : state) : state :=
  {| isRecording := isRecording st; recordingTime := recordingTime st;
     wpm := wpm st;
     coachFeedback := fb; streamRef := streamRef st;
     mediaRecorderRef := mediaRecorderRef st; chunksRef := chunksRef st;
     lastTranscriptTimeRef := lastTranscriptTimeRef st;
     wordCountRef := wordCountRef st; spoken := spoken st;
     pendingTips := pendingTips st; issued := issued st |}.

Definition set_mediaRecorderRef (b : bool) (st : state) : state :=
  {| isRecording := isRecording st; recordingTime := recordingTime st;
     wpm := wpm st;
     coachFeedback := coachFeedback st; streamRef := streamRef st;
     mediaRecorderRef := b; chunksRef := chunksRef st;
     lastTranscriptTimeRef := lastTranscriptTimeRef st;
     wordCountRef := wordCountRef st; spoken := spoken st;
     pendingTips := pendingTips st; issued := issued st |}.

Definition set_chunksRef (l : list Z) (st : state) : state :=
  {| isRecording := isRecording st; recordingTime := recordingTime st;
     wpm := wpm st;
     coachFeedback := coachFeedback st; streamRef := streamRef st;
     mediaRecorderRef := mediaRecorderRef st; chunksRef := l;
     lastTranscriptTimeRef := lastTranscriptTimeRef st;
     wordCountRef := wordCountRef st; spoken := spoken st;
     pendingTips := pendingTips st; issued := issued st |}.

Definition set_lastTranscriptTimeRef (t : Z) (st : state) : state :=
  {| isRecording := isRecording st; recordingTime := recordingTime st;
     wpm := wpm st;
     coachFeedback := coachFeedback st; streamRef := streamRef st;
     mediaRecorderRef := mediaRecorderRef st; chunksRef := chunksRef st;
     lastTranscriptTimeRef := t;
     wordCountRef := wordCountRef st; spoken := spoken st;
     pendingTips := pendingTips st; issued := issued st |}.

Definition set_wordCountRef (n : Z) (st : state) : state :=
  {| isRecording := isRecording st; recordingTime := recordingTime st;
     wpm := wpm st;
     coachFeedback := coachFeedback st; streamRef := streamRef st;
     mediaRecorderRef := mediaRecorderRef st; chunksRef := chunksRef st;
     lastTranscriptTimeRef := lastTranscriptTimeRef st;
     wordCountRef := n; spoken := spoken st;
     pendingTips := pendingTips st; issued := issued st |}.

(** [speakFeedback(text)]: pending speech is cancelled and [text] is
    handed to the synthesizer. *)
Definition speakFeedback (text : string) (st : state) : state :=
  {| isRecording := isRecording st; recordingTime := recordingTime st;
     wpm := wpm st;
     coachFeedback := coachFeedback st; streamRef := streamRef st;
     mediaRecorderRef := mediaRecorderRef st; chunksRef := chunksRef st;
     lastTranscriptTimeRef := lastTranscriptTimeRef st;
     wordCountRef := wordCountRef st; spoken := text :: spoken st;
     pendingTips := pendingTips st; issued := issued st |}.

(** A call of [getRealTimeFeedback] is started; the caller goes on
    without waiting for it. *)
Definition start_call (transcript : string) (w : number) (st : state)
  : state :=
  {| isRecording := isRecording st; recordingTime := recordingTime st;
     wpm := wpm st;
     coachFeedback := coachFeedback st; streamRef := streamRef st;
     mediaRecorderRef := mediaRecorderRef st; chunksRef := chunksRef st;
     lastTranscriptTimeRef := lastTranscriptTimeRef st;
     wordCountRef := wordCountRef st; spoken := spoken st;
     pendingTips :=
       pendingTips st ++
         [ {| call_id := issued st;
              call_transcript := transcript;
              call_wpm := w |} ];
     issued := S (issued st) |}.

(** The call [id] has settled. *)
Definition end_call (id : nat) (st : state) : state :=
  {| isRecording := isRecording st; recordingTime := recordingTime st;
     wpm := wpm st;
     coachFeedback := coachFeedback st; streamRef := streamRef st;
     mediaRecorderRef := mediaRecorderRef st; chunksRef := chunksRef st;
     lastTranscriptTimeRef := lastTranscriptTimeRef st;
     wordCountRef := wordCountRef st; spoken := spoken st;
     pendingTips :=
       filter (fun c => negb (Nat.eqb (call_id c) id)) (pendingTips st);
     issued := issued st |}.

Definition find_call (id : nat) (st : state) : option tip_call :=
  find (fun c => Nat.eqb (call_id c) id) (pendingTips st).

(** [(now - lastTranscriptTimeRef.current) / 60000] *)
Definition minutes (st : state) (now : Z) : number :=
  div (sub (of_Z now) (of_Z (lastTranscriptTimeRef st))) lit_60000.

(** [Math.round((words - wordCountRef.current) / minutes)] *)
Definition currentWPM (st : state) (words now : Z) : number :=
  Math_round
    (div (sub (of_Z words) (of_Z (wordCountRef st))) (minutes st now)).

(** [fullText.slice(-n)] *)
Definition slice_last (n : nat) (s : string) : string :=
  substring (String.length s - n) n s.

(** [recognition.onresult], from the point where [fullText], [now] and
    [words] (the number of pieces of the trimmed text split at white
    space) are known. *)
Definition onresult (st : state) (fullText : string) (words now : Z)
  : state :=
  if gt (minutes st now) lit_0_08 then
    let c := currentWPM st words now in
    let st := setWpm (if gt c zero then c else zero) st in
    let st := set_wordCountRef words st in
    let st := set_lastTranscriptTimeRef now st in
    if gt c zero then start_call (slice_last 100 fullText) c st
    else st
  else st.

(** The [then] callback of a tip call. *)
Definition show_tip (fb : string) (st : state) : state :=
  speakFeedback fb (setCoachFeedback fb st).

(** Where the platform may throw while a recording starts: in
    [new MediaRecorder(...)], in [mediaRecorder.start()] or in
    [recognitionRef.current?.start()]. *)
Inductive start_failure : Type :=
| ConstructorThrows
| StartThrows
| RecognitionThrows.

(** [startRecording]; an exception leaves the handler where it is thrown. *)
Definition startRecording (st : state) (failure : option start_failure)
  : state :=
  if negb (streamRef st) then st
  else
    let st := set_chunksRef [] st in
    match failure with
    | Some ConstructorThrows => st
    | _ =>
        let st := set_mediaRecorderRef true st in
        match failure with
        | Some StartThrows => st
        | _ =>
            let st := setIsRecording true st in
            match failure with
            | Some RecognitionThrows => st
            | _ => setRecordingTime 0 st
            end
        end
    end.

Definition stopRecording (st : state) : state :=
  if mediaRecorderRef st && isRecording st then setIsRecording false st
  else st.

(** What the event loop delivers to the component. *)
Inductive event : Type :=
| Result (fullText : string) (words now : Z)
| TipSettled (id : nat) (outcome : result response)
| StartRecording (failure : option start_failure)
| StopRecording.

(** One turn of the event loop; [None] when the event cannot occur (no
    pending call has that identifier).  A settled call resolves to what
    [getRealTimeFeedback] makes of the service's outcome, and the [then]
    callback runs on the resolved value. *)
Definition step (st : state) (e : event) : option state :=
  match e with
  | Result fullText words now => Some (onresult st fullText words now)
  | TipSettled id outcome =>
      match find_call id st with
      | Some c =>
          match getRealTimeFeedback (fun _ => outcome)
                  (call_transcript c) (call_wpm c) with
          | Ok fb => Some (show_tip fb (end_call id st))
          | Throw _ => Some (end_call id st)
          end
      | None => None
      end
  | StartRecording failure => Some (startRecording st failure)
  | StopRecording => Some (stopRecording st)
  end.

Fixpoint run (st : state) (es : list event) : option state :=
  match es with
  | [] => Some st
  | e :: es' =>
      match step st e with
      | Some st' => run st' es'
      | None => None
      end
  end.

End SmartMirror.

(** ** Vocabulary of the statements *)

Import GeminiService.

(** Arrays and objects: the values that accept a property write. *)
Definition is_object (v : value) : bool :=
  match v with
  | VArr _ _ | VObj _ => true
  | _ => false
  end.

(** [v.k1.k2] *)
Definition get2 (v : value) (k1 k2 : string) : result value :=
  o <- get v k1 ;; get o k2.

(** The inference layer returned zero judges: [judges] is missing, not an
    array, or an empty array. *)
Definition zero_judges (judges : value) : Prop :=
  forall j js named, judges <> VArr (j :: js) named.

(** [record.judges.length], when [record.judges] is an array. *)
Definition judge_count (record : value) : option nat :=
  match get record "judges" with
  | Ok (VArr js _) => Some (List.length js)
  | _ => None
  end.

(** The four semantic lists of a judge. *)
Definition judgeLists : list string :=
  ["values"; "focusAreas"; "redFlags"; "recommendedTalkingPoints"].

(** Every semantic list of [judge] is an array. *)
Definition has_lists (judge : value) : bool :=
  forallb (fun f => match get judge f with
                    | Ok l => Array_isArray l
                    | Throw _ => false
                    end) judgeLists.

Definition is_nonempty_string (v : value) : bool :=
  match v with
  | VStr s => negb (String.eqb s EmptyString)
  | _ => false
  end.

(** [v] is absent or a string, as a [STRING] property of a schema. *)
Definition string_or_absent (v : value) : bool :=
  match v with
  | VUndefined | VStr _ => true
  | _ => false
  end.

(** [v] is absent or an array, as an [ARRAY] property of a schema. *)
Definition list_or_absent (v : value) : bool :=
  match v with
  | VUndefined | VArr _ _ => true
  | _ => false
  end.

(** The parsed responses on which the sanitation runs to its end: the
    response is an object, and its [strategy] is falsy or an object. *)
Definition sanitizable (data : value) : bool :=
  is_object data &&
  match get data "strategy" with
  | Ok s => negb (truthy s) || is_object s
  | Throw _ => false
  end.

(** The inference layer answered the request for [url] with a non-empty
    text that [JSON.parse] turns into [data]. *)
Definition inferred (JSON_parse : string -> option value)
    (generateContent : request -> result response)
    (url : string) (data : value) : Prop :=
  exists resp t,
    generateContent (hackathonRequest url) = Ok resp /\
    text resp = Some t /\ t <> EmptyString /\ JSON_parse t = Some data.

(** The request [analyzeVideoDemo] sends once the video is encoded and the
    prompt is built; a failure of either step is the failure of the call. *)
Definition video_request (ToString : value -> result string)
    (ToNumber : value -> result number) (Blob : Type)
    (readAsDataURL : Blob -> option string)
    (videoBlob : Blob) (hackathonData : value) : result request :=
  base64Video <- blobToBase64 Blob readAsDataURL videoBlob ;;
  judges <- judgesList ToString ToNumber hackathonData ;;
  title <- (t <- get hackathonData "title" ;; ToString t) ;;
  criteria <- criteriaList ToString hackathonData ;;
  Ok (videoRequest base64Video title judges criteria).

(** A response carries no usable text: [response.text] is [undefined] or
    the empty string. *)
Definition no_text (resp : response) : Prop :=
  text resp = None \/ text resp = Some EmptyString.

(** A repaired property: its value when truthy, else the default. *)
Definition repaired (cur dflt : value) : value :=
  if truthy cur then cur else dflt.

(** How a record [r] returned by the sanitation relates to the parsed
    response [data], property by property. *)
Definition sanitized (data r : value) : Prop :=
  exists j0 s0 s g0 st0 kp0,
    get data "judges" = Ok j0 /\
    get data "strategy" = Ok s0 /\
    get r "judges" = Ok (if no_judges j0 then fallbackJudges else j0) /\
    get r "strategy" = Ok s /\
    (forall k, k <> "judges" -> k <> "strategy" -> get r k = get data k) /\
    get (repaired s0 defaultStrategy) "generatedScript" = Ok g0 /\
    get (repaired s0 defaultStrategy) "structure" = Ok st0 /\
    get (repaired s0 defaultStrategy) "keyPhrases" = Ok kp0 /\
    get s "generatedScript"
      = Ok (repaired g0 (VStr "Script generation incomplete.")) /\
    get s "structure" = Ok (repaired st0 (VArr [] [])) /\
    get s "keyPhrases" = Ok (repaired kp0 (VArr [] [])) /\
    (forall k, k <> "generatedScript" -> k <> "structure" ->
               k <> "keyPhrases" ->
               get s k = get (repaired s0 defaultStrategy) k).

(** ** Sample texts and stubs of the platform *)

Module Sample.

Import GeminiService SmartMirror.

(** The double quote character and a quoted JSON string. *)
Definition dq : string := String "034"%char EmptyString.
Definition quoted (s : string) : string := dq ++ s ++ dq.

(** [JSON.parse] on the texts of a table, a SyntaxError elsewhere. *)
Definition parse_table (table : list (string * value)) (t : string)
  : option value :=
  lookup t table.

(** A service that answers every request with the text [t]. *)
Definition answers (t : string) (_ : request) : result response :=
  Ok {| text := Some t |}.

(** A service that is unreachable. *)
Definition unreachable (_ : request) : result response :=
  Throw (Rejected "NetworkError").

Definition url : string := "https://lu.ma/hackathon".

(** [{}] *)
Definition empty_text : string := "{}".
Definition empty_data : value := VObj [].

(** [{"strategy":{"generatedScript":42}}] *)
Definition numeric_script_text : string :=
  "{" ++ quoted "strategy" ++ ":{" ++ quoted "generatedScript" ++ ":42}}".
Definition numeric_script_data : value :=
  VObj [ ("strategy", VObj [ ("generatedScript", VNum (of_Z 42)) ]) ].

(** [{"title":"Demo Day","judges":[{"name":"Ada"}],"strategy":{}}] *)
Definition bare_judge_text : string :=
  "{" ++ quoted "title" ++ ":" ++ quoted "Demo Day" ++ ","
      ++ quoted "judges" ++ ":[{" ++ quoted "name" ++ ":" ++ quoted "Ada"
      ++ "}]," ++ quoted "strategy" ++ ":{}}".
Definition bare_judge_data : value :=
  VObj [ ("title", VStr "Demo Day");
         ("judges", VArr [ VObj [ ("name", VStr "Ada") ] ] []);
         ("strategy", VObj []) ].

(** [{"overallScore":150}] *)
Definition score_text : string := "{" ++ quoted "overallScore" ++ ":150}".
Definition score_data : value :=
  VObj [ ("overallScore", VNum (of_Z 150)) ].

Definition JSON_parse : string -> option value :=
  parse_table [ (empty_text, empty_data);
                (numeric_script_text, numeric_script_data);
                (bare_judge_text, bare_judge_data);
                (score_text, score_data) ].

(** ToString and ToNumber on the values the samples convert; the samples
    convert no number to a string and no string or object to a number. *)
Definition ToString (v : value) : result string :=
  match v with
  | VStr s => Ok s
  | VUndefined => Ok "undefined"
  | VNull => Ok "null"
  | VBool true => Ok "true"
  | VBool false => Ok "false"
  | _ => Throw (Error "not converted by the samples")
  end.

Definition ToNumber (v : value) : result number :=
  match v with
  | VNum x => Ok x
  | VUndefined => Ok S754_nan
  | VNull => Ok zero
  | VBool true => Ok (of_Z 1)
  | VBool false => Ok zero
  | _ => Throw (Error "not converted by the samples")
  end.

(** A recorded blob is represented by its data URL, if it can be read. *)
Definition readAsDataURL (blob : option string) : option string := blob.

Definition video : option string :=
  Some "data:video/webm;codecs=vp9;base64,GkXfo59ChoEB".

(** Twenty words spoken ten seconds after mounting at time 0, then forty
    words after twenty seconds. *)
Definition first_result : event := Result "first words" 20 10000.
Definition second_result : event := Result "more words" 40 20000.

Definition tip (t : string) : result response := Ok {| text := Some t |}.

(** Both results have started a tip call and neither call has settled. *)
Definition two_pending : state :=
  onresult (onresult (mount 0 true) "first words" 20 10000)
    "more words" 40 20000.

(** A state left over from an earlier recording. *)
Definition used : state :=
  {| isRecording := false;
     recordingTime := 42;
     wpm := of_Z 120;
     coachFeedback := "Slow down!";
     streamRef := true;
     mediaRecorderRef := true;
     chunksRef := [1024%Z];
     lastTranscriptTimeRef := 10000;
     wordCountRef := 20;
     spoken := ["Slow down!"];
     pendingTips := [];
     issued := 1 |}.

End Sample.

(** ** components/SmartMirror.tsx: from a recognition event to the pacer *)

Module Recognition.

Import SmartMirror.

(** [event.results[i]]: whether the result is final, and the transcript of
    its first alternative. *)
Record speech_result : Type := {
  isFinal : bool;
  transcript : string
}.

(** The loop over the results: a final result is appended to the final
    transcript, any other to the interim transcript. *)
Fixpoint transcripts (results : list speech_result)
    (finalTranscript interimTranscript : string) : string * string :=
  match results with
  | [] => (finalTranscript, interimTranscript)
  | r :: rest =>
      if isFinal r
      then transcripts rest (finalTranscript ++ transcript r)
             interimTranscript
      else transcripts rest finalTranscript
             (interimTranscript ++ transcript r)
  end.

Section Text.

(** White space as [trim] and the class [\s] know it (both stand for the
    white space and line terminator characters), and [toLowerCase]. *)
Variable isWhite : ascii -> bool.
Variable toLowerCase : string -> string.

(** [(finalTranscript + interimTranscript).toLowerCase()] after the loop
    from [event.resultIndex]. *)
Definition fullText (results : list speech_result) (resultIndex : nat)
  : string :=
  let (finalTranscript, interimTranscript) :=
    transcripts (skipn resultIndex results) EmptyString EmptyString in
  toLowerCase (finalTranscript ++ interimTranscript).

Fixpoint trimStart (s : string) : string :=
  match s with
  | EmptyString => EmptyString
  | String a s' => if isWhite a then trimStart s' else s
  end.

Fixpoint trimEnd (s : string) : string :=
  match s with
  | EmptyString => EmptyString
  | String a s' =>
      match trimEnd s' with
      | EmptyString => if isWhite a then EmptyString else String a EmptyString
      | t => String a t
      end
  end.

(** [s.trim()] *)
Definition trim (s : string) : string := trimEnd (trimStart s).

(** [s.split(/\s+/)]: the pieces between the maximal runs of white space;
    [inRun] tells that the character before [s] was white.  A string that
    begins or ends with white space has an empty first or last piece, and
    the empty string has one empty piece. *)
Fixpoint pieces (inRun : bool) (s : string) : list string :=
  match s with
  | EmptyString => [EmptyString]
  | String a s' =>
      if isWhite a then
        if inRun then pieces true s' else EmptyString :: pieces true s'
      else
        match pieces false s' with
        | [] => [String a EmptyString]
        | w :: ws => String a w :: ws
        end
  end.

Definition split_white (s : string) : list string := pieces false s.

(** [fullText.trim().split(/\s+/).length] *)
Definition wordCount (fullText : string) : Z :=
  Z.of_nat (List.length (split_white (trim fullText))).

(** The maximal runs of characters that are not white; [inWord] tells that
    the character before [s] was not white. *)
Fixpoint runs (inWord : bool) (s : string) : nat :=
  match s with
  | EmptyString => 0
  | String a s' =>
      if isWhite a then runs false s'
      else (if inWord then 0 else 1) + runs true s'
  end.

Definition words (s : string) : nat := runs false s.

(** [recognition.onresult] on an event that carries [results] from
    [resultIndex] on, at time [now]. *)
Definition recognition_onresult (st : state)
    (results : list speech_result) (resultIndex : nat) (now : Z) : state :=
  let text := fullText results resultIndex in
  onresult st text (wordCount text) now.

End Text.

End Recognition.

(** ** components/SmartMirror.tsx: what the coach view displays *)

Module Display.

(** [String(n)] for a non-negative integer [n] below 10^21. *)
Definition decimal (n : nat) : string :=
  NilEmpty.string_of_uint (Nat.to_uint n).

(** [s.padStart(2, '0')] *)
Definition padStart2 (s : string) : string :=
  match s with
  | EmptyString => "00"
  | String _ EmptyString => String "0"%char s
  | _ => s
  end.

(** [formatTime], on the seconds the timer has counted: a non-negative
    integer, on which [Math.floor(seconds / 60)] and [seconds % 60] are
    the quotient and the remainder. *)
Definition formatTime (seconds : nat) : string :=
  let mins := seconds / 60 in
  let secs := seconds mod 60 in
  decimal mins ++ ":" ++ padStart2 (decimal secs).

(** [v[0]] *)
Definition first (v : value) : result value :=
  match v with
  | VUndefined | VNull => Throw TypeError
  | VStr (String a _) => Ok (VStr (String a EmptyString))
  | VArr (x :: _) _ => Ok x
  | VObj ps => Ok (own "0" ps)
  | _ => Ok VUndefined
  end.

(** What one entry of "The Panel" displays: [j.name[0]], [j.name],
    [j.role] and [j.company]. *)
Record judge_row : Type := {
  row_initial : value;
  row_name : value;
  row_role : value;
  row_company : value
}.

Definition judgeRow (j : value) : result judge_row :=
  name <- get j "name" ;;
  initial <- first name ;;
  role <- get j "role" ;;
  company <- get j "company" ;;
  Ok {| row_initial := initial;
        row_name := name;
        row_role := role;
        row_company := company |}.

(** What React accepts as a child: a string or a number is displayed,
    booleans, [null] and [undefined] display nothing, an array displays
    its elements, and any other object makes the render throw. *)
Fixpoint renderable (v : value) : bool :=
  match v with
  | VObj _ => false
  | VArr elems _ => forallb renderable elems
  | _ => true
  end.

(** React's error for an object among the children; its message begins
    with these words. *)
Definition invalid_child : error :=
  Error "Objects are not valid as a React child".

(** The children of an entry are rendered: the initial, the name, the
    role and the company. *)
Definition render (row : judge_row) : result judge_row :=
  if renderable (row_initial row) && renderable (row_name row) &&
     renderable (row_role row) && renderable (row_company row)
  then Ok row else Throw invalid_child.

(** [hackathonData.judges.slice(0, 3).map(...)]: the callback of [map]
    builds the entries, then React renders their children. *)
Definition panel (hackathonData : value) : result (list judge_row) :=
  judges <- get hackathonData "judges" ;;
  elems <- GeminiService.array_method "slice" judges ;;
  rows <- GeminiService.mapM judgeRow (firstn 3 elems) ;;
  GeminiService.mapM render rows.

Definition newline : ascii := "010"%char.

(** [s.split('\n\n')] *)
Fixpoint split_blank (s : string) : list string :=
  match s with
  | EmptyString => [EmptyString]
  | String a s' =>
      let keep :=
        match split_blank s' with
        | [] => [String a EmptyString]
        | w :: ws => String a w :: ws
        end in
      if Ascii.eqb a newline then
        match s' with
        | String b s'' =>
            if Ascii.eqb b newline then EmptyString :: split_blank s''
            else keep
        | EmptyString => keep
        end
      else keep
  end.

(** The paragraphs of "Your Script":
    [hackathonData.strategy?.generatedScript?.split('\n\n').map(...)];
    [None] stands for the alternative "Script not available.". *)
Definition paragraphs (hackathonData : value)
  : result (option (list string)) :=
  strategy <- get hackathonData "strategy" ;;
  match strategy with
  | VUndefined | VNull => Ok None
  | _ =>
      script <- get strategy "generatedScript" ;;
      match script with
      | VUndefined | VNull => Ok None
      | VStr s => Ok (Some (split_blank s))
      | _ => Throw TypeError
      end
  end.

(** A judge whose [name] is missing or null. *)
Definition nameless (j : value) : bool :=
  match get j "name" with
  | Ok VUndefined | Ok VNull | Throw _ => true
  | Ok _ => false
  end.

(** The name, the role and the company of a judge can be displayed. *)
Definition displayable (j : value) : bool :=
  match get j "name", get j "role", get j "company" with
  | Ok name, Ok role, Ok company =>
      renderable name && renderable role && renderable company
  | _, _, _ => false
  end.

(** The separator of paragraphs, an empty line. *)
Definition blank : string := String newline (String newline EmptyString).

End Display.

(** ** components/SmartMirror.tsx: the recorder *)

Module Recorder.

Import SmartMirror.

(** [mediaRecorder.ondataavailable]: a chunk is kept when it is not
    empty. *)
Definition ondataavailable (st : state) (size : Z) : state :=
  if (0 <? size)%Z then set_chunksRef (chunksRef st ++ [size]) st else st.

(** The chunks [mediaRecorder.onstop] puts into the recorded blob. *)
Definition onstop (st : state) : list Z := chunksRef st.

End Recorder.

(** ** Further vocabulary *)

(** The parsed response is complete: a non-empty array of judges, a
    non-empty string as script, and arrays as [structure] and
    [keyPhrases]. *)
Definition complete (record : value) : bool :=
  match get record "judges" with
  | Ok (VArr (_ :: _) _) => true
  | _ => false
  end &&
  match get2 record "strategy" "generatedScript" with
  | Ok g => is_nonempty_string g
  | Throw _ => false
  end &&
  match get2 record "strategy" "structure" with
  | Ok l => Array_isArray l
  | Throw _ => false
  end &&
  match get2 record "strategy" "keyPhrases" with
  | Ok l => Array_isArray l
  | Throw _ => false
  end.

(** The text a string property contributes to a joined list: the string,
    or nothing when the property is missing. *)
Definition text_of (v : value) : string :=
  match v with
  | VStr s => s
  | _ => EmptyString
  end.

Definition judge_name (judge : value) : string :=
  match get judge "name" with
  | Ok v => text_of v
  | Throw _ => EmptyString
  end.

(** A judge is an object whose [name] is a string or missing. *)
Definition named_judge (judge : value) : bool :=
  is_object judge &&
  match get judge "name" with
  | Ok v => string_or_absent v
  | Throw _ => false
  end.

Definition is_string (v : value) : bool :=
  match v with
  | VStr _ => true
  | _ => false
  end.

(** The character [c] occurs in [s]. *)
Fixpoint occurs (c : ascii) (s : string) : bool :=
  match s with
  | EmptyString => false
  | String a s' => Ascii.eqb a c || occurs c s'
  end.

(** Invariants of the coach. *)
Module Coach.

Import SmartMirror.

(** The rate is 0 or positive: neither negative, nor [-0], nor [NaN]. *)
Definition rate_ok (st : state) : Prop :=
  wpm st = zero \/ gt (wpm st) zero = true.

(** What the coach box shows is what was spoken last, and nothing spoken
    is empty. *)
Definition feedback_ok (st : state) : Prop :=
  coachFeedback st = hd "Ready when you are..." (spoken st) /\
  Forall (fun fb => fb <> EmptyString) (spoken st).

(** Every pending tip call carries at most 100 characters and a positive
    rate. *)
Definition calls_ok (st : state) : Prop :=
  Forall (fun c => String.length (call_transcript c) <= 100 /\
                   gt (call_wpm c) zero = true) (pendingTips st).

End Coach.

(** ** Further samples *)

Module Rehearsal.

Import GeminiService SmartMirror.

(** What the sanitation returns for [Sample.bare_judge_data]. *)
Definition bare_judge_record : value :=
  VObj [ ("title", VStr "Demo Day");
         ("judges", VArr [ VObj [ ("name", VStr "Ada") ] ] []);
         ("strategy",
          VObj [ ("generatedScript", VStr "Script generation incomplete.");
                 ("structure", VArr [] []);
                 ("keyPhrases", VArr [] []) ]) ].

(** A script of two paragraphs. *)
Definition two_paragraphs : string :=
  "Hello judges." ++ Display.blank ++ "This is our demo.".

Definition scripted : value :=
  VObj [ ("strategy", VObj [ ("generatedScript", VStr two_paragraphs) ]) ].

(** A panel whose second judge has no name. *)
Definition nameless_panel : list value :=
  [ VObj [ ("name", VStr "Ada") ]; VObj [ ("role", VStr "CTO") ] ].

Definition nameless_data : value :=
  VObj [ ("judges", VArr nameless_panel []) ].

(** [{"judges":[{"name":"Ada"},{"role":"CTO"}]}] *)
Definition nameless_text : string :=
  "{" ++ Sample.quoted "judges" ++ ":[{" ++ Sample.quoted "name" ++ ":"
      ++ Sample.quoted "Ada" ++ "},{" ++ Sample.quoted "role" ++ ":"
      ++ Sample.quoted "CTO" ++ "}]}".

(** A response whose strategy carries an empty string as script: the text
    [{"strategy":{"generatedScript":S}}] with the empty string literal
    for [S]. *)
Definition empty_script_text : string :=
  "{" ++ Sample.quoted "strategy" ++ ":{" ++ Sample.quoted "generatedScript"
      ++ ":" ++ Sample.quoted EmptyString ++ "}}".
Definition empty_script_data : value :=
  VObj [ ("strategy", VObj [ ("generatedScript", VStr EmptyString) ]) ].

(** A panel whose judge has an object as name:
    [{"judges":[{"name":{"first":"Ada"}}]}]. *)
Definition object_name_panel : list value :=
  [ VObj [ ("name", VObj [ ("first", VStr "Ada") ]) ] ].
Definition object_name_data : value :=
  VObj [ ("judges", VArr object_name_panel []) ].

Definition JSON_parse : string -> option value :=
  Sample.parse_table [ (nameless_text, nameless_data);
                       (empty_script_text, empty_script_data) ].

(** A service that answers with a response without text. *)
Definition silent (_ : request) : result response :=
  Ok {| text := None |}.

(** The white space among the first 256 code units: tab, line feed,
    vertical tab, form feed, carriage return, space and no-break space.
    (The other characters of the class have higher code units.) *)
Definition isWhite (c : ascii) : bool :=
  Ascii.eqb c "009"%char || Ascii.eqb c "010"%char ||
  Ascii.eqb c "011"%char || Ascii.eqb c "012"%char ||
  Ascii.eqb c "013"%char || Ascii.eqb c " "%char ||
  Ascii.eqb c "160"%char.

(** The sizes of the chunks a recorder delivers. *)
Definition chunk_sizes : list Z := [0; 512; 0; 2048]%Z.

(** The two results of [Sample], in their order. *)
Definition two_results : list event :=
  [Sample.first_result; Sample.second_result].

End Rehearsal.

(** ** Vocabulary of the pacer *)

(** A timestamp in milliseconds or a word count: a non-negative integer
    below 2^53, which a number holds exactly. *)
Definition safe (n : Z) : Prop := (0 <= n < 2 ^ 53)%Z.

(** The binary64 form of an integer below 2^53 in magnitude: a mantissa
    of 53 digits and the exponent that goes with it. *)
Definition exponent (p : positive) : Z := (Z.log2 (Zpos p) - 52)%Z.

Definition mantissa (p : positive) : positive :=
  Z.to_pos (Zpos p * 2 ^ (52 - Z.log2 (Zpos p)))%Z.

Definition integer (n : Z) : number :=
  match n with
  | Z0 => S754_zero false
  | Zpos p => S754_finite false (mantissa p) (exponent p)
  | Zneg p => S754_finite true (mantissa p) (exponent p)
  end.

(** Where the exact value [num / den] lies with respect to the mantissa
    of a record and its two bits: on the mantissa, below, on or above
    the middle to the next integer. *)
Definition located (mrs : shr_record) (num den : Z) : Prop :=
  match shr_r mrs, shr_s mrs with
  | false, false => (num = shr_m mrs * den)%Z
  | false, true =>
      (2 * shr_m mrs * den < 2 * num < (2 * shr_m mrs + 1) * den)%Z
  | true, false => (2 * num = (2 * shr_m mrs + 1) * den)%Z
  | true, true =>
      ((2 * shr_m mrs + 1) * den < 2 * num < (2 * shr_m mrs + 2) * den)%Z
  end.

(** The integers from [lo] up to, but without, [hi]. *)
Definition range (lo hi : Z) : list Z :=
  map (fun i => (lo + Z.of_nat i)%Z) (seq 0 (Z.to_nat (hi - lo))).

(** [Math.round(delta / (elapsed / 60000))] clamped at 0, on a word delta
    and an elapsed time in milliseconds. *)
Definition rate (delta elapsed : Z) : number :=
  let c := Math_round (div (of_Z delta) (div (of_Z elapsed) lit_60000)) in
  if gt c zero then c else zero.

Definition number_eqb (x y : number) : bool :=
  match x, y with
  | S754_zero s, S754_zero s' => Bool.eqb s s'
  | S754_infinity s, S754_infinity s' => Bool.eqb s s'
  | S754_nan, S754_nan => true
  | S754_finite s m e, S754_finite s' m' e' =>
      Bool.eqb s s' && Pos.eqb m m' && Z.eqb e e'
  | _, _ => false
  end.

(** Word deltas, elapsed milliseconds and the words per minute they
    give.  The quotients 112.5 and 937.5 of the two observations after
    6400 ms are ties of the exact arithmetic that the binary64 division
    leaves just below the tie. *)
Definition rate_samples : list (Z * Z * Z) :=
  [ (20, 10000, 120); (20, 7000, 171); (1, 7000, 9); (13, 4801, 162);
    (14, 4801, 175); (1, 24000, 3); (1, 120000, 1); (1, 200000, 0);
    (150, 60000, 150); (12, 6400, 112); (100, 6400, 937) ]%Z.

(** * Properties *)

(** ** Property reads after property writes *)

Lemma lookup_update_same (k : string) (v : value) (ps : props) :
  lookup k (update k v ps) = Some v.
Proof.
  induction ps as [|[k' v'] ps IH]; simpl.
  - now rewrite String.eqb_refl.
  - destruct (String.eqb k k') eqn:E; simpl; rewrite E; auto.
Qed.

Lemma lookup_update_other (k k' : string) (v : value) (ps : props) :
  k' <> k -> lookup k' (update k v ps) = lookup k' ps.
Proof.
  intros Hne. apply String.eqb_neq in Hne.
  induction ps as [|[k0 v0] ps IH]; simpl.
  - now rewrite Hne.
  - destruct (String.eqb k k0) eqn:E; simpl.
    + apply String.eqb_eq in E. subst k0. now rewrite Hne.
    + now rewrite IH.
Qed.

Lemma get_set_same (v : value) (k : string) (x v' : value) :
  set v k x = Ok v' -> get v' k = Ok x.
Proof.
  destruct v; simpl; try discriminate; intros [= <-]; simpl;
    unfold own; now rewrite lookup_update_same.
Qed.

Lemma get_set_other (v : value) (k k' : string) (x v' : value) :
  set v k x = Ok v' -> k' <> k -> get v' k' = get v k'.
Proof.
  destruct v; simpl; try discriminate; intros [= <-] Hne; simpl;
    unfold own; now rewrite lookup_update_other.
Qed.

Lemma set_is_object (v : value) (k : string) (x v' : value) :
  set v k x = Ok v' -> is_object v = true /\ is_object v' = true.
Proof.
  destruct v; simpl; try discriminate; intros [= <-]; auto.
Qed.

Lemma set_total (v : value) (k : string) (x : value) :
  is_object v = true -> exists v', set v k x = Ok v'.
Proof.
  destruct v; simpl; try discriminate; eauto.
Qed.

Lemma get_total (v : value) (k : string) :
  is_object v = true -> exists x, get v k = Ok x.
Proof.
  destruct v; simpl; try discriminate; eauto.
Qed.

(** A read that yields something other than [undefined] was made on an
    object. *)
Lemma get_defined_is_object (v : value) (k : string) (x : value) :
  get v k = Ok x -> x <> VUndefined -> is_object v = true.
Proof.
  destruct v; simpl; try discriminate; auto; intros [= <-] H; now elim H.
Qed.

(** The conditional write [if (c) v.k = x]. *)
Lemma cond_set (b : bool) (v : value) (k : string) (x v' cur : value) :
  (if b then set v k x else Ok v) = Ok v' ->
  get v k = Ok cur ->
  get v' k = Ok (if b then x else cur) /\
  (forall k', k' <> k -> get v' k' = get v k').
Proof.
  destruct b; intros H Hcur.
  - split.
    + eapply get_set_same; eauto.
    + intros k' Hne. eapply get_set_other; eauto.
  - injection H as <-. auto.
Qed.

(** The conditional nested write [if (c) v.k1.k2 = x]. *)
Lemma cond_set_in (b : bool) (v : value) (k1 k2 : string)
    (x v' o cur : value) :
  (if b then set_in v k1 k2 x else Ok v) = Ok v' ->
  get v k1 = Ok o ->
  get o k2 = Ok cur ->
  exists o',
    get v' k1 = Ok o' /\
    get o' k2 = Ok (if b then x else cur) /\
    (forall k', k' <> k2 -> get o' k' = get o k') /\
    (forall k', k' <> k1 -> get v' k' = get v k') /\
    (b = true -> is_object o = true) /\
    (is_object o = true -> is_object o' = true).
Proof.
  destruct b; intros H Ho Hcur.
  - unfold set_in in H. rewrite Ho in H. simpl in H.
    destruct (set o k2 x) as [o'|] eqn:Hset; simpl in H; [|discriminate].
    exists o'. repeat split.
    + eapply get_set_same; eauto.
    + eapply get_set_same; eauto.
    + intros k' Hne. eapply get_set_other; eauto.
    + intros k' Hne. eapply get_set_other; eauto.
    + intros _. exact (proj1 (set_is_object _ _ _ _ Hset)).
    + intros _. exact (proj2 (set_is_object _ _ _ _ Hset)).
  - injection H as <-. exists o. repeat split; auto. discriminate.
Qed.

Lemma cond_set_total (b : bool) (v : value) (k : string) (x : value) :
  is_object v = true ->
  exists v', (if b then set v k x else Ok v) = Ok v' /\ is_object v' = true.
Proof.
  intros Hv. destruct b; eauto.
  destruct (set_total v k x Hv) as [v' Hv']. exists v'. split; auto.
  exact (proj2 (set_is_object _ _ _ _ Hv')).
Qed.

Lemma cond_set_in_total (b : bool) (v : value) (k1 k2 : string)
    (x o : value) :
  is_object v = true -> get v k1 = Ok o -> is_object o = true ->
  exists v',
    (if b then set_in v k1 k2 x else Ok v) = Ok v' /\ is_object v' = true.
Proof.
  intros Hv Ho Hobj. destruct b; eauto.
  unfold set_in. rewrite Ho. simpl.
  destruct (set_total o k2 x Hobj) as [o' Ho']. rewrite Ho'. simpl.
  destruct (set_total v k1 o' Hv) as [v' Hv']. exists v'. split; auto.
  exact (proj2 (set_is_object _ _ _ _ Hv')).
Qed.

(** ** The data sanitation of [analyzeHackathonUrl] *)

Lemma no_judges_false (j : value) :
  no_judges j = false -> exists e es named, j = VArr (e :: es) named.
Proof.
  destruct j as [| |b|x|s|[|e es] named|]; unfold no_judges; simpl;
    try discriminate.
  - destruct b; discriminate.
  - destruct (Number.truthy x); discriminate.
  - destruct (negb (s =? EmptyString)); discriminate.
  - eauto.
Qed.

Lemma truthy_defined (v : value) : truthy v = true -> v <> VUndefined.
Proof. intros H ->. discriminate. Qed.

Lemma sanitize_spec (data r : value) :
  sanitize data = Ok r -> sanitized data r /\ sanitizable data = true.
Proof.
  unfold sanitize. intros H.
  destruct (get data "judges") as [j0|] eqn:Hj; simpl in H; [|discriminate].
  destruct (if no_judges j0 then set data "judges" fallbackJudges else Ok data)
    as [d1|] eqn:H1; simpl in H; [|discriminate].
  destruct (cond_set _ _ _ _ _ _ H1 Hj) as [Hj1 Hf1].
  destruct (get d1 "strategy") as [s0|] eqn:Hs0; simpl in H; [|discriminate].
  destruct (if negb (truthy s0) then set d1 "strategy" defaultStrategy
            else Ok d1) as [d2|] eqn:H2; simpl in H; [|discriminate].
  destruct (cond_set _ _ _ _ _ _ H2 Hs0) as [Hs2 Hf2].
  assert (Hs1 : get d2 "strategy" = Ok (repaired s0 defaultStrategy)).
  { rewrite Hs2. unfold repaired. now destruct (truthy s0). }
  clear Hs2. set (s1 := repaired s0 defaultStrategy) in *.
  rewrite Hs1 in H. simpl in H.
  destruct (get s1 "generatedScript") as [g0|] eqn:Hg0; simpl in H;
    [|discriminate].
  match type of H with
  | bind ?stage _ = _ =>
      destruct stage as [d3|] eqn:H3; simpl in H; [|discriminate]
  end.
  destruct (cond_set_in _ _ _ _ _ _ _ _ H3 Hs1 Hg0)
    as (s2 & Hs3 & Hg3 & Hfs3 & Hf3 & Hobj3 & _).
  rewrite Hs3 in H. simpl in H.
  destruct (get s2 "structure") as [st0|] eqn:Hst0; simpl in H;
    [|discriminate].
  match type of H with
  | bind ?stage _ = _ =>
      destruct stage as [d4|] eqn:H4; simpl in H; [|discriminate]
  end.
  destruct (cond_set_in _ _ _ _ _ _ _ _ H4 Hs3 Hst0)
    as (s3 & Hs4 & Hst4 & Hfs4 & Hf4 & _ & _).
  rewrite Hs4 in H. simpl in H.
  destruct (get s3 "keyPhrases") as [kp0|] eqn:Hkp0; simpl in H;
    [|discriminate].
  match type of H with
  | bind ?stage _ = _ =>
      destruct stage as [d5|] eqn:H5; simpl in H; [|discriminate]
  end.
  destruct (cond_set_in _ _ _ _ _ _ _ _ H5 Hs4 Hkp0)
    as (s4 & Hs5 & Hkp5 & Hfs5 & Hf5 & _ & _).
  injection H as H; subst r.
  assert (Hd1 : get d1 "strategy" = get data "strategy")
    by (apply Hf1; discriminate).
  split.
  2:{ unfold sanitizable. rewrite <- Hd1, Hs0.
      apply andb_true_intro. split.
      - destruct (no_judges j0) eqn:Hnj.
        + exact (proj1 (set_is_object _ _ _ _ H1)).
        + apply no_judges_false in Hnj as (e & es & named & ->).
          eapply get_defined_is_object; eauto. discriminate.
      - destruct (truthy s0) eqn:Hts0; simpl; auto.
        assert (s1 = s0) as Es1 by (unfold s1, repaired; now rewrite Hts0).
        rewrite Es1 in *.
        destruct (truthy g0) eqn:Htg0.
        + eapply get_defined_is_object; eauto. now apply truthy_defined.
        + now apply Hobj3. }
  exists j0, s0, s4, g0, st0, kp0. fold s1.
  repeat split.
  - exact Hj.
  - congruence.
  - rewrite Hf5, Hf4, Hf3, Hf2 by discriminate. exact Hj1.
  - exact Hs5.
  - intros k Hk1 Hk2. rewrite Hf5, Hf4, Hf3, Hf2, Hf1; auto.
  - exact Hg0.
  - rewrite <- Hfs3 by discriminate. exact Hst0.
  - rewrite <- Hfs3, <- Hfs4 by discriminate. exact Hkp0.
  - rewrite Hfs5, Hfs4 by discriminate. rewrite Hg3.
    unfold repaired. now destruct (truthy g0).
  - rewrite Hfs5 by discriminate. rewrite Hst4.
    unfold repaired. now destruct (truthy st0).
  - rewrite Hkp5. unfold repaired. now destruct (truthy kp0).
  - intros k K1 K2 K3. rewrite Hfs5, Hfs4, Hfs3; auto.
Qed.

Lemma sanitize_returns (data : value) :
  sanitizable data = true -> exists r, sanitize data = Ok r.
Proof.
  unfold sanitizable. intros H. apply andb_prop in H as [Hobj Hstrat].
  destruct (get_total data "judges" Hobj) as [j0 Hj].
  destruct (get data "strategy") as [s0|] eqn:Hs0; [|discriminate].
  unfold sanitize. rewrite Hj. simpl.
  destruct (cond_set_total (no_judges j0) data "judges" fallbackJudges Hobj)
    as (d1 & H1 & Hobj1).
  rewrite H1. simpl.
  destruct (cond_set _ _ _ _ _ _ H1 Hj) as [_ Hf1].
  rewrite Hf1, Hs0 by discriminate. simpl.
  assert (Hs0' : get d1 "strategy" = Ok s0)
    by (rewrite Hf1; auto; discriminate).
  destruct (cond_set_total (negb (truthy s0)) d1 "strategy" defaultStrategy
              Hobj1) as (d2 & H2 & Hobj2).
  rewrite H2. simpl.
  destruct (cond_set _ _ _ _ _ _ H2 Hs0') as [Hs2 _].
  assert (Hs1 : get d2 "strategy" = Ok (repaired s0 defaultStrategy)).
  { rewrite Hs2. unfold repaired. now destruct (truthy s0). }
  assert (Hobjs : is_object (repaired s0 defaultStrategy) = true).
  { unfold repaired. destruct (truthy s0); simpl in *; auto. }
  clear Hs2. set (s1 := repaired s0 defaultStrategy) in *.
  rewrite Hs1. simpl.
  destruct (get_total s1 "generatedScript" Hobjs) as [g0 Hg0].
  rewrite Hg0. simpl.
  destruct (cond_set_in_total (negb (truthy g0)) d2 "strategy"
              "generatedScript" (VStr "Script generation incomplete.") s1
              Hobj2 Hs1 Hobjs) as (d3 & H3 & Hobj3).
  rewrite H3. simpl.
  destruct (cond_set_in _ _ _ _ _ _ _ _ H3 Hs1 Hg0)
    as (s2 & Hs3 & _ & _ & _ & _ & Hk3).
  specialize (Hk3 Hobjs).
  rewrite Hs3. simpl.
  destruct (get_total s2 "structure" Hk3) as [st0 Hst0].
  rewrite Hst0. simpl.
  destruct (cond_set_in_total (negb (truthy st0)) d3 "strategy"
              "structure" (VArr [] []) s2 Hobj3 Hs3 Hk3) as (d4 & H4 & Hobj4).
  rewrite H4. simpl.
  destruct (cond_set_in _ _ _ _ _ _ _ _ H4 Hs3 Hst0)
    as (s3 & Hs4 & _ & _ & _ & _ & Hk4).
  specialize (Hk4 Hk3).
  rewrite Hs4. simpl.
  destruct (get_total s3 "keyPhrases" Hk4) as [kp0 Hkp0].
  rewrite Hkp0. simpl.
  destruct (cond_set_in_total (negb (truthy kp0)) d4 "strategy"
              "keyPhrases" (VArr [] []) s3 Hobj4 Hs4 Hk4) as (d5 & H5 & _).
  rewrite H5. simpl. eauto.
Qed.

(** ** Responses that have the shape of the response schema *)

Lemma declared_field (k : string) (v : value) (P : list (string * schema)) :
  (fix declared (l : list (string * schema)) : bool :=
     match l with
     | [] => false
     | (k', s') :: rest =>
         if String.eqb k k' then conforms s' v else declared rest
     end) P
  = match field k P with
    | Some s => conforms s v
    | None => false
    end.
Proof.
  induction P as [|[k' s'] P IH]; simpl; auto.
  destruct (String.eqb k k'); auto.
Qed.

Lemma conforms_object (P : list (string * schema)) (v : value) :
  conforms (OBJECT P) v = true ->
  exists ps, v = VObj ps /\
    forall k x, lookup k ps = Some x ->
                exists s, field k P = Some s /\ conforms s x = true.
Proof.
  destruct v as [| | | | | |ps]; simpl; try discriminate.
  intros H. exists ps. split; auto.
  induction ps as [|[k0 v0] ps IH]; simpl in *; intros k x Hk; [discriminate|].
  apply andb_prop in H as [H0 H].
  destruct (String.eqb k k0) eqn:E.
  - apply String.eqb_eq in E. subst k0. injection Hk as <-.
    rewrite declared_field in H0.
    destruct (field k P) as [s|]; [eauto | discriminate].
  - eauto.
Qed.

Lemma conforms_property (P : list (string * schema)) (v : value)
    (k : string) (s : schema) :
  conforms (OBJECT P) v = true -> field k P = Some s ->
  exists x, get v k = Ok x /\ (x = VUndefined \/ conforms s x = true).
Proof.
  intros H Hf. apply conforms_object in H as (ps & -> & Hps).
  simpl. unfold own. destruct (lookup k ps) as [x|] eqn:Hk; eauto.
  exists x. split; auto. right.
  destruct (Hps _ _ Hk) as (s' & Hs' & Hc). congruence.
Qed.

Lemma conforms_sanitizable (data : value) :
  conforms hackathonSchema data = true -> sanitizable data = true.
Proof.
  intros H.
  destruct (conforms_property _ _ "strategy" strategySchema H eq_refl)
    as (s0 & Hs0 & Hc).
  apply conforms_object in H as (ps & -> & _).
  unfold sanitizable. rewrite Hs0. simpl.
  destruct Hc as [-> | Hc]; auto.
  apply conforms_object in Hc as (qs & -> & _). apply orb_true_r.
Qed.

(** ** The judge intelligence resolver *)

Lemma zero_judges_no_judges (j : value) : zero_judges j -> no_judges j = true.
Proof.
  intros H. destruct (no_judges j) eqn:E; auto.
  apply no_judges_false in E as (e & es & named & ->).
  now elim (H e es named).
Qed.

Lemma no_judges_zero_judges (j : value) : no_judges j = true -> zero_judges j.
Proof.
  intros H e es named ->. discriminate.
Qed.

Section Resolver.

Variable JSON_parse : string -> option value.
Variable generateContent : request -> result response.

Lemma analyzeHackathonUrl_inv (url : string) (r : value) :
  analyzeHackathonUrl JSON_parse generateContent url = Ok r <->
  exists data,
    inferred JSON_parse generateContent url data /\ sanitize data = Ok r.
Proof.
  unfold analyzeHackathonUrl, inferred, try_catch. split.
  - destruct (generateContent (hackathonRequest url)) as [resp|] eqn:Hg;
      simpl; [|discriminate].
    destruct (text resp) as [t|] eqn:Ht; [|discriminate].
    destruct (String.eqb t EmptyString) eqn:Et; simpl; [discriminate|].
    apply String.eqb_neq in Et.
    destruct (JSON_parse t) as [data|] eqn:Ep; simpl; [|discriminate].
    destruct (sanitize data) as [r'|] eqn:Hs; [|discriminate].
    intros [= <-]. exists data. split; auto. exists resp, t. auto.
  - intros (data & (resp & t & Hg & Ht & Hne & Hp) & Hs).
    rewrite Hg. simpl. rewrite Ht.
    apply String.eqb_neq in Hne. rewrite Hne. simpl.
    rewrite Hp. simpl. now rewrite Hs.
Qed.

(** The parsed response of a call is determined by the call. *)
Lemma inferred_functional (url : string) (d1 d2 : value) :
  inferred JSON_parse generateContent url d1 ->
  inferred JSON_parse generateContent url d2 -> d1 = d2.
Proof.
  intros (r1 & t1 & G1 & T1 & _ & P1) (r2 & t2 & G2 & T2 & _ & P2).
  congruence.
Qed.

Lemma analyzeHackathonUrl_sanitized (url : string) (data r : value) :
  inferred JSON_parse generateContent url data ->
  analyzeHackathonUrl JSON_parse generateContent url = Ok r ->
  sanitized data r.
Proof.
  intros Hi H. apply analyzeHackathonUrl_inv in H as (d & Hd & Hs).
  rewrite (inferred_functional _ _ _ Hi Hd). now apply sanitize_spec.
Qed.

Lemma fallback_panel_lists :
  exists technical product,
    fallbackJudges = VArr [technical; product] [] /\
    get technical "name" = Ok (VStr "The Technical Judge") /\
    get product "name" = Ok (VStr "The Product Judge") /\
    has_lists technical = true /\ has_lists product = true.
Proof. do 2 eexists. repeat split. Qed.

(** C1.  When the inference layer returns zero judges (the parsed
    [judges] is missing, not an array, or an empty array), every record
    [analyzeHackathonUrl] returns carries the built-in fallback panel: an
    array of at least two judges, each with its four semantic lists present
    as arrays.  The call does return whenever the parsed response is an
    object whose [strategy] is falsy or an object.  Consequently no
    returned record has an empty judge panel. *)
Theorem fallback_panel_when_no_judges (url : string) (data judges : value) :
  inferred JSON_parse generateContent url data ->
  get data "judges" = Ok judges ->
  zero_judges judges ->
  (forall r,
      analyzeHackathonUrl JSON_parse generateContent url = Ok r ->
      exists js,
        get r "judges" = Ok (VArr js []) /\
        2 <= List.length js /\
        Forall (fun j => has_lists j = true) js) /\
  (sanitizable data = true ->
   exists r, analyzeHackathonUrl JSON_parse generateContent url = Ok r) /\
  (forall url' r',
      analyzeHackathonUrl JSON_parse generateContent url' = Ok r' ->
      exists j js named, get r' "judges" = Ok (VArr (j :: js) named)).
Proof.
  intros Hi Hj Hz. repeat split.
  - intros r Hr.
    destruct (analyzeHackathonUrl_sanitized _ _ _ Hi Hr)
      as (j0 & s0 & s & g0 & st0 & kp0 & Hj0 & _ & Hrj & _).
    assert (j0 = judges) by congruence. subst j0.
    rewrite (zero_judges_no_judges _ Hz) in Hrj.
    eexists. split; [exact Hrj|]. split; [simpl; lia|].
    repeat constructor.
  - intros Hs. destruct (sanitize_returns _ Hs) as [r Hr].
    exists r. apply analyzeHackathonUrl_inv. eauto.
  - intros url' r' Hr'.
    apply analyzeHackathonUrl_inv in Hr' as (d & _ & Hs).
    apply sanitize_spec in Hs
      as [(j0 & s0 & s & g0 & st0 & kp0 & _ & _ & Hrj & _) _].
    rewrite Hrj. destruct (no_judges j0) eqn:E.
    + unfold fallbackJudges. eauto.
    + apply no_judges_false in E as (e & es & named & ->). eauto.
Qed.

(** C2, as amended.  When the inference layer returns zero judges, the
    record [analyzeHackathonUrl] returns contains exactly two judge entries,
    the built-in technical judge and product judge; the three archetypes
    are asked of the inference service in the prompt only. *)
Theorem two_fallback_judges (url : string) (data judges r : value) :
  inferred JSON_parse generateContent url data ->
  get data "judges" = Ok judges ->
  zero_judges judges ->
  analyzeHackathonUrl JSON_parse generateContent url = Ok r ->
  judge_count r = Some 2 /\
  exists technical product,
    get r "judges" = Ok (VArr [technical; product] []) /\
    get technical "name" = Ok (VStr "The Technical Judge") /\
    get product "name" = Ok (VStr "The Product Judge").
Proof.
  intros Hi Hj Hz Hr.
  destruct (analyzeHackathonUrl_sanitized _ _ _ Hi Hr)
    as (j0 & s0 & s & g0 & st0 & kp0 & Hj0 & _ & Hrj & _).
  assert (j0 = judges) by congruence. subst j0.
  rewrite (zero_judges_no_judges _ Hz) in Hrj.
  unfold judge_count. rewrite Hrj. split; [reflexivity|].
  do 2 eexists. repeat split.
Qed.

Lemma repaired_truthy (cur dflt : value) :
  truthy dflt = true -> truthy (repaired cur dflt) = true.
Proof.
  intros H. unfold repaired. destruct (truthy cur) eqn:E; auto.
Qed.

Lemma repaired_string (cur : value) (placeholder : string) :
  placeholder <> EmptyString -> string_or_absent cur = true ->
  is_nonempty_string (repaired cur (VStr placeholder)) = true.
Proof.
  intros Hp Hc. apply String.eqb_neq in Hp.
  destruct cur; try discriminate; unfold repaired; simpl.
  - now rewrite Hp.
  - destruct (negb (s =? EmptyString)) eqn:E; simpl; auto. now rewrite Hp.
Qed.

Lemma repaired_list (cur : value) :
  list_or_absent cur = true -> Array_isArray (repaired cur (VArr [] [])) = true.
Proof.
  destruct cur; try discriminate; auto.
Qed.

(** C5, as amended.  On every successful return the record's
    [strategy.generatedScript] is truthy: it is the placeholder
    "Could not generate script. Please try analyzing again." when the
    parsed [strategy] is missing or falsy, the placeholder
    "Script generation incomplete." when the parsed script is missing or
    falsy, and the parsed script unchanged otherwise.  It is a non-empty
    string whenever the parsed script is missing or a string, in particular
    whenever the parsed response has the shape of the response schema. *)
Theorem generated_script_repaired (url : string) (data r : value) :
  inferred JSON_parse generateContent url data ->
  analyzeHackathonUrl JSON_parse generateContent url = Ok r ->
  exists s0 g,
    get data "strategy" = Ok s0 /\
    get2 r "strategy" "generatedScript" = Ok g /\
    truthy g = true /\
    (truthy s0 = false ->
     g = VStr "Could not generate script. Please try analyzing again.") /\
    (forall g0,
        truthy s0 = true -> get s0 "generatedScript" = Ok g0 ->
        (truthy g0 = false -> g = VStr "Script generation incomplete.") /\
        (truthy g0 = true -> g = g0) /\
        (string_or_absent g0 = true -> is_nonempty_string g = true)) /\
    (conforms hackathonSchema data = true -> is_nonempty_string g = true).
Proof.
  intros Hi Hr.
  destruct (analyzeHackathonUrl_sanitized _ _ _ Hi Hr)
    as (j0 & s0 & s & g0 & st0 & kp0 & _ & Hs0 & _ & Hrs & _ & Hg0 & _ & _
        & Hg & _).
  exists s0, (repaired g0 (VStr "Script generation incomplete.")).
  assert (Hfalsy : truthy s0 = false ->
            g0 = VStr "Could not generate script. Please try analyzing again.").
  { intros E. unfold repaired in Hg0. rewrite E in Hg0. now injection Hg0. }
  assert (Htruthy : forall x, truthy s0 = true ->
            get s0 "generatedScript" = Ok x -> g0 = x).
  { intros x E Hx. unfold repaired in Hg0. rewrite E in Hg0. congruence. }
  split; [exact Hs0|].
  split; [unfold get2; rewrite Hrs; exact Hg|].
  split; [now apply repaired_truthy|].
  split; [intros E; now rewrite (Hfalsy E)|].
  split.
  - intros x E Hx. rewrite (Htruthy x E Hx).
    split; [|split]; intros E'.
    + unfold repaired. now rewrite E'.
    + unfold repaired. now rewrite E'.
    + apply repaired_string; auto. discriminate.
  - intros Hc. apply repaired_string; [discriminate|].
    destruct (conforms_property _ _ "strategy" strategySchema Hc eq_refl)
      as (s0' & Hs0' & Hcs).
    assert (s0' = s0) by congruence. subst s0'.
    destruct Hcs as [-> | Hcs].
    + now rewrite Hfalsy.
    + destruct (conforms_property _ _ "generatedScript" STRING Hcs eq_refl)
        as (x & Hx & Hcx).
      assert (truthy s0 = true) as E.
      { apply conforms_object in Hcs as (qs & -> & _). reflexivity. }
      rewrite (Htruthy _ E Hx).
      destruct Hcx as [-> | Hcx]; auto.
      destruct x; try discriminate; auto.
Qed.

(** C6, as amended.  On every successful return [judges] is a non-empty
    array; when the fallback panel is substituted each of its judges has
    its four semantic lists as arrays, and judges supplied by the inference
    layer are returned as parsed, without per-judge defaults.  The
    strategy's [structure] and [keyPhrases] are never null or undefined: a
    missing or falsy value is replaced by an empty list, and both are lists
    whenever the parsed values were lists or missing.  When the whole
    strategy is substituted, [structure], [keyPhrases] and
    [featuresToEmphasize] are empty lists. *)
Theorem sanitation_defaults (url : string) (data r : value) :
  inferred JSON_parse generateContent url data ->
  analyzeHackathonUrl JSON_parse generateContent url = Ok r ->
  (exists j js named, get r "judges" = Ok (VArr (j :: js) named)) /\
  (forall j0,
      get data "judges" = Ok j0 -> zero_judges j0 ->
      exists js,
        get r "judges" = Ok (VArr js []) /\
        Forall (fun j => has_lists j = true) js) /\
  (forall j0,
      get data "judges" = Ok j0 -> ~ zero_judges j0 ->
      get r "judges" = Ok j0) /\
  exists s0 st kp,
    get data "strategy" = Ok s0 /\
    get2 r "strategy" "structure" = Ok st /\
    get2 r "strategy" "keyPhrases" = Ok kp /\
    truthy st = true /\ truthy kp = true /\
    (truthy s0 = false ->
     st = VArr [] [] /\ kp = VArr [] [] /\
     get2 r "strategy" "featuresToEmphasize" = Ok (VArr [] [])) /\
    (forall st0,
        truthy s0 = true -> get s0 "structure" = Ok st0 ->
        st = repaired st0 (VArr [] []) /\
        (list_or_absent st0 = true -> Array_isArray st = true)) /\
    (forall kp0,
        truthy s0 = true -> get s0 "keyPhrases" = Ok kp0 ->
        kp = repaired kp0 (VArr [] []) /\
        (list_or_absent kp0 = true -> Array_isArray kp = true)).
Proof.
  intros Hi Hr.
  destruct (analyzeHackathonUrl_sanitized _ _ _ Hi Hr)
    as (j0 & s0 & s & g0 & st0 & kp0 & Hj0 & Hs0 & Hrj & Hrs & _ & _ & Hst0
        & Hkp0 & _ & Hst & Hkp & Hframe).
  split; [|split; [|split]].
  - rewrite Hrj. destruct (no_judges j0) eqn:E.
    + unfold fallbackJudges. eauto.
    + apply no_judges_false in E as (e & es & named & ->). eauto.
  - intros j Hj Hz. assert (j0 = j) by congruence. subst j0.
    rewrite (zero_judges_no_judges _ Hz) in Hrj.
    eexists. split; [exact Hrj|]. repeat constructor.
  - intros j Hj Hz. assert (j0 = j) by congruence. subst j0.
    destruct (no_judges j) eqn:E; auto.
    elim Hz. now apply no_judges_zero_judges.
  - exists s0, (repaired st0 (VArr [] [])), (repaired kp0 (VArr [] [])).
    split; [exact Hs0|].
    split; [unfold get2; rewrite Hrs; exact Hst|].
    split; [unfold get2; rewrite Hrs; exact Hkp|].
    split; [now apply repaired_truthy|].
    split; [now apply repaired_truthy|].
    split; [|split].
    + intros E. unfold repaired in Hst0, Hkp0, Hframe.
      rewrite E in Hst0, Hkp0, Hframe.
      injection Hst0 as <-. injection Hkp0 as <-.
      repeat split. unfold get2. rewrite Hrs. simpl.
      rewrite Hframe by discriminate. reflexivity.
    + intros x E Hx. unfold repaired in Hst0 at 1. rewrite E in Hst0.
      assert (st0 = x) by congruence. subst x.
      split; auto. apply repaired_list.
    + intros x E Hx. unfold repaired in Hkp0 at 1. rewrite E in Hkp0.
      assert (kp0 = x) by congruence. subst x.
      split; auto. apply repaired_list.
Qed.

Lemma sanitize_complete (data j0 s0 g0 st0 kp0 : value) :
  get data "judges" = Ok j0 -> no_judges j0 = false ->
  get data "strategy" = Ok s0 -> truthy s0 = true ->
  get s0 "generatedScript" = Ok g0 -> truthy g0 = true ->
  get s0 "structure" = Ok st0 -> truthy st0 = true ->
  get s0 "keyPhrases" = Ok kp0 -> truthy kp0 = true ->
  sanitize data = Ok data.
Proof.
  intros Hj Ej Hs Es Hg Eg Hst Est Hkp Ekp. unfold sanitize.
  rewrite Hj. simpl. rewrite Ej. simpl.
  rewrite Hs. simpl. rewrite Es. simpl.
  rewrite Hs. simpl. rewrite Hg. simpl. rewrite Eg. simpl.
  rewrite Hs. simpl. rewrite Hst. simpl. rewrite Est. simpl.
  rewrite Hs. simpl. rewrite Hkp. simpl. rewrite Ekp. simpl.
  reflexivity.
Qed.


End Resolver.

(** ** The demo critique and the pace coach *)

Section Critique.

Variable JSON_parse : string -> option value.
Variable ToString : value -> result string.
Variable ToNumber : value -> result number.
Variable Blob : Type.
Variable readAsDataURL : Blob -> option string.
Variable generateContent : request -> result response.

Lemma analyzeVideoDemo_unfold (videoBlob : Blob) (hackathonData : value) :
  analyzeVideoDemo JSON_parse ToString ToNumber Blob readAsDataURL
      generateContent videoBlob hackathonData =
  (req <- video_request ToString ToNumber Blob readAsDataURL videoBlob
        hackathonData ;;
   response <- generateContent req ;;
   match text response with
   | Some t =>
       if negb (String.eqb t EmptyString) then
         match JSON_parse t with
         | Some analysis => Ok analysis
         | None => Throw SyntaxError
         end
       else Throw (Error "Analysis failed")
   | None => Throw (Error "Analysis failed")
   end).
Proof.
  unfold analyzeVideoDemo, video_request, try_catch.
  destruct (blobToBase64 Blob readAsDataURL videoBlob); simpl; auto.
  destruct (judgesList ToString ToNumber hackathonData); simpl; auto.
  destruct (get hackathonData "title") as [title|]; simpl; auto.
  destruct (ToString title); simpl; auto.
  destruct (criteriaList ToString hackathonData); simpl; auto.
  destruct (generateContent _) as [resp|]; simpl; auto.
  destruct (text resp) as [t|]; auto.
  destruct (negb (t =? EmptyString)); auto.
  destruct (JSON_parse t); auto.
Qed.

(** C7.  [analyzeVideoDemo] returns the parsed response as it is: every
    result it returns is what [JSON.parse] makes of a non-empty response
    text, and every such parse is returned unchanged, whatever its
    [overallScore].  When the video cannot be encoded, when the inference
    call fails, or when the response carries no text, the call throws. *)
Theorem critique_verbatim (videoBlob : Blob) (hackathonData : value) :
  (forall r,
      analyzeVideoDemo JSON_parse ToString ToNumber Blob readAsDataURL
      generateContent videoBlob hackathonData = Ok r ->
      exists req resp t,
        video_request ToString ToNumber Blob readAsDataURL videoBlob
        hackathonData = Ok req /\
        generateContent req = Ok resp /\
        text resp = Some t /\ t <> EmptyString /\ JSON_parse t = Some r) /\
  (forall req resp t r,
      video_request ToString ToNumber Blob readAsDataURL videoBlob
        hackathonData = Ok req ->
      generateContent req = Ok resp ->
      text resp = Some t -> t <> EmptyString -> JSON_parse t = Some r ->
      analyzeVideoDemo JSON_parse ToString ToNumber Blob readAsDataURL
      generateContent videoBlob hackathonData = Ok r) /\
  (readAsDataURL videoBlob = None ->
   exists e, analyzeVideoDemo JSON_parse ToString ToNumber Blob readAsDataURL
      generateContent videoBlob hackathonData = Throw e) /\
  (forall req e,
      video_request ToString ToNumber Blob readAsDataURL videoBlob
        hackathonData = Ok req ->
      generateContent req = Throw e ->
      analyzeVideoDemo JSON_parse ToString ToNumber Blob readAsDataURL
      generateContent videoBlob hackathonData = Throw e) /\
  (forall req resp,
      video_request ToString ToNumber Blob readAsDataURL videoBlob
        hackathonData = Ok req ->
      generateContent req = Ok resp -> no_text resp ->
      analyzeVideoDemo JSON_parse ToString ToNumber Blob readAsDataURL
      generateContent videoBlob hackathonData
      = Throw (Error "Analysis failed")).
Proof.
  rewrite analyzeVideoDemo_unfold.
  split; [|split; [|split; [|split]]].
  - intros r.
    destruct (video_request ToString ToNumber Blob readAsDataURL videoBlob
        hackathonData) as [req|]; simpl;
      [|discriminate].
    destruct (generateContent req) as [resp|] eqn:Hg; simpl; [|discriminate].
    destruct (text resp) as [t|] eqn:Ht; [|discriminate].
    destruct (String.eqb t EmptyString) eqn:Et; simpl; [discriminate|].
    apply String.eqb_neq in Et.
    destruct (JSON_parse t) as [a|] eqn:Hp; [|discriminate].
    intros [= <-]. exists req, resp, t. auto.
  - intros req resp t r -> Hg Ht Hne Hp. simpl. rewrite Hg. simpl.
    rewrite Ht. apply String.eqb_neq in Hne. rewrite Hne. simpl.
    now rewrite Hp.
  - intros Hread. unfold video_request, blobToBase64. rewrite Hread.
    simpl. eauto.
  - intros req e -> Hg. simpl. now rewrite Hg.
  - intros req resp -> Hg [Ht | Ht]; simpl; rewrite Hg; simpl; now rewrite Ht.
Qed.

Lemma getRealTimeFeedback_returns (transcript : string) (wpm : number) :
  exists tip,
    getRealTimeFeedback generateContent transcript wpm = Ok tip /\
    tip <> EmptyString.
Proof.
  unfold getRealTimeFeedback, try_catch.
  destruct (generateContent (tipRequest transcript wpm)) as [resp|]; simpl.
  - destruct (text resp) as [t|].
    + destruct (String.eqb t EmptyString) eqn:Et; simpl.
      * eexists. split; [reflexivity | discriminate].
      * apply String.eqb_neq in Et. eauto.
    + eexists. split; [reflexivity | discriminate].
  - eexists. split; [reflexivity | discriminate].
Qed.

(** C4.  [getRealTimeFeedback] never throws: for every transcript tail
    and rate it returns a non-empty tip, which is "Keep going!" when the
    inference call fails or the response carries no text, and the response
    text otherwise. *)
Theorem tip_never_raises (transcript : string) (wpm : number) :
  (exists tip,
      getRealTimeFeedback generateContent transcript wpm = Ok tip /\
      tip <> EmptyString) /\
  (forall e,
      generateContent (tipRequest transcript wpm) = Throw e ->
      getRealTimeFeedback generateContent transcript wpm
      = Ok "Keep going!") /\
  (forall resp,
      generateContent (tipRequest transcript wpm) = Ok resp ->
      no_text resp ->
      getRealTimeFeedback generateContent transcript wpm
      = Ok "Keep going!") /\
  (forall resp t,
      generateContent (tipRequest transcript wpm) = Ok resp ->
      text resp = Some t -> t <> EmptyString ->
      getRealTimeFeedback generateContent transcript wpm = Ok t).
Proof.
  split; [apply getRealTimeFeedback_returns|].
  unfold getRealTimeFeedback, try_catch.
  split; [|split].
  - intros e ->. reflexivity.
  - intros resp -> [Ht | Ht]; simpl; now rewrite Ht.
  - intros resp t -> Ht Hne. simpl. rewrite Ht.
    apply String.eqb_neq in Hne. now rewrite Hne.
Qed.

End Critique.

Import SmartMirror.

(** ** Arithmetic of the pacer *)

Lemma clamp_not_negative (c : number) :
  gt zero (if gt c zero then c else zero) = false.
Proof. destruct c as [s|s| |s m e]; try destruct s; reflexivity. Qed.

(** The interval in milliseconds: 4800 ms do not pass the test
    [minutes > 0.08], 4801 ms do. *)
Lemma interval_boundary :
  let last := 1700000000000%Z in
  let elapsed ms := div (sub (of_Z (last + ms)) (of_Z last)) lit_60000 in
  gt (elapsed 4800%Z) lit_0_08 = false /\
  gt (elapsed 4801%Z) lit_0_08 = true /\
  gt (elapsed 0%Z) lit_0_08 = false /\
  gt (elapsed (-1)%Z) lit_0_08 = false.
Proof. vm_compute. auto. Qed.

(** The literal [0.08] is within half a unit in the last place of 8/100,
    and it is what the division 8 / 100 gives. *)
Lemma lit_0_08_nearest :
  (Z.abs (100 * 5764607523034235 - 8 * 2 ^ 56) <= 50)%Z /\
  div (of_Z 8) (of_Z 100) = lit_0_08.
Proof. split; [vm_compute; discriminate | vm_compute; reflexivity]. Qed.

(** *** Integers as binary64 numbers *)

Local Open Scope Z_scope.

Lemma digits2_pos_size (p : positive) : digits2_pos p = Pos.size p.
Proof. induction p; simpl; congruence. Qed.

Lemma Zdigits2_log2 (p : positive) :
  Zdigits2 (Zpos p) = Z.log2 (Zpos p) + 1.
Proof.
  simpl. rewrite digits2_pos_size. destruct p; simpl; lia.
Qed.

Lemma fexp_normal (x : Z) :
  fexp prec emax x = Z.max (x - 53) (-1074).
Proof. reflexivity. Qed.

Lemma iter_pos_iter (A : Type) (f : A -> A) (n : positive) (x : A) :
  iter_pos f n x = Pos.iter f x n.
Proof.
  revert x. induction n as [n IH|n IH|]; intros x; simpl.
  - rewrite !IH. now rewrite <- !Pos.iter_swap.
  - now rewrite !IH.
  - reflexivity.
Qed.

Lemma iter_xO_value (p n : positive) :
  Zpos (Pos.iter xO p n) = Zpos p * 2 ^ Zpos n.
Proof.
  induction n as [|n IH] using Pos.peano_ind.
  - simpl. lia.
  - rewrite Pos.iter_succ, Pos2Z.inj_xO, IH, Pos2Z.inj_succ, Z.pow_succ_r
      by lia.
    lia.
Qed.

Lemma shr_1_exact (p n : positive) :
  Pos.iter shr_1 {| shr_m := Zpos (Pos.iter xO p n);
                    shr_r := false; shr_s := false |} n
  = {| shr_m := Zpos p; shr_r := false; shr_s := false |}.
Proof.
  induction n as [|n IH] using Pos.peano_ind.
  - reflexivity.
  - rewrite Pos.iter_succ_r, Pos.iter_succ. simpl. exact IH.
Qed.

Lemma log2_normal (p : positive) :
  2 ^ 52 <= Zpos p < 2 ^ 53 -> Z.log2 (Zpos p) = 52.
Proof. intros H. apply Z.log2_unique; [lia | exact H]. Qed.

(** A mantissa of 53 digits with an exponent in range is not rounded. *)
Lemma round_normal (s : bool) (m : positive) (e : Z) :
  2 ^ 52 <= Zpos m < 2 ^ 53 -> -1074 <= e <= 971 ->
  binary_round_aux prec emax s (Zpos m) e loc_Exact = S754_finite s m e.
Proof.
  intros Hm He. unfold binary_round_aux, shr_fexp.
  rewrite Zdigits2_log2, (log2_normal m Hm), fexp_normal.
  replace (Z.max (52 + 1 + e - 53) (-1074) - e) with 0 by lia.
  cbn [shr shr_record_of_loc shr_m loc_of_shr_record round_nearest_even].
  rewrite Zdigits2_log2, (log2_normal m Hm), fexp_normal.
  replace (Z.max (52 + 1 + e - 53) (-1074) - e) with 0 by lia.
  cbn [shr shr_record_of_loc shr_m].
  replace (e <=? emax - prec) with true; [reflexivity|].
  symmetry. apply Z.leb_le. unfold emax, prec. lia.
Qed.

(** [binary_round] of a value that a mantissa of 53 digits represents:
    the two are the same number, [p * 2^ex = m * 2^e]. *)
Lemma binary_round_exact (s : bool) (p m : positive) (ex e : Z) :
  2 ^ 52 <= Zpos m < 2 ^ 53 -> -1074 <= e <= 971 -> -1074 <= ex ->
  Zpos p * 2 ^ (ex + 1074) = Zpos m * 2 ^ (e + 1074) ->
  binary_round prec emax s p ex = S754_finite s m e.
Proof.
  intros Hm He Hex Hv.
  assert (Hlog : Z.log2 (Zpos p) + ex = 52 + e).
  { assert (H1 : Z.log2 (Zpos p * 2 ^ (ex + 1074))
                 = ex + 1074 + Z.log2 (Zpos p))
      by (apply Z.log2_mul_pow2; lia).
    assert (H2 : Z.log2 (Zpos m * 2 ^ (e + 1074))
                 = e + 1074 + Z.log2 (Zpos m))
      by (apply Z.log2_mul_pow2; lia).
    rewrite Hv, H2, (log2_normal m Hm) in H1. lia. }
  unfold binary_round.
  change (Zpos (digits2_pos p)) with (Zdigits2 (Zpos p)).
  rewrite Zdigits2_log2, fexp_normal.
  replace (Z.max (Z.log2 (Zpos p) + 1 + ex - 53) (-1074)) with e by lia.
  unfold shl_align.
  destruct (e - ex) as [|n|n] eqn:En.
  - assert (e = ex) by lia. subst ex.
    assert (p = m).
    { apply Pos2Z.inj. apply (Z.mul_reg_r _ _ (2 ^ (e + 1074))); [|exact Hv].
      apply Z.pow_nonzero; lia. }
    subst p. now apply round_normal.
  - (* the value has trailing zeros that are shifted out *)
    assert (Hp : p = Pos.iter xO m n).
    { apply Pos2Z.inj. rewrite iter_xO_value.
      replace (e + 1074) with (Zpos n + (ex + 1074)) in Hv by lia.
      rewrite (Z.pow_add_r 2 (Zpos n) (ex + 1074)) in Hv by lia.
      apply (Z.mul_reg_r _ _ (2 ^ (ex + 1074)));
        [apply Z.pow_nonzero; lia | rewrite Hv; ring]. }
    unfold binary_round_aux, shr_fexp.
    rewrite Zdigits2_log2, fexp_normal.
    replace (Z.max (Z.log2 (Zpos p) + 1 + ex - 53) (-1074) - ex)
      with (Zpos n) by lia.
    cbn [shr shr_record_of_loc].
    rewrite iter_pos_iter, Hp, shr_1_exact.
    cbn [shr_m loc_of_shr_record round_nearest_even].
    replace (ex + Zpos n) with e by lia.
    rewrite Zdigits2_log2, (log2_normal m Hm), fexp_normal.
    replace (Z.max (52 + 1 + e - 53) (-1074) - e) with 0 by lia.
    cbn [shr shr_record_of_loc shr_m].
    replace (e <=? emax - prec) with true; [reflexivity|].
    symmetry. apply Z.leb_le. unfold emax, prec. lia.
  - (* the mantissa is shifted to 53 digits *)
    assert (Hp : Pos.iter xO p n = m).
    { apply Pos2Z.inj. rewrite iter_xO_value.
      replace (ex + 1074) with (Zpos n + (e + 1074)) in Hv by lia.
      rewrite (Z.pow_add_r 2 (Zpos n) (e + 1074)) in Hv by lia.
      apply (Z.mul_reg_r _ _ (2 ^ (e + 1074)));
        [apply Z.pow_nonzero; lia | rewrite <- Hv; ring]. }
    rewrite Hp. now apply round_normal.
Qed.

Lemma mantissa_spec (p : positive) :
  Zpos p < 2 ^ 53 ->
  Zpos (mantissa p) = Zpos p * 2 ^ (- exponent p) /\
  2 ^ 52 <= Zpos (mantissa p) < 2 ^ 53 /\
  -52 <= exponent p <= 0.
Proof.
  intros Hp. unfold mantissa, exponent.
  pose proof (Z.log2_spec (Zpos p) eq_refl) as [Hlo Hhi].
  pose proof (Z.log2_nonneg (Zpos p)) as Hl.
  assert (Hl53 : Z.log2 (Zpos p) < 53) by (apply Z.log2_lt_pow2; lia).
  set (l := Z.log2 (Zpos p)) in *.
  assert (H52 : 2 ^ 52 = 2 ^ l * 2 ^ (52 - l))
    by (rewrite <- Z.pow_add_r by lia; f_equal; lia).
  assert (H53 : 2 ^ 53 = 2 ^ Z.succ l * 2 ^ (52 - l))
    by (rewrite <- Z.pow_add_r by lia; f_equal; lia).
  assert (Hpos : 0 < 2 ^ (52 - l)) by (apply Z.pow_pos_nonneg; lia).
  rewrite Z2Pos.id by nia.
  replace (- (l - 52)) with (52 - l) by lia.
  split; [reflexivity|]. split; [nia | lia].
Qed.

Lemma normalize_integer (n k : Z) :
  - 2 ^ 53 < n < 2 ^ 53 -> 0 <= k <= 1074 ->
  binary_normalize prec emax (n * 2 ^ k) (- k) false = integer n.
Proof.
  intros Hn Hk.
  assert (Hpow : 0 < 2 ^ k) by (apply Z.pow_pos_nonneg; lia).
  destruct n as [|p|p].
  - reflexivity.
  - destruct (mantissa_spec p ltac:(lia)) as (Hv & Hm & He).
    destruct (Zpos p * 2 ^ k) as [|q|q] eqn:Eq; try lia.
    simpl. apply binary_round_exact; try lia.
    rewrite <- Eq, Hv, <- !Z.mul_assoc, <- !Z.pow_add_r by lia.
    do 2 f_equal. lia.
  - destruct (mantissa_spec p ltac:(lia)) as (Hv & Hm & He).
    destruct (Zneg p * 2 ^ k) as [|q|q] eqn:Eq; try lia.
    simpl. apply binary_round_exact; try lia.
    assert (Eq' : Zpos q = Zpos p * 2 ^ k) by lia.
    rewrite Eq', Hv, <- !Z.mul_assoc, <- !Z.pow_add_r by lia.
    do 2 f_equal. lia.
Qed.

Lemma of_Z_integer (n : Z) :
  - 2 ^ 53 < n < 2 ^ 53 -> of_Z n = integer n.
Proof.
  intros Hn. unfold of_Z.
  replace n with (n * 2 ^ 0) at 1 by (simpl; lia).
  now apply (normalize_integer n 0).
Qed.

Lemma shl_align_value (m : positive) (e e' : Z) :
  e' <= e ->
  Zpos (fst (shl_align m e e')) = Zpos m * 2 ^ (e - e').
Proof.
  intros H. unfold shl_align.
  destruct (e' - e) as [|n|n] eqn:En; try lia; simpl fst.
  - replace (e - e') with 0 by lia. simpl. lia.
  - rewrite iter_xO_value. f_equal. f_equal. lia.
Qed.

(** The difference of two safe integers is exact. *)
Lemma sub_exact (a b : Z) :
  safe a -> safe b -> sub (of_Z a) (of_Z b) = of_Z (a - b).
Proof.
  unfold safe. intros Ha Hb.
  rewrite !of_Z_integer by lia.
  destruct a as [|p|p]; [| |lia]; (destruct b as [|q|q]; [| |lia]).
  - reflexivity.
  - reflexivity.
  - now rewrite Z.sub_0_r.
  - destruct (mantissa_spec p ltac:(lia)) as (Hvp & Hmp & Hep).
    destruct (mantissa_spec q ltac:(lia)) as (Hvq & Hmq & Heq).
    unfold integer at 1 2, sub, SFsub.
    set (ez := Z.min (exponent p) (exponent q)).
    cbn [cond_Zopp].
    rewrite !shl_align_value by (unfold ez; lia).
    rewrite Hvp, Hvq, <- !Z.mul_assoc, <- !Z.pow_add_r by (unfold ez; lia).
    replace (- exponent p + (exponent p - ez)) with (- ez) by lia.
    replace (- exponent q + (exponent q - ez)) with (- ez) by lia.
    rewrite <- Z.mul_sub_distr_r.
    pose proof (normalize_integer (Zpos p - Zpos q) (- ez)) as H.
    rewrite Z.opp_involutive in H. apply H; unfold ez; lia.
Qed.

(** *** The quotient by 60000 *)

Lemma shr_m_of_loc (z : Z) (l : location) :
  shr_m (shr_record_of_loc z l) = z.
Proof. destruct l as [|[| |]]; reflexivity. Qed.

Lemma shr_m_shr_1 (mrs : shr_record) :
  0 <= shr_m mrs -> shr_m (shr_1 mrs) = shr_m mrs / 2.
Proof.
  destruct mrs as [m r s]. simpl. intros H.
  destruct m as [|[p|p|]|p]; simpl; try reflexivity; try lia.
  - rewrite Pos2Z.inj_xI.
    rewrite (Z.mul_comm 2), Z.div_add_l by lia. reflexivity.
  - rewrite Pos2Z.inj_xO.
    now rewrite (Z.mul_comm 2), Z.div_mul by lia.
Qed.

Lemma round_nearest_even_bounds (z : Z) (l : location) :
  z <= round_nearest_even z l <= z + 1.
Proof.
  destruct l as [|[| |]]; simpl; try lia.
  destruct (Z.even z); lia.
Qed.

(** A mantissa of 53 or 54 digits is brought to 53 digits by a shift of
    at most one place; one of 53 digits is left as it is. *)
Lemma shr_fexp_shape (z e : Z) (l : location) :
  2 ^ 52 <= z < 2 ^ 54 -> -1074 <= e ->
  exists mrs e',
    shr_fexp prec emax z e l = (mrs, e') /\
    2 ^ 52 <= shr_m mrs < 2 ^ 53 /\ e <= e' <= e + 1 /\
    (z < 2 ^ 53 -> e' = e /\ shr_m mrs = z) /\
    (2 ^ 53 <= z -> e' = e + 1).
Proof.
  intros Hz He. unfold shr_fexp.
  destruct z as [|p|p]; try lia.
  rewrite Zdigits2_log2, fexp_normal.
  destruct (Z_lt_le_dec (Zpos p) (2 ^ 53)) as [Hlt|Hge].
  - rewrite (log2_normal p) by lia.
    replace (Z.max (52 + 1 + e - 53) (-1074) - e) with 0 by lia.
    cbn [shr]. do 2 eexists. split; [reflexivity|].
    rewrite shr_m_of_loc. lia.
  - assert (Hl : Z.log2 (Zpos p) = 53)
      by (apply Z.log2_unique; [lia | split; [exact Hge | apply Hz]]).
    rewrite Hl.
    replace (Z.max (53 + 1 + e - 53) (-1074) - e) with 1 by lia.
    cbn [shr iter_pos]. do 2 eexists. split; [reflexivity|].
    rewrite shr_m_shr_1, shr_m_of_loc by (rewrite shr_m_of_loc; lia).
    split; [|lia].
    split.
    + apply Z.div_le_lower_bound; lia.
    + apply Z.div_lt_upper_bound; lia.
Qed.

(** Rounding a mantissa of 53 or 54 digits gives a finite number whose
    exponent is at most two above; a mantissa of 53 digits keeps its
    exponent and is rounded to itself or to its successor. *)
Lemma round_shape (s : bool) (z e : Z) (l : location) :
  2 ^ 52 <= z < 2 ^ 54 -> -1074 <= e <= 900 ->
  exists m' e',
    binary_round_aux prec emax s z e l = S754_finite s m' e' /\
    e <= e' <= e + 2 /\
    (z < 2 ^ 53 - 1 -> e' = e /\ z <= Zpos m' <= z + 1) /\
    (2 ^ 53 <= z -> e + 1 <= e').
Proof.
  intros Hz He. unfold binary_round_aux.
  destruct (shr_fexp_shape z e l Hz ltac:(lia))
    as (mrs1 & e1 & -> & Hm1 & He1 & Hlow1 & Hhigh1).
  pose proof (round_nearest_even_bounds (shr_m mrs1)
                (loc_of_shr_record mrs1)) as Hr.
  destruct (shr_fexp_shape
              (round_nearest_even (shr_m mrs1) (loc_of_shr_record mrs1))
              e1 loc_Exact ltac:(lia) ltac:(lia))
    as (mrs2 & e2 & -> & Hm2 & He2 & Hlow2 & _).
  destruct (shr_m mrs2) as [|m'|m'] eqn:Em; try lia.
  replace (e2 <=? emax - prec) with true
    by (symmetry; apply Z.leb_le; unfold emax, prec; lia).
  exists m', e2. split; [reflexivity|]. split; [lia|]. split.
  - intros Hz'. destruct (Hlow1 ltac:(lia)) as [-> Hs1].
    rewrite Hs1 in *. destruct (Hlow2 ltac:(lia)) as [-> Hs2]. lia.
  - intros Hz'. specialize (Hhigh1 Hz'). lia.
Qed.

Lemma lit_60000_finite :
  lit_60000 = S754_finite false 8246337208320000 (-37).
Proof. reflexivity. Qed.

(** The quotient of a number of 53 digits by 60000: its sign is kept and
    its exponent is 14 to 16 below; its mantissa is the quotient of the
    mantissas or the successor of it where that has 53 digits. *)
Lemma div_60000_shape (s : bool) (m : positive) (e : Z) :
  2 ^ 52 <= Zpos m < 2 ^ 53 -> -1000 <= e <= 900 ->
  exists m' e',
    div (S754_finite s m e) lit_60000 = S754_finite s m' e' /\
    e - 16 <= e' <= e - 14 /\
    (Zpos m * 2 ^ 53 / 8246337208320000 < 2 ^ 53 - 1 ->
     e' = e - 16 /\
     Zpos m * 2 ^ 53 / 8246337208320000 <= Zpos m'
     <= Zpos m * 2 ^ 53 / 8246337208320000 + 1) /\
    (2 ^ 53 <= Zpos m * 2 ^ 53 / 8246337208320000 -> e - 15 <= e').
Proof.
  intros Hm He. rewrite lit_60000_finite. unfold div, SFdiv.
  unfold SFdiv_core_binary.
  rewrite !Zdigits2_log2, (log2_normal m Hm).
  change (Z.log2 (Zpos 8246337208320000)) with 52.
  rewrite fexp_normal.
  replace (Z.min (Z.max (52 + 1 + e - (52 + 1 + -37) - 53) (-1074))
             (e - -37)) with (e - 16) by lia.
  replace (e - -37 - (e - 16)) with 53 by lia.
  cbv iota.
  destruct (Z.div_eucl (Z.shiftl (Zpos m) 53) (Zpos 8246337208320000))
    as [q r] eqn:Ed.
  assert (Hq : q = Zpos m * 2 ^ 53 / 8246337208320000).
  { unfold Z.div. rewrite <- Z.shiftl_mul_pow2 by lia. now rewrite Ed. }
  rewrite <- Hq.
  assert (Hb : 2 ^ 52 <= q < 2 ^ 54).
  { subst q. split.
    - apply Z.div_le_lower_bound; lia.
    - apply Z.div_lt_upper_bound; lia. }
  replace (xorb s false) with s by (now destruct s).
  destruct (round_shape s q (e - 16)
              (new_location (Zpos 8246337208320000) r) Hb ltac:(lia))
    as (m' & e' & -> & He' & Hlow & Hhigh).
  exists m', e'. split; [reflexivity|]. split; [lia|]. split.
  - intros H. specialize (Hlow H). lia.
  - intros H. specialize (Hhigh H). lia.
Qed.

(** *** The interval *)

Lemma in_range (lo hi n : Z) : lo <= n < hi -> In n (range lo hi).
Proof.
  intros H. apply in_map_iff. exists (Z.to_nat (n - lo)).
  split; [lia|]. apply in_seq. lia.
Qed.

(** The elapsed times on which the test [minutes > 0.08] is evaluated:
    those whose quotient by 60000 has its exponent next to that of
    [0.08]. *)
Lemma gate_evaluated :
  forallb (fun d => negb (gt (div (integer d) lit_60000) lit_0_08))
    (range 1875 2048 ++ range 3750 4096) = true.
Proof. vm_compute. reflexivity. Qed.

Lemma mantissa_at (p : positive) (l : Z) :
  2 ^ l <= Zpos p < 2 ^ (l + 1) -> 0 <= l <= 52 ->
  exponent p = l - 52 /\ Zpos (mantissa p) = Zpos p * 2 ^ (52 - l) /\
  2 ^ 52 <= Zpos (mantissa p) < 2 ^ 53.
Proof.
  intros Hp Hl.
  assert (Hlog : Z.log2 (Zpos p) = l) by (apply Z.log2_unique; lia).
  assert (Hlt : Zpos p < 2 ^ 53).
  { apply Z.lt_le_trans with (1 := proj2 Hp).
    apply Z.pow_le_mono_r; lia. }
  destruct (mantissa_spec p Hlt) as (Hv & Hm & _).
  unfold exponent in *. rewrite Hlog in *.
  split; [reflexivity|]. split; [|exact Hm].
  rewrite Hv. f_equal. f_equal. lia.
Qed.

(** The comparison with [0.08] of a positive number. *)
Lemma gt_lit_0_08 (m : positive) (e : Z) :
  gt (S754_finite false m e) lit_0_08 =
  match -56 ?= e with
  | Lt => true
  | Gt => false
  | Eq => 5764607523034235 <? Zpos m
  end.
Proof.
  unfold gt, SFltb, lit_0_08, SFcompare.
  destruct (-56 ?= e); reflexivity.
Qed.

(** [elapsed / 60000 > 0.08] holds exactly when more than 4800
    milliseconds have elapsed. *)
Lemma gate_integer (d : Z) :
  - 2 ^ 53 < d < 2 ^ 53 ->
  gt (div (of_Z d) lit_60000) lit_0_08 = (4800 <? d).
Proof.
  intros Hd. rewrite of_Z_integer by exact Hd.
  destruct d as [|p|p].
  - reflexivity.
  - (* a positive time, by the number of its digits *)
    assert (Hcases :
              Zpos p < 1875 \/ 1875 <= Zpos p < 2048 \/
              2048 <= Zpos p < 3750 \/ 3750 <= Zpos p < 4096 \/
              4096 <= Zpos p < 7500 \/ 7500 <= Zpos p) by lia.
    destruct Hcases as [H|[H|[H|[H|[H|H]]]]].
    + replace (4800 <? Zpos p) with false by (symmetry; apply Z.ltb_ge; lia).
      destruct (mantissa_spec p ltac:(lia)) as (Hv & Hm & He).
      assert (Hl : Z.log2 (Zpos p) < 11) by (apply Z.log2_lt_pow2; lia).
      destruct (div_60000_shape false (mantissa p) (exponent p) Hm
                  ltac:(lia)) as (m' & e' & E & He' & Hlow & _).
      unfold integer. rewrite E, gt_lit_0_08.
      destruct (Z_lt_le_dec (Z.log2 (Zpos p)) 10) as [Hl10|Hl10].
      * unfold exponent in He'.
        replace (-56 ?= e') with Gt; [reflexivity|].
        symmetry. apply Z.compare_gt_iff. lia.
      * destruct (mantissa_at p 10) as (Ee & Hv' & _);
          [split; [apply Z.log2_le_pow2; lia | lia] | lia |].
        destruct Hlow as [He'' _].
        { rewrite Hv'. apply Z.div_lt_upper_bound; lia. }
        replace (-56 ?= e') with Gt; [reflexivity|].
        symmetry. apply Z.compare_gt_iff. lia.
    + replace (4800 <? Zpos p) with false by (symmetry; apply Z.ltb_ge; lia).
      pose proof (proj1 (forallb_forall _ _) gate_evaluated (Zpos p)) as Hev.
      apply negb_true_iff, Hev, in_or_app. left. now apply in_range.
    + replace (4800 <? Zpos p) with false by (symmetry; apply Z.ltb_ge; lia).
      destruct (mantissa_at p 11) as (Ee & Hv & Hm); [lia | lia |].
      destruct (div_60000_shape false (mantissa p) (exponent p) Hm
                  ltac:(lia)) as (m' & e' & E & He' & Hlow & _).
      unfold integer. rewrite E, gt_lit_0_08.
      destruct Hlow as [He'' _].
      { rewrite Hv. apply Z.div_lt_upper_bound; lia. }
      replace (-56 ?= e') with Gt; [reflexivity|].
      symmetry. apply Z.compare_gt_iff. lia.
    + replace (4800 <? Zpos p) with false by (symmetry; apply Z.ltb_ge; lia).
      pose proof (proj1 (forallb_forall _ _) gate_evaluated (Zpos p)) as Hev.
      apply negb_true_iff, Hev, in_or_app. right. now apply in_range.
    + (* the exponent of [0.08]: the mantissas are compared *)
      destruct (mantissa_at p 12) as (Ee & Hv & Hm); [lia | lia |].
      destruct (div_60000_shape false (mantissa p) (exponent p) Hm
                  ltac:(lia)) as (m' & e' & E & He' & Hlow & _).
      unfold integer. rewrite E, gt_lit_0_08.
      destruct Hlow as [He'' Hm'].
      { rewrite Hv. apply Z.div_lt_upper_bound; lia. }
      replace (-56 ?= e') with Eq
        by (symmetry; apply Z.compare_eq_iff; lia).
      rewrite Hv in Hm'.
      destruct (Z_lt_le_dec 4800 (Zpos p)) as [Hp|Hp].
      * replace (4800 <? Zpos p) with true by (symmetry; apply Z.ltb_lt; lia).
        apply Z.ltb_lt.
        apply Z.lt_le_trans with (2 := proj1 Hm').
        apply Z.lt_le_trans with (5764607523034236); [lia|].
        apply Z.div_le_lower_bound; lia.
      * replace (4800 <? Zpos p) with false by (symmetry; apply Z.ltb_ge; lia).
        apply Z.ltb_ge.
        apply Z.le_trans with (1 := proj2 Hm').
        assert (Zpos p * 2 ^ (52 - 12) * 2 ^ 53 / 8246337208320000
                < 5764607523034235); [|lia].
        apply Z.div_lt_upper_bound; lia.
    + replace (4800 <? Zpos p) with true by (symmetry; apply Z.ltb_lt; lia).
      destruct (mantissa_spec p ltac:(lia)) as (Hv & Hm & He).
      assert (Hl : 12 <= Z.log2 (Zpos p)) by (apply Z.log2_le_pow2; lia).
      destruct (div_60000_shape false (mantissa p) (exponent p) Hm
                  ltac:(lia)) as (m' & e' & E & He' & _ & Hhigh).
      unfold integer. rewrite E, gt_lit_0_08.
      replace (-56 ?= e') with Lt; [reflexivity|].
      symmetry. apply Z.compare_lt_iff.
      destruct (Z_lt_le_dec 12 (Z.log2 (Zpos p))) as [Hl13|Hl12].
      * unfold exponent in He'. lia.
      * destruct (mantissa_at p 12) as (Ee & Hv' & _);
          [split; [apply Z.log2_le_pow2; lia|] | lia |].
        { assert (Z.log2 (Zpos p) < 13) by lia.
          apply Z.log2_lt_pow2; lia. }
        assert (Hq : 2 ^ 53 <= Zpos (mantissa p) * 2 ^ 53 / 8246337208320000)
          by (rewrite Hv'; apply Z.div_le_lower_bound; lia).
        specialize (Hhigh Hq). lia.
  - replace (4800 <? Zneg p) with false by (symmetry; apply Z.ltb_ge; lia).
    destruct (mantissa_spec p ltac:(lia)) as (_ & Hm & He).
    destruct (div_60000_shape true (mantissa p) (exponent p) Hm
                ltac:(lia)) as (m' & e' & E & _).
    unfold integer. rewrite E. reflexivity.
Qed.

(** *** The rate *)

Lemma binary_round_aux_sign (s : bool) (z e : Z) (l : location) :
  match binary_round_aux prec emax s z e l with
  | S754_zero s' | S754_infinity s' | S754_finite s' _ _ => s' = s
  | S754_nan => True
  end.
Proof.
  unfold binary_round_aux.
  destruct (shr_fexp prec emax z e l) as [mrs1 e1].
  destruct (shr_fexp prec emax _ e1 loc_Exact) as [mrs2 e2].
  destruct (shr_m mrs2); auto.
  destruct (e2 <=? emax - prec); reflexivity.
Qed.

Lemma binary_round_sign (s : bool) (p : positive) (e : Z) :
  match binary_round prec emax s p e with
  | S754_zero s' | S754_infinity s' | S754_finite s' _ _ => s' = s
  | S754_nan => True
  end.
Proof.
  unfold binary_round. destruct (shl_align p e _) as [mz ez].
  apply binary_round_aux_sign.
Qed.

(** [Math.round] of a number that is negative, [-0] or [NaN] is not
    positive. *)
Lemma Math_round_not_positive (x : number) :
  match x with
  | S754_zero s | S754_infinity s | S754_finite s _ _ => s = true
  | S754_nan => True
  end ->
  gt (Math_round x) zero = false.
Proof.
  destruct x as [s|s| |s m e]; try (intros ->; reflexivity); auto.
  intros ->. unfold Math_round.
  destruct (0 <=? e) eqn:Ee; [reflexivity|].
  apply Z.leb_gt in Ee. cbn [cond_Zopp].
  set (n := (2 * - Zpos m + 2 ^ (- e)) / 2 ^ (1 - e)).
  assert (Hn : n <= 0).
  { assert (n < 1); [|lia]. unfold n.
    assert (H2 : 2 ^ (1 - e) = 2 * 2 ^ (- e)).
    { replace (1 - e) with (Z.succ (- e)) by lia.
      apply Z.pow_succ_r. lia. }
    assert (0 < 2 ^ (- e)) by (apply Z.pow_pos_nonneg; lia).
    apply Z.div_lt_upper_bound; lia. }
  destruct (n =? 0) eqn:En; [reflexivity|].
  apply Z.eqb_neq in En.
  destruct n as [|q|q]; try lia.
  unfold of_Z, binary_normalize.
  pose proof (binary_round_sign true q 0) as H.
  destruct (binary_round prec emax true q 0) as [s|s| |s m' e'];
    try subst s; reflexivity.
Qed.

(** A word delta that is not positive gives no positive rate, whatever
    the positive time. *)
Lemma no_rate_without_new_words (delta : Z) (m : positive) (e : Z) :
  - 2 ^ 53 < delta <= 0 ->
  gt (Math_round (div (of_Z delta) (S754_finite false m e))) zero = false.
Proof.
  intros Hd. rewrite of_Z_integer by lia.
  destruct delta as [|p|p]; try lia.
  - reflexivity.
  - apply Math_round_not_positive.
    unfold integer, div, SFdiv.
    destruct (SFdiv_core_binary _ _ _ _ _ _) as [[mz ez] lz].
    apply (binary_round_aux_sign true).
Qed.

(** Above 4800 milliseconds the minutes are a positive number. *)
Lemma minutes_positive (d : Z) :
  0 < d < 2 ^ 53 ->
  exists m e, div (of_Z d) lit_60000 = S754_finite false m e.
Proof.
  intros Hd. rewrite of_Z_integer by lia.
  destruct d as [|p|p]; try lia.
  destruct (mantissa_spec p ltac:(lia)) as (_ & Hm & He).
  destruct (div_60000_shape false (mantissa p) (exponent p) Hm ltac:(lia))
    as (m' & e' & E & _).
  unfold integer. rewrite E. eauto.
Qed.

(** *** Correct rounding of the quotient *)

Ltac located := unfold located; cbn [shr_record_of_loc shr_r shr_s shr_m].

Lemma located_new_location (q r den : Z) :
  0 < den -> 0 <= r < den ->
  located (shr_record_of_loc q (new_location den r)) (q * den + r) den.
Proof.
  intros Hden Hr. unfold new_location, new_location_even, new_location_odd.
  destruct (Z.even den) eqn:Eden.
  - destruct (r =? 0) eqn:Er.
    + apply Z.eqb_eq in Er. subst r. located. lia.
    + apply Z.eqb_neq in Er.
      destruct (Z.compare_spec (2 * r) den) as [H|H|H]; located; lia.
  - assert (Hodd : exists k, den = 2 * k + 1).
    { apply Z.odd_spec. rewrite <- Z.negb_even, Eden. reflexivity. }
    destruct Hodd as [k Hk].
    destruct (r =? 0) eqn:Er.
    + apply Z.eqb_eq in Er. subst r. located. lia.
    + apply Z.eqb_neq in Er.
      destruct (Z.compare_spec (2 * r + 1) den) as [H|H|H]; located; lia.
Qed.

Lemma located_shr_1 (mrs : shr_record) (num den : Z) :
  0 <= shr_m mrs -> 0 < den ->
  located mrs num den -> located (shr_1 mrs) num (2 * den).
Proof.
  destruct mrs as [m r s]. cbn [shr_m]. intros Hm Hden.
  assert (Hcases : exists p b, m = 2 * p + b /\ (b = 0 \/ b = 1) /\
                   shr_1 {| shr_m := m; shr_r := r; shr_s := s |}
                   = {| shr_m := p; shr_r := (b =? 1);
                        shr_s := r || s |}).
  { destruct m as [|[p|p|]|p]; try lia.
    - exists 0, 0. repeat split; auto.
    - exists (Zpos p), 1. repeat split; auto; lia.
    - exists (Zpos p), 0. repeat split; auto; lia.
    - exists 0, 1. repeat split; auto. }
  destruct Hcases as (p & b & -> & Hb & ->).
  unfold located. cbn [shr_m shr_r shr_s].
  destruct Hb as [-> | ->]; destruct r, s;
    cbn [orb Z.eqb Pos.eqb]; nia.
Qed.

Lemma round_located (mrs : shr_record) (num den : Z) :
  0 < den -> located mrs num den ->
  Z.abs (2 * (round_nearest_even (shr_m mrs) (loc_of_shr_record mrs) * den
              - num)) <= den.
Proof.
  destruct mrs as [m r s]. unfold located. cbn [shr_m shr_r shr_s].
  intros Hden.
  destruct r, s; cbn [loc_of_shr_record round_nearest_even]; try nia.
  destruct (Z.even m); nia.
Qed.

Lemma shr_fexp_cases (z e : Z) (l : location) :
  2 ^ 52 <= z < 2 ^ 54 -> -1074 <= e ->
  (z < 2 ^ 53 /\
   shr_fexp prec emax z e l = (shr_record_of_loc z l, e)) \/
  (2 ^ 53 <= z /\
   shr_fexp prec emax z e l = (shr_1 (shr_record_of_loc z l), e + 1)).
Proof.
  intros Hz He. unfold shr_fexp.
  destruct z as [|p|p]; try lia.
  rewrite Zdigits2_log2, fexp_normal.
  destruct (Z_lt_le_dec (Zpos p) (2 ^ 53)) as [Hlt|Hge].
  - left. split; [exact Hlt|].
    rewrite (log2_normal p) by lia.
    now replace (Z.max (52 + 1 + e - 53) (-1074) - e) with 0 by lia.
  - right. split; [exact Hge|].
    assert (Hl : Z.log2 (Zpos p) = 53)
      by (apply Z.log2_unique; [lia | split; [exact Hge | apply Hz]]).
    rewrite Hl.
    now replace (Z.max (53 + 1 + e - 53) (-1074) - e) with 1 by lia.
Qed.

(** Rounding to nearest: the mantissa of the result, at its exponent, is
    within half a unit of the exact value. *)
Lemma round_correct (s : bool) (z e : Z) (l : location) (num den : Z) :
  2 ^ 52 <= z < 2 ^ 54 -> -1074 <= e <= 900 -> 0 < den ->
  located (shr_record_of_loc z l) num den ->
  exists m e' j,
    binary_round_aux prec emax s z e l = S754_finite s m e' /\
    2 ^ 52 <= Zpos m < 2 ^ 53 /\ 0 <= j <= 2 /\ e' = e + j /\
    Z.abs (2 * (Zpos m * 2 ^ j * den - num)) <= 2 ^ j * den.
Proof.
  intros Hz He Hden Hloc. unfold binary_round_aux.
  assert (Hstage1 :
            exists mrs1 j1,
              shr_fexp prec emax z e l = (mrs1, e + j1) /\
              0 <= j1 <= 1 /\ 2 ^ 52 <= shr_m mrs1 < 2 ^ 53 /\
              located mrs1 num (2 ^ j1 * den)).
  { destruct (shr_fexp_cases z e l Hz ltac:(lia)) as [[Hlt ->]|[Hge ->]].
    - exists (shr_record_of_loc z l), 0.
      rewrite Z.add_0_r, shr_m_of_loc. repeat split; try lia.
      now replace (2 ^ 0 * den) with den by lia.
    - exists (shr_1 (shr_record_of_loc z l)), 1.
      rewrite shr_m_shr_1, shr_m_of_loc by (rewrite shr_m_of_loc; lia).
      split; [reflexivity|]. split; [lia|]. split.
      + split; [apply Z.div_le_lower_bound | apply Z.div_lt_upper_bound];
          lia.
      + apply located_shr_1;
          [rewrite shr_m_of_loc; lia | lia | exact Hloc]. }
  destruct Hstage1 as (mrs1 & j1 & -> & Hj1 & Hm1 & Hloc1).
  assert (Hden1 : 0 < 2 ^ j1 * den)
    by (apply Z.mul_pos_pos; [apply Z.pow_pos_nonneg; lia | lia]).
  pose proof (round_located mrs1 num _ Hden1 Hloc1) as Herr.
  pose proof (round_nearest_even_bounds (shr_m mrs1)
                (loc_of_shr_record mrs1)) as Hr.
  set (m' := round_nearest_even (shr_m mrs1) (loc_of_shr_record mrs1)) in *.
  destruct (shr_fexp_cases m' (e + j1) loc_Exact ltac:(lia) ltac:(lia))
    as [[Hlt ->]|[Hge ->]].
  - cbn [shr_record_of_loc shr_m].
    destruct m' as [|m|m] eqn:Em; try lia.
    replace (e + j1 <=? emax - prec) with true
      by (symmetry; apply Z.leb_le; unfold emax, prec; lia).
    exists m, (e + j1), j1. repeat split; lia.
  - assert (Em : m' = 2 ^ 53) by lia.
    rewrite Em. cbn [shr_record_of_loc shr_1 shr_m].
    replace (e + j1 + 1 <=? emax - prec) with true
      by (symmetry; apply Z.leb_le; unfold emax, prec; lia).
    exists (Z.to_pos (2 ^ 52)), (e + j1 + 1), (j1 + 1).
    split; [reflexivity|]. split; [simpl; lia|]. split; [lia|].
    split; [lia|].
    rewrite Em in Herr.
    replace (Zpos (Z.to_pos (2 ^ 52)) * 2 ^ (j1 + 1) * den)
      with (2 ^ 53 * (2 ^ j1 * den)).
    + rewrite Z.pow_add_r by lia. lia.
    + rewrite Z.pow_add_r by lia.
      change (Zpos (Z.to_pos (2 ^ 52))) with (2 ^ 52).
      change (2 ^ 53) with (2 ^ 52 * 2 ^ 1). ring.
Qed.

(** The quotient of two positive numbers of 53 digits is correctly
    rounded. *)
Lemma div_correct (mx my : positive) (ex ey : Z) :
  2 ^ 52 <= Zpos mx < 2 ^ 53 -> 2 ^ 52 <= Zpos my < 2 ^ 53 ->
  -1000 <= ex - ey <= 900 ->
  exists m e j,
    div (S754_finite false mx ex) (S754_finite false my ey)
    = S754_finite false m e /\
    2 ^ 52 <= Zpos m < 2 ^ 53 /\ 0 <= j <= 2 /\
    e = ex - ey - 53 + j /\
    Z.abs (2 * (Zpos m * 2 ^ j * Zpos my - Zpos mx * 2 ^ 53))
    <= 2 ^ j * Zpos my.
Proof.
  intros Hx Hy He. unfold div, SFdiv, SFdiv_core_binary.
  rewrite !Zdigits2_log2, (log2_normal mx Hx), (log2_normal my Hy).
  rewrite fexp_normal.
  replace (Z.min (Z.max (52 + 1 + ex - (52 + 1 + ey) - 53) (-1074))
             (ex - ey)) with (ex - ey - 53) by lia.
  replace (ex - ey - (ex - ey - 53)) with 53 by lia.
  cbv iota.
  rewrite Z.shiftl_mul_pow2 by lia.
  pose proof (Z_div_mod (Zpos mx * 2 ^ 53) (Zpos my) ltac:(lia)) as Hdm.
  destruct (Z.div_eucl (Zpos mx * 2 ^ 53) (Zpos my)) as [q r].
  destruct Hdm as [Hnum Hr].
  assert (Hq : 2 ^ 52 <= q < 2 ^ 54) by nia.
  cbn [xorb].
  destruct (round_correct false q (ex - ey - 53)
              (new_location (Zpos my) r) (Zpos mx * 2 ^ 53) (Zpos my)
              Hq ltac:(lia) ltac:(lia))
    as (m & e & j & E & Hm & Hj & He' & Herr).
  { rewrite Hnum, (Z.mul_comm (Zpos my) q).
    apply located_new_location; lia. }
  exists m, e, j. rewrite E. repeat split; try lia.
Qed.

(** *** The nearest integer *)

Lemma ratio_bounds (a b X Y X' Y' : Z) :
  0 < X -> 0 < Y -> 0 <= a -> 0 <= b ->
  2 ^ 53 * Z.abs (X - X') <= X ->
  2 ^ 53 * Z.abs (Y - Y') <= Y ->
  a * X' * Y = b * Y' * X ->
  (2 ^ 53 - 1) * a <= (2 ^ 53 + 1) * b /\
  (2 ^ 53 - 1) * b <= (2 ^ 53 + 1) * a.
Proof.
  intros HX HY Ha Hb H1 H2 Hid.
  set (c := 2 ^ 53) in *.
  assert (Hc : 0 < c) by (unfold c; lia).
  assert (H1l : (c - 1) * X <= c * X') by lia.
  assert (H1u : c * X' <= (c + 1) * X) by lia.
  assert (H2l : (c - 1) * Y <= c * Y') by lia.
  assert (H2u : c * Y' <= (c + 1) * Y) by lia.
  assert (HXY : 0 < X * Y) by (apply Z.mul_pos_pos; lia).
  split.
  - apply (Z.mul_le_mono_pos_l _ _ (X * Y) HXY).
    assert (S1 : (c - 1) * X * (a * Y) <= c * X' * (a * Y))
      by (apply Z.mul_le_mono_nonneg_r; [apply Z.mul_nonneg_nonneg|]; lia).
    assert (S2 : c * Y' * (b * X) <= (c + 1) * Y * (b * X))
      by (apply Z.mul_le_mono_nonneg_r; [apply Z.mul_nonneg_nonneg|]; lia).
    replace (X * Y * ((c - 1) * a)) with ((c - 1) * X * (a * Y)) by ring.
    replace (X * Y * ((c + 1) * b)) with ((c + 1) * Y * (b * X)) by ring.
    apply Z.le_trans with (1 := S1).
    replace (c * X' * (a * Y)) with (c * (a * X' * Y)) by ring.
    rewrite Hid.
    replace (c * (b * Y' * X)) with (c * Y' * (b * X)) by ring.
    exact S2.
  - apply (Z.mul_le_mono_pos_l _ _ (X * Y) HXY).
    assert (S1 : (c - 1) * Y * (b * X) <= c * Y' * (b * X))
      by (apply Z.mul_le_mono_nonneg_r; [apply Z.mul_nonneg_nonneg|]; lia).
    assert (S2 : c * X' * (a * Y) <= (c + 1) * X * (a * Y))
      by (apply Z.mul_le_mono_nonneg_r; [apply Z.mul_nonneg_nonneg|]; lia).
    replace (X * Y * ((c - 1) * b)) with ((c - 1) * Y * (b * X)) by ring.
    replace (X * Y * ((c + 1) * a)) with ((c + 1) * X * (a * Y)) by ring.
    apply Z.le_trans with (1 := S1).
    replace (c * Y' * (b * X)) with (c * (b * Y' * X)) by ring.
    rewrite <- Hid.
    replace (c * (a * X' * Y)) with (c * X' * (a * Y)) by ring.
    exact S2.
Qed.

(** An integer [n] next to [mr / T + 1/2], where [mr / T] is within a
    relative distance of 2^-52 of [N / D], is a nearest integer of
    [N / D]. *)
Lemma nearest_from_bounds (n D N T mr : Z) :
  0 < D -> 0 < T -> 0 <= N -> 4 * N < 2 ^ 53 - 1 ->
  2 * T * n <= 2 * mr + T < 2 * T * (n + 1) ->
  (2 ^ 53 - 1) * (mr * D) <= (2 ^ 53 + 1) * (N * T) ->
  (2 ^ 53 - 1) * (N * T) <= (2 ^ 53 + 1) * (mr * D) ->
  Z.abs (2 * (n * D - N)) <= D.
Proof.
  intros HD HT HN HN4 [Hlo Hhi] Hup Hdown.
  set (c := 2 ^ 53) in *.
  assert (Hc : c = 9007199254740992) by reflexivity.
  destruct (Z_le_gt_dec (Z.abs (2 * (n * D - N))) D) as [H|H]; [exact H|].
  exfalso.
  destruct (Z_le_gt_dec (2 * (n * D - N)) D) as [Hle|Hgt].
  - (* n is too small *)
    assert (H1 : (2 * n + 1) * D <= 2 * N - 1) by lia.
    assert (H2 : 2 * mr < (2 * n + 1) * T) by lia.
    assert (H3 : 2 * (mr * D) < (2 * N - 1) * T).
    { apply Z.lt_le_trans with ((2 * n + 1) * T * D).
      - replace (2 * (mr * D)) with (2 * mr * D) by ring.
        apply Z.mul_lt_mono_pos_r; lia.
      - replace ((2 * n + 1) * T * D) with ((2 * n + 1) * D * T) by ring.
        apply Z.mul_le_mono_nonneg_r; lia. }
    assert (H4 : 2 * ((c - 1) * (N * T)) < (c + 1) * ((2 * N - 1) * T))
      by nia.
    assert (H5 : 0 < T * ((c + 1) * (2 * N - 1) - 2 * (c - 1) * N)) by nia.
    assert (H6 : 0 < (c + 1) * (2 * N - 1) - 2 * (c - 1) * N) by nia.
    nia.
  - (* n is too large *)
    assert (H1 : 2 * N + 1 <= (2 * n - 1) * D) by lia.
    assert (H2 : (2 * n - 1) * T <= 2 * mr) by lia.
    assert (H3 : (2 * N + 1) * T <= 2 * (mr * D)).
    { apply Z.le_trans with ((2 * n - 1) * D * T).
      - apply Z.mul_le_mono_nonneg_r; lia.
      - replace ((2 * n - 1) * D * T) with ((2 * n - 1) * T * D) by ring.
        replace (2 * (mr * D)) with (2 * mr * D) by ring.
        apply Z.mul_le_mono_nonneg_r; lia. }
    assert (H4 : (c - 1) * ((2 * N + 1) * T) <= 2 * ((c + 1) * (N * T)))
      by nia.
    assert (H5 : T * ((c - 1) * (2 * N + 1) - 2 * (c + 1) * N) <= 0) by nia.
    assert (H6 : (c - 1) * (2 * N + 1) - 2 * (c + 1) * N <= 0) by nia.
    nia.
Qed.

(** The rate is a nearest integer of [60000 * delta / elapsed]. *)
Lemma rate_nearest (delta elapsed : Z) :
  0 < delta < 2 ^ 31 -> 4800 < elapsed < 2 ^ 53 ->
  exists n,
    rate delta elapsed = of_Z n /\ 0 <= n < 2 ^ 53 /\
    Z.abs (2 * (n * elapsed - 60000 * delta)) <= elapsed.
Proof.
  intros Hdelta Helapsed. unfold rate.
  rewrite !of_Z_integer by lia.
  destruct delta as [|pw|pw]; try lia.
  destruct elapsed as [|pt|pt]; try lia.
  unfold integer.
  (* the two integers *)
  destruct (mantissa_spec pt ltac:(lia)) as (Hvt & Hmt & Het).
  destruct (mantissa_spec pw ltac:(lia)) as (Hvw & Hmw & Hew).
  assert (Hlt : 12 <= Z.log2 (Zpos pt)) by (apply Z.log2_le_pow2; lia).
  assert (Hlw : Z.log2 (Zpos pw) < 31) by (apply Z.log2_lt_pow2; lia).
  unfold exponent in Het, Hew.
  set (et := exponent pt) in *. set (ew := exponent pw) in *.
  assert (Eet : et = Z.log2 (Zpos pt) - 52) by reflexivity.
  assert (Eew : ew = Z.log2 (Zpos pw) - 52) by reflexivity.
  set (mt := mantissa pt) in *. set (mw := mantissa pw) in *.
  (* the minutes *)
  rewrite lit_60000_finite.
  destruct (div_correct mt 8246337208320000 et (-37) Hmt ltac:(lia)
              ltac:(lia))
    as (mu & eu & ju & -> & Hmu & Hju & Eeu & Herr1).
  (* the quotient *)
  destruct (div_correct mw mu ew eu Hmw Hmu ltac:(lia))
    as (mr & er & jr & -> & Hmr & Hjr & Eer & Herr2).
  (* Math.round *)
  assert (Her : er < 0) by lia.
  unfold Math_round.
  replace (0 <=? er) with false by (symmetry; apply Z.leb_gt; lia).
  cbn [cond_Zopp].
  set (T := 2 ^ (- er)).
  assert (HT : 0 < T) by (apply Z.pow_pos_nonneg; lia).
  replace (2 ^ (1 - er)) with (2 * T)
    by (unfold T; rewrite <- Z.pow_succ_r by lia; f_equal; lia).
  set (n := (2 * Zpos mr + T) / (2 * T)).
  assert (Hn : 2 * T * n <= 2 * Zpos mr + T < 2 * T * (n + 1)).
  { unfold n. split.
    - apply Z.mul_div_le. lia.
    - replace (2 * T * ((2 * Zpos mr + T) / (2 * T) + 1))
        with (2 * T * Z.succ ((2 * Zpos mr + T) / (2 * T))) by lia.
      apply Z.mul_succ_div_gt. lia. }
  assert (Hn0 : 0 <= n) by (apply Z.div_pos; lia).
  (* the powers of two *)
  set (Kt := 2 ^ (- et)) in *. set (Kw := 2 ^ (- ew)) in *.
  set (Ju := 2 ^ ju) in *. set (Jr := 2 ^ jr) in *.
  assert (HKt : 0 < Kt) by (apply Z.pow_pos_nonneg; lia).
  assert (HKw : 0 < Kw) by (apply Z.pow_pos_nonneg; lia).
  assert (HJu : 0 < Ju) by (apply Z.pow_pos_nonneg; lia).
  assert (HJr : 0 < Jr) by (apply Z.pow_pos_nonneg; lia).
  assert (Hpow : T * Jr * Kt * 2 ^ 16 = Kw * Ju * 2 ^ 53).
  { unfold T, Jr, Kt, Kw, Ju. rewrite <- !Z.pow_add_r by lia.
    f_equal. lia. }
  (* the nearest integer *)
  assert (Hnear : Z.abs (2 * (n * Zpos pt - 60000 * Zpos pw)) <= Zpos pt).
  { destruct (ratio_bounds (Zpos mr * Zpos pt) (60000 * Zpos pw * T)
                (Zpos mr * Jr * Zpos mu)
                (Zpos mu * Ju * 8246337208320000)
                (Zpos mw * 2 ^ 53) (Zpos mt * 2 ^ 53)) as [Hup Hdown].
    - repeat apply Z.mul_pos_pos; lia.
    - repeat apply Z.mul_pos_pos; lia.
    - apply Z.mul_nonneg_nonneg; lia.
    - repeat apply Z.mul_nonneg_nonneg; lia.
    - apply Z.le_trans with (2 ^ 52 * (Jr * Zpos mu)); [lia|].
      replace (Zpos mr * Jr * Zpos mu) with (Zpos mr * (Jr * Zpos mu))
        by ring.
      apply Z.mul_le_mono_nonneg_r; [|lia].
      apply Z.mul_nonneg_nonneg; lia.
    - apply Z.le_trans with (2 ^ 52 * (Ju * 8246337208320000)); [lia|].
      replace (Zpos mu * Ju * 8246337208320000)
        with (Zpos mu * (Ju * 8246337208320000)) by ring.
      apply Z.mul_le_mono_nonneg_r; [|lia].
      apply Z.mul_nonneg_nonneg; lia.
    - rewrite Hvw, Hvt. fold Kw Kt.
      assert (Hk : Kw * Ju * 8246337208320000 = 60000 * T * Kt * Jr).
      { apply (Z.mul_reg_r _ _ (2 ^ 16)); [lia|].
        replace (60000 * T * Kt * Jr * 2 ^ 16)
          with (60000 * (T * Jr * Kt * 2 ^ 16)) by ring.
        rewrite Hpow. change (2 ^ 16) with 65536.
        change (2 ^ 53) with 9007199254740992. ring. }
      replace (Zpos mr * Zpos pt * (Zpos pw * Kw * 2 ^ 53)
               * (Zpos mu * Ju * 8246337208320000))
        with (Zpos mr * Zpos pt * Zpos pw * 2 ^ 53 * Zpos mu
              * (Kw * Ju * 8246337208320000)) by ring.
      rewrite Hk. ring.
    - apply (nearest_from_bounds n (Zpos pt) (60000 * Zpos pw) T (Zpos mr));
        lia. }
  assert (Hn53 : n < 2 ^ 53).
  { assert (n * 1 <= n * Zpos pt)
      by (apply Z.mul_le_mono_nonneg_l; lia).
    lia. }
  exists n. split; [|split; [lia | exact Hnear]].
  destruct (n =? 0) eqn:En.
  - apply Z.eqb_eq in En. rewrite En. reflexivity.
  - apply Z.eqb_neq in En.
    rewrite (of_Z_integer n) by lia.
    destruct n as [|pn|pn]; try lia. reflexivity.
Qed.

Lemma gt_of_Z_positive (n : Z) :
  0 < n < 2 ^ 53 -> gt (of_Z n) zero = true.
Proof.
  intros Hn. rewrite of_Z_integer by lia.
  destruct n as [|p|p]; try lia. reflexivity.
Qed.

Local Close Scope Z_scope.

(** *** The observation *)

Lemma number_eqb_eq (x y : number) : number_eqb x y = true -> x = y.
Proof.
  destruct x as [s|s| |s m e], y as [s'|s'| |s' m' e']; simpl;
    try discriminate; auto.
  - intros H. apply Bool.eqb_prop in H. now subst.
  - intros H. apply Bool.eqb_prop in H. now subst.
  - intros H. apply andb_prop in H as [H He].
    apply andb_prop in H as [Hs Hm].
    apply Bool.eqb_prop in Hs. apply Pos.eqb_eq in Hm.
    apply Z.eqb_eq in He. now subst.
Qed.

Lemma rate_samples_evaluated :
  forallb (fun '(delta, elapsed, r) =>
             number_eqb (rate delta elapsed) (of_Z r))
    rate_samples = true.
Proof. vm_compute. reflexivity. Qed.

Lemma rate_of_sample (delta elapsed r : Z) :
  In (delta, elapsed, r) rate_samples -> rate delta elapsed = of_Z r.
Proof.
  intros H. apply number_eqb_eq.
  exact (proj1 (forallb_forall _ _) rate_samples_evaluated _ H).
Qed.

(** On safe integers the pacer computes with the elapsed time and the
    word delta themselves. *)
Lemma minutes_elapsed (st : state) (now : Z) :
  safe (lastTranscriptTimeRef st) -> safe now ->
  minutes st now = div (of_Z (now - lastTranscriptTimeRef st)) lit_60000.
Proof. intros Hl Hn. unfold minutes. now rewrite sub_exact. Qed.

Lemma currentWPM_delta (st : state) (words now : Z) :
  safe (lastTranscriptTimeRef st) -> safe now ->
  safe (wordCountRef st) -> safe words ->
  currentWPM st words now =
  Math_round (div (of_Z (words - wordCountRef st))
                (div (of_Z (now - lastTranscriptTimeRef st)) lit_60000)).
Proof.
  intros Hl Hn Hc Hw. unfold currentWPM.
  now rewrite minutes_elapsed, sub_exact.
Qed.

Lemma gate_elapsed (st : state) (now : Z) :
  safe (lastTranscriptTimeRef st) -> safe now ->
  gt (minutes st now) lit_0_08
  = (4800 <? now - lastTranscriptTimeRef st)%Z.
Proof.
  intros Hl Hn. rewrite minutes_elapsed by assumption.
  apply gate_integer. unfold safe in *. lia.
Qed.

Lemma rate_not_negative (delta elapsed : Z) :
  gt zero (rate delta elapsed) = false.
Proof. apply clamp_not_negative. Qed.

Lemma rate_without_new_words (delta elapsed : Z) :
  (- 2 ^ 53 < delta <= 0)%Z -> (0 < elapsed < 2 ^ 53)%Z ->
  rate delta elapsed = zero.
Proof.
  intros Hd He. unfold rate.
  destruct (minutes_positive elapsed He) as (m & e & ->).
  now rewrite no_rate_without_new_words.
Qed.

(** C3.  For timestamps and word counts that are safe integers.  An
    observation made at most 4800 milliseconds after the last computation
    leaves the state, and so [wpm], unchanged, also over two such
    observations; the interval runs from the last computation, not from
    the last observation.  After more than 4800 milliseconds [wpm]
    becomes [Math.round((words - lastWords) / minutes)] clamped at 0, the
    word count and the time of the observation are recorded, and a tip is
    requested exactly when the resulting [wpm] is positive.  A word delta
    of 0 or less gives [wpm = 0] and no request.  For a positive delta
    (below 2^31) [wpm] is an integer nearest to
    [60000 * delta / elapsed], the words per minute, and the tip is
    requested unless that integer is 0.  The samples give [wpm] on some
    observations, among them ties: after whole seconds the tie goes
    upwards, and in two ties of the exact arithmetic the binary64
    quotient lies below the tie.  20 words 10 seconds after 0 words give
    [wpm = 120] and a request. *)
Theorem pacer_observation (st : state) (fullText : string) (words now : Z) :
  safe (lastTranscriptTimeRef st) -> safe (wordCountRef st) ->
  safe now -> safe words ->
  let elapsed := (now - lastTranscriptTimeRef st)%Z in
  let delta := (words - wordCountRef st)%Z in
  let st' := onresult st fullText words now in
  let call wpm :=
    {| call_id := issued st;
       call_transcript := slice_last 100 fullText;
       call_wpm := wpm |} in
  gt (minutes st now) lit_0_08 = (4800 <? elapsed)%Z /\
  ((elapsed <= 4800)%Z ->
   st' = st /\
   forall fullText' words' now',
     safe now' -> (now' - lastTranscriptTimeRef st <= 4800)%Z ->
     wpm (onresult st' fullText' words' now') = wpm st) /\
  ((4800 < elapsed)%Z ->
   wpm st' = rate delta elapsed /\
   gt zero (wpm st') = false /\
   wordCountRef st' = words /\
   lastTranscriptTimeRef st' = now /\
   (gt (wpm st') zero = true ->
    pendingTips st' = (pendingTips st ++ [call (wpm st')])%list) /\
   (gt (wpm st') zero = false -> pendingTips st' = pendingTips st) /\
   ((delta <= 0)%Z ->
    wpm st' = zero /\ pendingTips st' = pendingTips st) /\
   ((0 < delta < 2 ^ 31)%Z ->
    exists n,
      wpm st' = of_Z n /\ (0 <= n)%Z /\
      (Z.abs (2 * (n * elapsed - 60000 * delta)) <= elapsed)%Z /\
      ((0 < n)%Z ->
       pendingTips st' = (pendingTips st ++ [call (of_Z n)])%list) /\
      (n = 0%Z -> pendingTips st' = pendingTips st)) /\
   (forall r, In (delta, elapsed, r) rate_samples -> wpm st' = of_Z r)) /\
  (wordCountRef st = 0%Z -> lastTranscriptTimeRef st = 0%Z ->
   words = 20%Z -> now = 10000%Z ->
   wpm st' = of_Z 120 /\
   pendingTips st' = (pendingTips st ++ [call (of_Z 120)])%list).
Proof.
  intros Hl Hc Hn Hw elapsed delta st' call.
  pose proof (gate_elapsed st now Hl Hn) as Hgate. fold elapsed in Hgate.
  assert (Hbelow : (elapsed <= 4800)%Z -> st' = st).
  { intros H. unfold st', onresult. rewrite Hgate.
    now replace (4800 <? elapsed)%Z with false
      by (symmetry; apply Z.ltb_ge; lia). }
  assert (Habove :
            (4800 < elapsed)%Z ->
            wpm st' = rate delta elapsed /\
            wordCountRef st' = words /\
            lastTranscriptTimeRef st' = now /\
            pendingTips st' =
              if gt (rate delta elapsed) zero
              then (pendingTips st ++ [call (rate delta elapsed)])%list
              else pendingTips st).
  { intros H. unfold st', onresult. rewrite Hgate.
    replace (4800 <? elapsed)%Z with true
      by (symmetry; apply Z.ltb_lt; lia).
    rewrite (currentWPM_delta st words now Hl Hn Hc Hw).
    fold elapsed delta. unfold rate, call.
    set (c := Math_round _).
    destruct (gt c zero) eqn:Ec; simpl; [rewrite Ec|]; auto. }
  split; [exact Hgate|]. split; [|split].
  - intros H. split; [now apply Hbelow|].
    intros fullText' words' now' Hn' H'.
    rewrite (Hbelow H). unfold onresult.
    rewrite (gate_elapsed st now' Hl Hn').
    now replace (4800 <? now' - lastTranscriptTimeRef st)%Z with false
      by (symmetry; apply Z.ltb_ge; lia).
  - intros H. destruct (Habove H) as (Hwpm & Hwc & Hlt & Hpt).
    assert (He : (4800 < elapsed < 2 ^ 53)%Z)
      by (unfold elapsed, safe in *; lia).
    split; [exact Hwpm|]. rewrite Hwpm.
    split; [apply rate_not_negative|].
    split; [exact Hwc|]. split; [exact Hlt|].
    split; [intros Hpos; now rewrite Hpos in Hpt|].
    split; [intros Hpos; now rewrite Hpos in Hpt|].
    split; [|split].
    + intros Hd.
      assert (Hz : rate delta elapsed = zero).
      { apply rate_without_new_words; unfold delta, safe in *; lia. }
      rewrite Hz in *. split; [reflexivity | exact Hpt].
    + intros Hd.
      destruct (rate_nearest delta elapsed Hd He) as (n & Hr & Hn0 & Hnear).
      exists n. rewrite Hr in *.
      split; [reflexivity|]. split; [lia|]. split; [exact Hnear|].
      split.
      * intros Hpos. now rewrite gt_of_Z_positive in Hpt by lia.
      * intros ->. exact Hpt.
    + intros r Hr. now apply rate_of_sample.
  - intros Hc0 Hl0 -> ->.
    destruct (Habove ltac:(unfold elapsed; lia)) as (Hwpm & _ & _ & Hpt).
    assert (Hr : rate delta elapsed = of_Z 120).
    { unfold delta, elapsed. rewrite Hc0, Hl0.
      apply (rate_of_sample 20 10000 120). left. reflexivity. }
    rewrite Hr in *. split; [exact Hwpm | exact Hpt].
Qed.

(** ** Tip calls in flight *)

Lemma find_call_end_call (id id' : nat) (st : state) :
  id <> id' -> find_call id (end_call id' st) = find_call id st.
Proof.
  intros Hne. unfold find_call, end_call. simpl.
  induction (pendingTips st) as [|c l IH]; simpl; auto.
  destruct (Nat.eqb (call_id c) id') eqn:E'; simpl.
  - apply Nat.eqb_eq in E'.
    destruct (Nat.eqb (call_id c) id) eqn:E; auto.
    apply Nat.eqb_eq in E. congruence.
  - destruct (Nat.eqb (call_id c) id); auto.
Qed.

Lemma settle_shows_tip (st : state) (id : nat) (c : tip_call)
    (outcome : result response) :
  find_call id st = Some c ->
  exists fb,
    getRealTimeFeedback (fun _ => outcome) (call_transcript c) (call_wpm c)
    = Ok fb /\
    step st (TipSettled id outcome) = Some (show_tip fb (end_call id st)).
Proof.
  intros Hc.
  destruct (getRealTimeFeedback_returns (fun _ => outcome)
              (call_transcript c) (call_wpm c)) as (fb & Hfb & _).
  exists fb. split; auto. simpl. now rewrite Hc, Hfb.
Qed.

(** C8, as amended.  Tip requests are neither limited nor sequenced:
    every recomputation with a positive rate starts a call whatever is
    pending, and every response is shown and spoken when it arrives.  When
    two calls are pending and the second call's response [o2] arrives
    before the first call's response [o1], the tip shown at the end is the
    first call's: the response that arrives last wins. *)
Theorem tips_applied_on_arrival (st : state) (id1 id2 : nat)
    (c1 c2 : tip_call) (o1 o2 : result response) :
  find_call id1 st = Some c1 ->
  find_call id2 st = Some c2 ->
  id1 <> id2 ->
  (forall fullText words now,
      gt (minutes st now) lit_0_08 = true ->
      gt (currentWPM st words now) zero = true ->
      List.length (pendingTips (onresult st fullText words now))
      = S (List.length (pendingTips st))) /\
  exists fb1 fb2 st',
    getRealTimeFeedback (fun _ => o1) (call_transcript c1) (call_wpm c1)
    = Ok fb1 /\
    getRealTimeFeedback (fun _ => o2) (call_transcript c2) (call_wpm c2)
    = Ok fb2 /\
    run st [TipSettled id2 o2; TipSettled id1 o1] = Some st' /\
    coachFeedback st' = fb1 /\
    spoken st' = fb1 :: fb2 :: spoken st.
Proof.
  intros H1 H2 Hne. split.
  - intros fullText words now Hgate Hc. unfold onresult.
    rewrite Hgate, Hc. simpl. rewrite length_app. simpl. lia.
  - destruct (settle_shows_tip st id2 c2 o2 H2) as (fb2 & Hfb2 & Hstep2).
    assert (H1' : find_call id1 (show_tip fb2 (end_call id2 st)) = Some c1).
    { rewrite <- H1. now apply (find_call_end_call id1 id2 st). }
    destruct (settle_shows_tip _ id1 c1 o1 H1') as (fb1 & Hfb1 & Hstep1).
    exists fb1, fb2. eexists. split; [exact Hfb1|]. split; [exact Hfb2|].
    split.
    + unfold run. rewrite Hstep2, Hstep1. reflexivity.
    + split; reflexivity.
Qed.

(** C9, as amended.  [startRecording] leaves the pacer state as it was:
    the last word count, the time of the last rate computation and [wpm]
    are unchanged.  With a stream it empties the recorded chunks and, when
    the recorder and the recognition start, sets [isRecording] and resets
    the recording time to 0; without a stream it does nothing. *)
Theorem startRecording_keeps_pacer (st : state)
    (failure : option start_failure) :
  let st' := startRecording st failure in
  wordCountRef st' = wordCountRef st /\
  lastTranscriptTimeRef st' = lastTranscriptTimeRef st /\
  wpm st' = wpm st /\
  (streamRef st = false -> st' = st) /\
  (streamRef st = true -> chunksRef st' = []) /\
  (streamRef st = true -> failure = None ->
   isRecording st' = true /\ recordingTime st' = 0%Z).
Proof.
  unfold startRecording.
  destruct (streamRef st) eqn:Hs; simpl.
  - destruct failure as [[| |]|]; simpl; repeat split; auto; discriminate.
  - repeat split; auto; discriminate.
Qed.

(** ** The properties on the samples *)

(** A service that answers with a text of the table has inferred what the
    table gives for it. *)
Lemma sample_inferred (t : string) (data : value) :
  String.eqb t EmptyString = false ->
  Sample.JSON_parse t = Some data ->
  inferred Sample.JSON_parse (Sample.answers t) Sample.url data.
Proof.
  intros Hne Hp. exists {| text := Some t |}, t.
  repeat split; auto. now apply String.eqb_neq.
Defined.

Lemma empty_inferred :
  inferred Sample.JSON_parse (Sample.answers Sample.empty_text) Sample.url
    Sample.empty_data.
Proof. now apply sample_inferred. Defined.

Lemma numeric_script_inferred :
  inferred Sample.JSON_parse (Sample.answers Sample.numeric_script_text)
    Sample.url Sample.numeric_script_data.
Proof. now apply sample_inferred. Defined.

Lemma bare_judge_inferred :
  inferred Sample.JSON_parse (Sample.answers Sample.bare_judge_text)
    Sample.url Sample.bare_judge_data.
Proof. now apply sample_inferred. Defined.

(** The response [{}] has no judges: the call returns the fallback panel. *)
Lemma fallback_panel_when_no_judges_witness :
  zero_judges VUndefined /\
  exists r js,
    analyzeHackathonUrl Sample.JSON_parse (Sample.answers Sample.empty_text)
      Sample.url = Ok r /\
    get r "judges" = Ok (VArr js []) /\
    2 <= List.length js /\
    Forall (fun j => has_lists j = true) js.
Proof.
  assert (Hz : zero_judges VUndefined) by (intros j js named; discriminate).
  split; [exact Hz|].
  destruct (fallback_panel_when_no_judges Sample.JSON_parse
              (Sample.answers Sample.empty_text) Sample.url
              Sample.empty_data VUndefined
              empty_inferred eq_refl Hz)
    as (Hpanel & Hreturns & _).
  destruct (Hreturns eq_refl) as [r Hr].
  destruct (Hpanel r Hr) as (js & Hjs).
  exists r, js. split; [exact Hr | exact Hjs].
Defined.

(** The response [{}] has no judges, and the returned record has two
    judges, not three. *)
Lemma three_archetypes_counterexample :
  inferred Sample.JSON_parse (Sample.answers Sample.empty_text) Sample.url
    Sample.empty_data /\
  get Sample.empty_data "judges" = Ok VUndefined /\
  zero_judges VUndefined /\
  exists r,
    analyzeHackathonUrl Sample.JSON_parse (Sample.answers Sample.empty_text)
      Sample.url = Ok r /\
    judge_count r = Some 2 /\
    judge_count r <> Some 3.
Proof.
  split; [exact empty_inferred|].
  split; [reflexivity|].
  split; [intros j js named; discriminate|].
  eexists. split; [vm_compute; reflexivity|].
  split; [reflexivity | discriminate].
Qed.

(** The response [{}] yields exactly two judges. *)
Lemma two_fallback_judges_witness :
  exists r,
    analyzeHackathonUrl Sample.JSON_parse (Sample.answers Sample.empty_text)
      Sample.url = Ok r /\
    judge_count r = Some 2.
Proof.
  eexists. split; [vm_compute; reflexivity|].
  refine (proj1 (two_fallback_judges Sample.JSON_parse
                   (Sample.answers Sample.empty_text) Sample.url
                   Sample.empty_data VUndefined _
                   empty_inferred eq_refl _ _)).
  - intros j js named; discriminate.
  - vm_compute; reflexivity.
Defined.

(** A response whose [generatedScript] is the number 42 is returned with
    that number as its script, which is no string. *)
Lemma numeric_script_counterexample :
  inferred Sample.JSON_parse (Sample.answers Sample.numeric_script_text)
    Sample.url Sample.numeric_script_data /\
  exists r,
    analyzeHackathonUrl Sample.JSON_parse
      (Sample.answers Sample.numeric_script_text) Sample.url = Ok r /\
    get2 r "strategy" "generatedScript" = Ok (VNum (of_Z 42)) /\
    is_nonempty_string (VNum (of_Z 42)) = false.
Proof.
  split; [exact numeric_script_inferred|].
  eexists. split; [vm_compute; reflexivity|].
  split; reflexivity.
Qed.

(** A response with an empty strategy object is returned with a non-empty
    string as its script. *)
Lemma generated_script_repaired_witness :
  exists r g,
    analyzeHackathonUrl Sample.JSON_parse
      (Sample.answers Sample.bare_judge_text) Sample.url = Ok r /\
    get2 r "strategy" "generatedScript" = Ok g /\
    is_nonempty_string g = true.
Proof.
  eexists.
  edestruct (generated_script_repaired Sample.JSON_parse
               (Sample.answers Sample.bare_judge_text) Sample.url
               Sample.bare_judge_data)
    as (s0 & g & _ & Hg & _ & _ & _ & Hschema).
  - exact bare_judge_inferred.
  - vm_compute; reflexivity.
  - exists g. split; [reflexivity|]. split; [exact Hg|].
    apply Hschema. reflexivity.
Defined.

(** A response of the shape of the schema in which the only judge has a
    name and nothing else, and the strategy is an empty object: the
    returned judge has no [values] list, and the returned strategy has no
    [featuresToEmphasize]. *)
Lemma absent_lists_counterexample :
  inferred Sample.JSON_parse (Sample.answers Sample.bare_judge_text)
    Sample.url Sample.bare_judge_data /\
  conforms hackathonSchema Sample.bare_judge_data = true /\
  exists r judge,
    analyzeHackathonUrl Sample.JSON_parse
      (Sample.answers Sample.bare_judge_text) Sample.url = Ok r /\
    get r "judges" = Ok (VArr [judge] []) /\
    get judge "values" = Ok VUndefined /\
    has_lists judge = false /\
    get2 r "strategy" "featuresToEmphasize" = Ok VUndefined.
Proof.
  split; [exact bare_judge_inferred|].
  split; [reflexivity|].
  do 2 eexists. split; [vm_compute; reflexivity|].
  repeat split.
Qed.

(** The same response is returned with [structure] and [keyPhrases] as
    lists. *)
Lemma sanitation_defaults_witness :
  exists r st kp,
    analyzeHackathonUrl Sample.JSON_parse
      (Sample.answers Sample.bare_judge_text) Sample.url = Ok r /\
    get2 r "strategy" "structure" = Ok st /\
    get2 r "strategy" "keyPhrases" = Ok kp /\
    Array_isArray st = true /\ Array_isArray kp = true.
Proof.
  eexists.
  edestruct (sanitation_defaults Sample.JSON_parse
               (Sample.answers Sample.bare_judge_text) Sample.url
               Sample.bare_judge_data)
    as (_ & _ & _ & s0 & st & kp & Hs0 & Hst & Hkp & _ & _ & _ & Hl & Hk).
  - exact bare_judge_inferred.
  - vm_compute; reflexivity.
  - injection Hs0 as <-.
    exists st, kp. split; [reflexivity|]. split; [exact Hst|].
    split; [exact Hkp|]. split.
    + exact (proj2 (Hl VUndefined eq_refl eq_refl) eq_refl).
    + exact (proj2 (Hk VUndefined eq_refl eq_refl) eq_refl).
Defined.



(** A critique with an [overallScore] of 150 is returned as it is, and an
    unreadable video makes the call throw. *)
Lemma critique_verbatim_witness :
  analyzeVideoDemo Sample.JSON_parse Sample.ToString Sample.ToNumber
    (option string) Sample.readAsDataURL (Sample.answers Sample.score_text)
    Sample.video Sample.bare_judge_data = Ok Sample.score_data /\
  get Sample.score_data "overallScore" = Ok (VNum (of_Z 150)) /\
  gt (of_Z 150) (of_Z 100) = true /\
  exists e,
    analyzeVideoDemo Sample.JSON_parse Sample.ToString Sample.ToNumber
      (option string) Sample.readAsDataURL (Sample.answers Sample.score_text)
      None Sample.bare_judge_data = Throw e.
Proof.
  split; [|split; [reflexivity|split; [reflexivity|]]].
  - eapply (proj1 (proj2 (critique_verbatim Sample.JSON_parse Sample.ToString
                            Sample.ToNumber (option string)
                            Sample.readAsDataURL
                            (Sample.answers Sample.score_text)
                            Sample.video Sample.bare_judge_data))).
    + vm_compute; reflexivity.
    + reflexivity.
    + reflexivity.
    + intros H; vm_compute in H; discriminate H.
    + vm_compute; reflexivity.
  - exact (proj1 (proj2 (proj2 (critique_verbatim Sample.JSON_parse
                                  Sample.ToString Sample.ToNumber
                                  (option string) Sample.readAsDataURL
                                  (Sample.answers Sample.score_text)
                                  None Sample.bare_judge_data))) eq_refl).
Defined.

(** With the service unreachable the tip is the fallback. *)
Lemma tip_never_raises_witness :
  getRealTimeFeedback Sample.unreachable "so this is our demo" (of_Z 120)
  = Ok "Keep going!".
Proof.
  exact (proj1 (proj2 (tip_never_raises Sample.unreachable
                         "so this is our demo" (of_Z 120)))
           (Rejected "NetworkError") eq_refl).
Defined.

(** Twenty words ten seconds after mounting: 120 words per minute and one
    tip call. *)
Lemma pacer_observation_witness :
  safe 0 /\ safe 10000 /\ safe 20 /\
  wpm (onresult (mount 0 true) "first words" 20 10000) = of_Z 120 /\
  pendingTips (onresult (mount 0 true) "first words" 20 10000)
  = [ {| call_id := 0;
         call_transcript := "first words";
         call_wpm := of_Z 120 |} ].
Proof.
  assert (H0 : safe 0) by (unfold safe; lia).
  assert (H1 : safe 10000) by (unfold safe; lia).
  assert (H2 : safe 20) by (unfold safe; lia).
  split; [exact H0|]. split; [exact H1|]. split; [exact H2|].
  exact (proj2 (proj2 (proj2 (pacer_observation (mount 0 true)
                                "first words" 20 10000 H0 H0 H1 H2)))
           eq_refl eq_refl eq_refl eq_refl).
Defined.

(** Two results 10 and 20 seconds after mounting leave two tip calls
    pending; when the second call settles before the first, the tip shown
    and spoken last is that of the first call. *)
Lemma stale_tip_counterexample :
  run (mount 0 true) [Sample.first_result; Sample.second_result]
  = Some Sample.two_pending /\
  map call_id (pendingTips Sample.two_pending) = [0; 1] /\
  exists st',
    run Sample.two_pending
      [ TipSettled 1 (Sample.tip "Slow down!");
        TipSettled 0 (Sample.tip "Speed up!") ] = Some st' /\
    coachFeedback st' = "Speed up!" /\
    coachFeedback st' <> "Slow down!" /\
    spoken st' = ["Speed up!"; "Slow down!"].
Proof.
  split; [reflexivity|]. split; [vm_compute; reflexivity|].
  eexists. split; [vm_compute; reflexivity|].
  split; [reflexivity|]. split; [discriminate | reflexivity].
Qed.

(** On the state with two pending calls, the tip of the first call is
    shown when it settles last. *)
Lemma tips_applied_on_arrival_witness :
  exists st',
    run Sample.two_pending
      [ TipSettled 1 (Sample.tip "Slow down!");
        TipSettled 0 (Sample.tip "Speed up!") ] = Some st' /\
    coachFeedback st' = "Speed up!".
Proof.
  edestruct (tips_applied_on_arrival Sample.two_pending 0 1)
    as (_ & fb1 & fb2 & st' & Hfb1 & _ & Hrun & Hshown & _).
  - vm_compute; reflexivity.
  - vm_compute; reflexivity.
  - discriminate.
  - exists st'. split; [exact Hrun|].
    rewrite Hshown. injection Hfb1 as <-. reflexivity.
Defined.

(** Starting a recording on a state left by an earlier recording keeps its
    word count, its rate and the time of its last computation. *)
Lemma startRecording_counterexample :
  let st' := startRecording Sample.used None in
  isRecording st' = true /\
  wordCountRef st' = 20%Z /\ wordCountRef st' <> 0%Z /\
  wpm st' = of_Z 120 /\ wpm st' <> zero /\
  lastTranscriptTimeRef st' = lastTranscriptTimeRef Sample.used.
Proof.
  repeat split; discriminate.
Qed.

(** On that state the word count stays 20 and the recording time becomes
    0. *)
Lemma startRecording_keeps_pacer_witness :
  wordCountRef (startRecording Sample.used None) = 20%Z /\
  recordingTime (startRecording Sample.used None) = 0%Z.
Proof.
  destruct (startRecording_keeps_pacer Sample.used None)
    as (Hw & _ & _ & _ & _ & Hr).
  split; [exact Hw | exact (proj2 (Hr eq_refl eq_refl))].
Defined.

(** * Further properties *)

(** ** The sanitation, once more *)

(** X1.  The sanitation is idempotent: a record it returns is returned
    unchanged when it is sanitized again. *)
Theorem sanitize_idempotent (data r : value) :
  sanitize data = Ok r -> sanitize r = Ok r.
Proof.
  intros H. apply sanitize_spec in H
    as [(j0 & s0 & s & g0 & st0 & kp0 & _ & _ & Hj & Hs & _ & _ & _ & _
         & Hg & Hst & Hkp & _) _].
  assert (Tg : truthy (repaired g0 (VStr "Script generation incomplete."))
               = true) by now apply repaired_truthy.
  assert (is_object s = true) as Hobj.
  { apply (get_defined_is_object s "generatedScript" _ Hg).
    now apply truthy_defined. }
  eapply (sanitize_complete r);
    [exact Hj | | exact Hs | | exact Hg | | exact Hst | | exact Hkp | ].
  - destruct (no_judges j0) eqn:E; auto.
  - destruct s; try discriminate; reflexivity.
  - exact Tg.
  - now apply repaired_truthy.
  - now apply repaired_truthy.
Qed.

Lemma get_throws (v : value) (k : string) (e : error) :
  get v k = Throw e -> e = TypeError.
Proof. destruct v; simpl; congruence. Qed.

Lemma set_throws (v : value) (k : string) (x : value) (e : error) :
  set v k x = Throw e -> e = TypeError.
Proof. destruct v; simpl; congruence. Qed.

Lemma set_in_throws (v : value) (k1 k2 : string) (x : value) (e : error) :
  set_in v k1 k2 x = Throw e -> e = TypeError.
Proof.
  unfold set_in.
  destruct (get v k1) as [o|] eqn:Ho; simpl;
    [|intros [= <-]; eauto using get_throws].
  destruct (set o k2 x) as [o'|] eqn:Ho'; simpl;
    [|intros [= <-]; eauto using set_throws].
  apply set_throws.
Qed.

Ltac stage H :=
  match type of H with
  | bind (get ?v ?k) _ = Throw _ =>
      let E := fresh "E" in
      destruct (get v k) eqn:E; simpl in H;
      [|injection H as <-; eauto using get_throws]
  | bind (if ?b then ?w else Ok ?d) _ = Throw _ =>
      let E := fresh "E" in
      destruct (if b then w else Ok d) eqn:E; simpl in H;
      [|injection H as <-; destruct b; [|discriminate];
        eauto using set_throws, set_in_throws]
  end.

Lemma sanitize_throws (data : value) (e : error) :
  sanitize data = Throw e -> e = TypeError.
Proof.
  unfold sanitize. intros H.
  repeat stage H. discriminate.
Qed.

Section Failures.

Variable JSON_parse : string -> option value.
Variable generateContent : request -> result response.

(** X2.  The failures of [analyzeHackathonUrl]: an error of the
    inference call is thrown again as it is; a response without text
    throws "No data returned from Gemini"; a text that [JSON.parse]
    rejects throws "Invalid JSON response from AI"; a parsed response
    that is no object, or whose [strategy] is a truthy primitive, throws
    a TypeError; every other parsed response is returned sanitized. *)
Theorem analyzeHackathonUrl_failures (url : string) :
  (forall e,
      generateContent (hackathonRequest url) = Throw e ->
      analyzeHackathonUrl JSON_parse generateContent url = Throw e) /\
  (forall resp,
      generateContent (hackathonRequest url) = Ok resp -> no_text resp ->
      analyzeHackathonUrl JSON_parse generateContent url
      = Throw (Error "No data returned from Gemini")) /\
  (forall resp t,
      generateContent (hackathonRequest url) = Ok resp ->
      text resp = Some t -> t <> EmptyString -> JSON_parse t = None ->
      analyzeHackathonUrl JSON_parse generateContent url
      = Throw (Error "Invalid JSON response from AI")) /\
  (forall data,
      inferred JSON_parse generateContent url data ->
      sanitizable data = false ->
      analyzeHackathonUrl JSON_parse generateContent url = Throw TypeError) /\
  (forall data,
      inferred JSON_parse generateContent url data ->
      sanitizable data = true ->
      exists r, analyzeHackathonUrl JSON_parse generateContent url = Ok r).
Proof.
  unfold analyzeHackathonUrl, try_catch.
  split; [|split; [|split; [|split]]].
  - intros e ->. reflexivity.
  - intros resp -> [Ht | Ht]; simpl; now rewrite Ht.
  - intros resp t -> Ht Hne Hp. simpl. rewrite Ht.
    apply String.eqb_neq in Hne. rewrite Hne. simpl. now rewrite Hp.
  - intros data (resp & t & -> & Ht & Hne & Hp) Hs. simpl. rewrite Ht.
    apply String.eqb_neq in Hne. rewrite Hne. simpl. rewrite Hp. simpl.
    destruct (sanitize data) as [r|e] eqn:Hr.
    + apply sanitize_spec in Hr as [_ Hr]. congruence.
    + now rewrite (sanitize_throws _ _ Hr).
  - intros data (resp & t & -> & Ht & Hne & Hp) Hs. simpl. rewrite Ht.
    apply String.eqb_neq in Hne. rewrite Hne. simpl. rewrite Hp. simpl.
    destruct (sanitize_returns _ Hs) as [r ->]. eauto.
Qed.

End Failures.

(** ** The shape of the schema is kept *)

Lemma conforms_update (P : list (string * schema)) (ps : props)
    (k : string) (s : schema) (x : value) :
  conforms (OBJECT P) (VObj ps) = true ->
  field k P = Some s -> conforms s x = true ->
  conforms (OBJECT P) (VObj (update k x ps)) = true.
Proof.
  intros H Hf Hx. simpl in *.
  induction ps as [|[k0 v0] ps IH]; simpl in *.
  - rewrite declared_field, Hf, Hx. reflexivity.
  - apply andb_prop in H as [H0 H].
    destruct (String.eqb k k0) eqn:E; simpl.
    + apply String.eqb_eq in E. subst k0.
      rewrite declared_field, Hf, Hx, H. reflexivity.
    + rewrite H0. simpl. auto.
Qed.

Lemma conforms_set (P : list (string * schema)) (v v' : value)
    (k : string) (s : schema) (x : value) :
  conforms (OBJECT P) v = true ->
  field k P = Some s -> conforms s x = true ->
  set v k x = Ok v' -> conforms (OBJECT P) v' = true.
Proof.
  intros H Hf Hx Hset.
  destruct (conforms_object _ _ H) as (ps & -> & _).
  simpl in Hset. injection Hset as <-. eapply conforms_update; eauto.
Qed.

Lemma conforms_cond_set (b : bool) (P : list (string * schema))
    (v v' : value) (k : string) (s : schema) (x : value) :
  conforms (OBJECT P) v = true ->
  field k P = Some s -> conforms s x = true ->
  (if b then set v k x else Ok v) = Ok v' -> conforms (OBJECT P) v' = true.
Proof.
  destruct b; [apply conforms_set | congruence].
Qed.

Lemma conforms_cond_set_in (b : bool) (S T : schema)
    (P Q : list (string * schema))
    (v v' o : value) (k1 k2 : string) (s : schema) (x : value) :
  S = OBJECT P -> T = OBJECT Q ->
  conforms S v = true ->
  field k1 P = Some T ->
  get v k1 = Ok o -> conforms T o = true ->
  field k2 Q = Some s -> conforms s x = true ->
  (if b then set_in v k1 k2 x else Ok v) = Ok v' ->
  conforms S v' = true /\
  exists o', get v' k1 = Ok o' /\ conforms T o' = true.
Proof.
  intros -> -> Hv Hf1 Ho Hco Hf2 Hx. destruct b.
  - unfold set_in. rewrite Ho. simpl.
    destruct (set o k2 x) as [o'|] eqn:Hset; simpl; [|discriminate].
    intros Hset'.
    assert (conforms (OBJECT Q) o' = true) by (eapply conforms_set; eauto).
    split.
    + eapply conforms_set; eauto.
    + exists o'. split; auto. eapply get_set_same; eauto.
  - intros [= <-]. eauto.
Qed.

Lemma sanitize_completes (data r : value) :
  conforms hackathonSchema data = true -> sanitize data = Ok r ->
  complete r = true.
Proof.
  intros Hc Hr.
  destruct (sanitize_spec _ _ Hr)
    as [(j0 & s0 & s & g0 & st0 & kp0 & Hj0 & Hs0 & Hj & Hs & _ & Hg0
         & Hst0 & Hkp0 & Hg & Hst & Hkp & _) _].
  destruct (conforms_property _ _ "strategy" strategySchema Hc eq_refl)
    as (s0' & Hs0' & Hcs).
  assert (s0' = s0) by congruence. subst s0'.
  assert (Hrep : conforms strategySchema (repaired s0 defaultStrategy)
                 = true).
  { destruct Hcs as [-> | Hcs]; [reflexivity|].
    destruct (conforms_object _ _ Hcs) as (qs & -> & _). exact Hcs. }
  destruct (conforms_property _ _ "generatedScript" STRING Hrep eq_refl)
    as (g & Hg' & Hcg).
  destruct (conforms_property _ _ "structure" _ Hrep eq_refl)
    as (st & Hst' & Hcst).
  destruct (conforms_property _ _ "keyPhrases" _ Hrep eq_refl)
    as (kp & Hkp' & Hckp).
  assert (g = g0) by congruence. assert (st = st0) by congruence.
  assert (kp = kp0) by congruence. subst g st kp.
  unfold complete, get2. rewrite Hj, Hs. simpl. rewrite Hg, Hst, Hkp.
  repeat (apply andb_true_intro; split).
  - destruct (no_judges j0) eqn:E; [reflexivity|].
    apply no_judges_false in E as (e & es & named & ->). reflexivity.
  - apply repaired_string; [discriminate|].
    destruct Hcg as [-> | Hcg]; auto. destruct g0; try discriminate; auto.
  - apply repaired_list.
    destruct Hcst as [-> | Hcst]; auto. destruct st0; try discriminate; auto.
  - apply repaired_list.
    destruct Hckp as [-> | Hckp]; auto. destruct kp0; try discriminate; auto.
Qed.

Lemma sanitize_conforms (data r : value) :
  conforms hackathonSchema data = true -> sanitize data = Ok r ->
  conforms hackathonSchema r = true.
Proof.
  intros Hc Hr.
  revert Hr. unfold sanitize.
  destruct (conforms_property _ _ "judges" (ARRAY judgeSchema) Hc eq_refl)
    as (j0 & Hj0 & Hcj).
  rewrite Hj0. simpl.
  destruct (if no_judges j0 then _ else _) as [d1|] eqn:H1; simpl;
    [|discriminate].
  assert (C1 : conforms hackathonSchema d1 = true).
  { eapply (conforms_cond_set (no_judges j0)); [exact Hc| | |exact H1];
      reflexivity. }
  destruct (conforms_property _ _ "strategy" strategySchema C1 eq_refl)
    as (s0 & Hs0 & Hcs).
  rewrite Hs0. simpl.
  destruct (if negb (truthy s0) then _ else _) as [d2|] eqn:H2; simpl;
    [|discriminate].
  assert (C2 : conforms hackathonSchema d2 = true).
  { eapply (conforms_cond_set (negb (truthy s0))); [exact C1| | |exact H2];
      reflexivity. }
  destruct (cond_set _ _ _ _ _ _ H2 Hs0) as [Hs2 _].
  assert (Cs1 : conforms strategySchema
                  (if negb (truthy s0) then defaultStrategy else s0) = true).
  { destruct Hcs as [-> | Hcs]; [reflexivity|].
    destruct (conforms_object _ _ Hcs) as (qs & -> & _). exact Hcs. }
  rewrite Hs2. simpl.
  set (s1 := if negb (truthy s0) then defaultStrategy else s0) in *.
  destruct (get s1 "generatedScript") as [g0|]; simpl; [|discriminate].
  destruct (if negb (truthy g0) then _ else _) as [d3|] eqn:H3; simpl;
    [|discriminate].
  destruct (conforms_cond_set_in (negb (truthy g0)) hackathonSchema
              strategySchema _ _ d2 d3 s1 "strategy" "generatedScript" STRING
              (VStr "Script generation incomplete.") eq_refl eq_refl C2
              eq_refl Hs2
              Cs1 eq_refl eq_refl H3) as (C3 & s2 & Hs3 & Cs2).
  rewrite Hs3. simpl.
  destruct (get s2 "structure") as [st0|]; simpl; [|discriminate].
  destruct (if negb (truthy st0) then _ else _) as [d4|] eqn:H4; simpl;
    [|discriminate].
  destruct (conforms_cond_set_in (negb (truthy st0)) hackathonSchema
              strategySchema _ _ d3 d4 s2 "strategy" "structure" _
              (VArr [] []) eq_refl eq_refl C3 eq_refl Hs3
              Cs2 eq_refl eq_refl H4) as (C4 & s3 & Hs4 & Cs3).
  rewrite Hs4. simpl.
  destruct (get s3 "keyPhrases") as [kp0|]; simpl; [|discriminate].
  destruct (if negb (truthy kp0) then _ else _) as [d5|] eqn:H5; simpl;
    [|discriminate].
  destruct (conforms_cond_set_in (negb (truthy kp0)) hackathonSchema
              strategySchema _ _ d4 d5 s3 "strategy" "keyPhrases" _
              (VArr [] []) eq_refl eq_refl C4 eq_refl Hs4
              Cs3 eq_refl eq_refl H5) as (C5 & _).
  intros [= <-]. exact C5.
Qed.

(** X3.  On a parsed response that has the shape of the response schema
    the sanitation returns, and the record it returns has the shape of
    the schema again and is complete: a non-empty array of judges, a
    non-empty string as script, arrays as [structure] and
    [keyPhrases]. *)
Theorem sanitize_keeps_schema (data : value) :
  conforms hackathonSchema data = true ->
  exists r,
    sanitize data = Ok r /\
    conforms hackathonSchema r = true /\
    complete r = true.
Proof.
  intros Hc.
  destruct (sanitize_returns _ (conforms_sanitizable _ Hc)) as [r Hr].
  exists r. split; [exact Hr|]. split.
  - eapply sanitize_conforms; eauto.
  - eapply sanitize_completes; eauto.
Qed.

(** ** The prompt of the critique *)

Lemma split_without (c : ascii) (s : string) :
  occurs c s = false -> split c s = [s].
Proof.
  induction s as [|a s IH]; simpl; auto.
  intros H. apply orb_false_elim in H as [Ha Hs].
  rewrite Ha, (IH Hs). reflexivity.
Qed.

Lemma split_at_first (c : ascii) (h p : string) :
  occurs c h = false ->
  split c (h ++ String c p) = h :: split c p.
Proof.
  induction h as [|a h IH]; simpl.
  - intros _. now rewrite Ascii.eqb_refl.
  - intros H. apply orb_false_elim in H as [Ha Hh].
    rewrite Ha, (IH Hh). reflexivity.
Qed.

Section Prompt.

Variable ToString : value -> result string.
Variable ToNumber : value -> result number.
Variable Blob : Type.
Variable readAsDataURL : Blob -> option string.

Hypothesis ToString_string : forall s, ToString (VStr s) = Ok s.

(** X6.  [blobToBase64] resolves to what follows the comma of the data
    URL: the payload of a URL with one comma, [undefined] for a URL
    without a comma; it rejects when the reader fails. *)
Theorem blobToBase64_payload (blob : Blob) :
  (readAsDataURL blob = None ->
   exists e, blobToBase64 Blob readAsDataURL blob = Throw e) /\
  (forall dataUrl,
      readAsDataURL blob = Some dataUrl -> occurs ","%char dataUrl = false ->
      blobToBase64 Blob readAsDataURL blob = Ok VUndefined) /\
  (forall header payload,
      readAsDataURL blob = Some (header ++ String ","%char payload) ->
      occurs ","%char header = false -> occurs ","%char payload = false ->
      blobToBase64 Blob readAsDataURL blob = Ok (VStr payload)).
Proof.
  unfold blobToBase64. split; [|split].
  - intros ->. eauto.
  - intros dataUrl -> H. now rewrite (split_without _ _ H).
  - intros header payload -> Hh Hp.
    now rewrite (split_at_first _ _ _ Hh), (split_without _ _ Hp).
Qed.

Lemma join_texts (elems : list value) :
  Forall (fun v => string_or_absent v = true) elems ->
  join ToString elems = Ok (String.concat ", " (map text_of elems)).
Proof.
  intros H. unfold join.
  assert (mapM (fun v => match v with
                         | VUndefined | VNull => Ok EmptyString
                         | _ => ToString v
                         end) elems = Ok (map text_of elems)) as ->.
  { induction H as [|v l Hv _ IH]; simpl; auto.
    rewrite IH. destruct v; try discriminate; simpl; auto.
    now rewrite ToString_string. }
  reflexivity.
Qed.

Lemma judge_names (js : list value) :
  Forall (fun j => named_judge j = true) js ->
  exists names,
    mapM (fun j => get j "name") js = Ok names /\
    Forall (fun v => string_or_absent v = true) names /\
    map text_of names = map judge_name js.
Proof.
  induction 1 as [|j js Hj _ (names & Hn & Hs & Ht)]; simpl.
  - exists []. auto.
  - unfold named_judge in Hj. apply andb_prop in Hj as [Hobj Hname].
    unfold judge_name.
    destruct (get j "name") as [v|]; [|discriminate].
    simpl. rewrite Hn. simpl. exists (v :: names). simpl.
    repeat split; auto. now rewrite Ht.
Qed.

Lemma judgesList_names (hackathonData j : value) (js : list value) :
  get hackathonData "judges" = Ok (VArr (j :: js) []) ->
  Forall (fun j => named_judge j = true) (j :: js) ->
  judgesList ToString ToNumber hackathonData
  = Ok (String.concat ", " (map judge_name (j :: js))).
Proof.
  intros Hj Hall. unfold judgesList. rewrite Hj. simpl.
  destruct (judge_names _ Hall) as (names & Hn & Hs & Ht).
  simpl in Hn. rewrite Hn. simpl.
  rewrite (join_texts _ Hs), Ht. reflexivity.
Qed.

(** X4.  The list of judges in the prompt of the critique: falsy judges
    and an empty array give "Standard Hackathon Judges", a panel of
    judges gives their names joined by ", " (a missing name as the empty
    text), and a non-empty string as [judges] is a TypeError. *)
Theorem judgesList_behaviour (hackathonData judges : value) :
  get hackathonData "judges" = Ok judges ->
  (truthy judges = false ->
   judgesList ToString ToNumber hackathonData
   = Ok "Standard Hackathon Judges") /\
  (forall named,
      judges = VArr [] named ->
      judgesList ToString ToNumber hackathonData
      = Ok "Standard Hackathon Judges") /\
  (forall j js,
      judges = VArr (j :: js) [] ->
      Forall (fun j => named_judge j = true) (j :: js) ->
      judgesList ToString ToNumber hackathonData
      = Ok (String.concat ", " (map judge_name (j :: js)))) /\
  (forall s,
      judges = VStr s -> s <> EmptyString ->
      judgesList ToString ToNumber hackathonData = Throw TypeError).
Proof.
  intros Hj. split; [|split; [|split]].
  - intros Hf. unfold judgesList. rewrite Hj. simpl. now rewrite Hf.
  - intros named ->. unfold judgesList. rewrite Hj. reflexivity.
  - intros j js -> Hall. now apply judgesList_names.
  - intros s -> Hs. unfold judgesList. rewrite Hj. simpl.
    apply String.eqb_neq in Hs. rewrite Hs. simpl.
    destruct s; [discriminate|]. reflexivity.
Qed.

Lemma criteriaList_not_empty (hackathonData : value) (s : string) :
  criteriaList ToString hackathonData = Ok s -> s <> EmptyString.
Proof.
  unfold criteriaList.
  destruct (get hackathonData "criteria") as [c|]; simpl; [|discriminate].
  assert (forall r : result string,
             (x <- r ;; Ok (if String.eqb x EmptyString
                            then "General Hackathon Criteria" else x))
             = Ok s -> s <> EmptyString) as Hne.
  { intros [x|e]; simpl; [|discriminate]. intros [= <-].
    destruct (String.eqb x EmptyString) eqn:E; [discriminate|].
    now apply String.eqb_neq. }
  destruct c; try (intros [= <-]; discriminate); try discriminate.
  simpl. destruct (lookup "join" named); simpl; [discriminate|]. apply Hne.
Qed.

(** X5.  The list of criteria in the prompt of the critique is never
    empty: missing, null and empty criteria give "General Hackathon
    Criteria", a list of strings that do not join to the empty text gives
    them joined by ", ", and criteria that are no array are a
    TypeError. *)
Theorem criteriaList_behaviour (hackathonData : value) :
  (forall s,
      criteriaList ToString hackathonData = Ok s -> s <> EmptyString) /\
  (forall criteria,
      get hackathonData "criteria" = Ok criteria ->
      criteria = VUndefined \/ criteria = VNull \/ criteria = VArr [] [] ->
      criteriaList ToString hackathonData
      = Ok "General Hackathon Criteria") /\
  (forall c cs,
      get hackathonData "criteria" = Ok (VArr (c :: cs) []) ->
      Forall (fun v => is_string v = true) (c :: cs) ->
      String.concat ", " (map text_of (c :: cs)) <> EmptyString ->
      criteriaList ToString hackathonData
      = Ok (String.concat ", " (map text_of (c :: cs)))) /\
  (forall criteria,
      get hackathonData "criteria" = Ok criteria ->
      criteria <> VUndefined -> criteria <> VNull ->
      Array_isArray criteria = false ->
      criteriaList ToString hackathonData = Throw TypeError).
Proof.
  split; [apply criteriaList_not_empty|].
  unfold criteriaList. split; [|split].
  - intros criteria -> [-> | [-> | ->]]; reflexivity.
  - intros c cs -> Hall Hne. simpl.
    assert (Forall (fun v => string_or_absent v = true) (c :: cs)) as Hs.
    { eapply Forall_impl; [|exact Hall]. intros v. now destruct v. }
    rewrite (join_texts _ Hs). simpl.
    apply String.eqb_neq in Hne. simpl in Hne. now rewrite Hne.
  - intros criteria -> Hu Hn Ha.
    destruct criteria; simpl in *; try discriminate; auto; contradiction.
Qed.

Lemma conforms_array (s : schema) (v : value) :
  conforms (ARRAY s) v = true ->
  exists elems,
    v = VArr elems [] /\ Forall (fun x => conforms s x = true) elems.
Proof.
  destruct v as [| | | | |elems [|p named]|]; simpl; try discriminate.
  intros H. exists elems. split; auto.
  apply Forall_forall. intros x Hx.
  now apply (proj1 (forallb_forall _ _) H).
Qed.

Lemma conforms_named_judge (j : value) :
  conforms judgeSchema j = true -> named_judge j = true.
Proof.
  intros H.
  destruct (conforms_property _ _ "name" STRING H eq_refl) as (n & Hn & Hc).
  destruct (conforms_object _ _ H) as (ps & -> & _).
  unfold named_judge. rewrite Hn. simpl.
  destruct Hc as [-> | Hc]; auto. destruct n; try discriminate; auto.
Qed.

Hypothesis ToString_undefined : ToString VUndefined = Ok "undefined".

(** X7.  What the resolver returns for a response of the shape of the
    schema is accepted by the critique: once the video is read, the
    request is built, it lists the names of the returned judges joined by
    ", ", and its criteria are not empty. *)
Theorem critique_request_after_analysis (data r : value) (blob : Blob)
    (dataUrl : string) :
  conforms hackathonSchema data = true ->
  sanitize data = Ok r ->
  readAsDataURL blob = Some dataUrl ->
  exists base64Video title criteria j js,
    get r "judges" = Ok (VArr (j :: js) []) /\
    criteria <> EmptyString /\
    video_request ToString ToNumber Blob readAsDataURL blob r
    = Ok (videoRequest base64Video title
            (String.concat ", " (map judge_name (j :: js))) criteria).
Proof.
  intros Hc Hr Hread.
  pose proof (sanitize_conforms _ _ Hc Hr) as Cr.
  pose proof (sanitize_completes _ _ Hc Hr) as Hcomplete.
  destruct (conforms_property _ _ "judges" (ARRAY judgeSchema) Cr eq_refl)
    as (jv & Hjv & Cj).
  unfold complete in Hcomplete. rewrite Hjv in Hcomplete.
  destruct Cj as [-> | Cj]; [discriminate|].
  destruct (conforms_array _ _ Cj) as (js & -> & Hjs).
  destruct js as [|j js]; [discriminate|].
  assert (Hnamed : Forall (fun j => named_judge j = true) (j :: js)).
  { eapply Forall_impl; [|exact Hjs]. apply conforms_named_judge. }
  pose proof (judgesList_names r j js Hjv Hnamed) as Hlist.
  destruct (conforms_property _ _ "title" STRING Cr eq_refl)
    as (t & Ht & Ct).
  assert (exists title, ToString t = Ok title) as [title Htitle].
  { destruct Ct as [-> | Ct]; [eauto|].
    destruct t; try discriminate. eauto. }
  destruct (conforms_property _ _ "criteria" (ARRAY STRING) Cr eq_refl)
    as (c & Hcr & Cc).
  assert (exists criteria, criteriaList ToString r = Ok criteria)
    as [criteria Hcriteria].
  { unfold criteriaList. rewrite Hcr. simpl.
    destruct Cc as [-> | Cc]; [eauto|].
    destruct (conforms_array _ _ Cc) as (cs & -> & Hcs). simpl.
    assert (Forall (fun v => string_or_absent v = true) cs) as Hs.
    { eapply Forall_impl; [|exact Hcs]. intros v. now destruct v. }
    rewrite (join_texts _ Hs). simpl. eauto. }
  unfold video_request, blobToBase64. rewrite Hread. simpl.
  rewrite Hlist. simpl. rewrite Ht. simpl. rewrite Htitle. simpl.
  rewrite Hcriteria. simpl.
  do 3 eexists. exists j, js. split; [exact Hjv|]. split; [|reflexivity].
  exact (criteriaList_not_empty r _ Hcriteria).
Qed.

End Prompt.

Import Coach.

(** ** The coach over whole runs *)

Lemma substring_length (s : string) (k n : nat) :
  String.length (substring k n s) <= n.
Proof.
  revert k n. induction s as [|a s IH]; intros k n.
  - destruct k, n; simpl; lia.
  - destruct k as [|k]; [destruct n as [|n]|]; simpl.
    + lia.
    + specialize (IH 0 n). lia.
    + apply IH.
Qed.

Lemma substring_whole (s : string) (n : nat) :
  String.length s <= n -> substring 0 n s = s.
Proof.
  revert n. induction s as [|a s IH]; intros [|n]; simpl; auto; try lia.
  intros H. f_equal. apply IH. lia.
Qed.

Lemma substring_suffix (s : string) (k : nat) :
  k <= String.length s ->
  exists p,
    String.length p = k /\ s = p ++ substring k (String.length s - k) s.
Proof.
  revert k. induction s as [|a s IH]; intros [|k] Hk; simpl in *; try lia.
  - exists EmptyString. auto.
  - exists EmptyString. split; auto. simpl. f_equal.
    symmetry. now apply substring_whole.
  - destruct (IH k) as (p & Hp & Hs); [lia|].
    exists (String a p). simpl. split; [lia|]. now f_equal.
Qed.

Lemma slice_last_suffix (n : nat) (s : string) :
  String.length (slice_last n s) <= n /\
  exists p, s = p ++ slice_last n s.
Proof.
  unfold slice_last. split; [apply substring_length|].
  destruct (Nat.le_gt_cases (String.length s) n) as [H | H].
  - replace (String.length s - n) with 0 by lia.
    exists EmptyString. simpl. symmetry. now apply substring_whole.
  - destruct (substring_suffix s (String.length s - n)) as (p & _ & Hs);
      [lia|].
    exists p. replace (String.length s - (String.length s - n)) with n in Hs
      by lia.
    exact Hs.
Qed.

Lemma run_invariant (P : state -> Prop) :
  (forall st e st', P st -> step st e = Some st' -> P st') ->
  forall es st st', P st -> run st es = Some st' -> P st'.
Proof.
  intros Hstep. induction es as [|e es IH]; simpl; intros st st' HP.
  - now intros [= <-].
  - destruct (step st e) as [st1|] eqn:E; [|discriminate]. eauto.
Qed.

Lemma onresult_rate_ok (st : state) (fullText : string) (words now : Z) :
  rate_ok st -> rate_ok (onresult st fullText words now).
Proof.
  unfold onresult, rate_ok. intros H.
  destruct (gt (minutes st now) lit_0_08); auto.
  destruct (gt (currentWPM st words now) zero) eqn:E; simpl; auto.
Qed.

Lemma startRecording_fields (st : state) (failure : option start_failure) :
  wpm (startRecording st failure) = wpm st /\
  coachFeedback (startRecording st failure) = coachFeedback st /\
  spoken (startRecording st failure) = spoken st /\
  pendingTips (startRecording st failure) = pendingTips st.
Proof.
  unfold startRecording. destruct (streamRef st); simpl; auto.
  destruct failure as [[| |]|]; simpl; auto.
Qed.

Lemma stopRecording_fields (st : state) :
  wpm (stopRecording st) = wpm st /\
  coachFeedback (stopRecording st) = coachFeedback st /\
  spoken (stopRecording st) = spoken st /\
  pendingTips (stopRecording st) = pendingTips st.
Proof.
  unfold stopRecording.
  destruct (mediaRecorderRef st && isRecording st); simpl; auto.
Qed.

Lemma step_rate_ok (st : state) (e : event) (st' : state) :
  rate_ok st -> step st e = Some st' -> rate_ok st'.
Proof.
  intros H. destruct e as [fullText words now|id outcome|failure|]; simpl.
  - intros [= <-]. now apply onresult_rate_ok.
  - destruct (find_call id st) as [c|]; [|discriminate].
    destruct (getRealTimeFeedback _ _ _); intros [= <-]; exact H.
  - intros [= <-]. unfold rate_ok.
    now rewrite (proj1 (startRecording_fields st failure)).
  - intros [= <-]. unfold rate_ok.
    now rewrite (proj1 (stopRecording_fields st)).
Qed.

(** X9.  Whatever events follow the mount, the displayed rate is 0 or
    positive: never negative, never [NaN]. *)
Theorem rate_never_negative (now : Z) (stream : bool) (es : list event)
    (st : state) :
  run (mount now stream) es = Some st ->
  rate_ok st /\ gt zero (wpm st) = false.
Proof.
  intros H.
  assert (rate_ok st) as Hok.
  { apply (run_invariant rate_ok step_rate_ok es _ _) in H; auto.
    now left. }
  split; [exact Hok|].
  destruct Hok as [-> | Hpos]; [reflexivity|].
  destruct (wpm st) as [s|s| |s m e]; try destruct s; try discriminate;
    reflexivity.
Qed.

Lemma step_feedback_ok (st : state) (e : event) (st' : state) :
  feedback_ok st -> step st e = Some st' -> feedback_ok st'.
Proof.
  intros [Hshown Hspoken].
  destruct e as [fullText words now|id outcome|failure|]; simpl.
  - intros [= <-]. unfold onresult, feedback_ok.
    destruct (gt (minutes st now) lit_0_08); auto.
    destruct (gt (currentWPM st words now) zero); simpl; auto.
  - destruct (find_call id st) as [c|]; [|discriminate].
    destruct (getRealTimeFeedback_returns (fun _ => outcome)
                (call_transcript c) (call_wpm c)) as (fb & -> & Hfb).
    intros [= <-]. split; simpl; auto.
  - intros [= <-]. unfold feedback_ok.
    destruct (startRecording_fields st failure) as (_ & -> & -> & _). auto.
  - intros [= <-]. unfold feedback_ok.
    destruct (stopRecording_fields st) as (_ & -> & -> & _). auto.
Qed.

(** X10.  Whatever events follow the mount, the coach box shows the text
    that was spoken last (its first text when nothing was spoken yet),
    and no spoken or shown text is empty. *)
Theorem shown_tip_is_last_spoken (now : Z) (stream : bool)
    (es : list event) (st : state) :
  run (mount now stream) es = Some st ->
  coachFeedback st = hd "Ready when you are..." (spoken st) /\
  Forall (fun fb => fb <> EmptyString) (spoken st) /\
  coachFeedback st <> EmptyString.
Proof.
  intros H.
  assert (feedback_ok st) as [Hshown Hspoken].
  { apply (run_invariant feedback_ok step_feedback_ok es _ _) in H; auto.
    split; [reflexivity | constructor]. }
  split; [exact Hshown|]. split; [exact Hspoken|].
  rewrite Hshown. destruct Hspoken; simpl; [discriminate | assumption].
Qed.

Lemma step_calls_ok (st : state) (e : event) (st' : state) :
  calls_ok st -> step st e = Some st' -> calls_ok st'.
Proof.
  unfold calls_ok. intros H.
  destruct e as [fullText words now|id outcome|failure|]; simpl.
  - intros [= <-]. unfold onresult.
    destruct (gt (minutes st now) lit_0_08); auto.
    destruct (gt (currentWPM st words now) zero) eqn:E; simpl; auto.
    apply Forall_app. split; auto. constructor; [|constructor]. simpl.
    split; [apply slice_last_suffix | exact E].
  - destruct (find_call id st) as [c|]; [|discriminate].
    assert (Forall (fun c => String.length (call_transcript c) <= 100 /\
                             gt (call_wpm c) zero = true)
              (filter (fun c => negb (Nat.eqb (call_id c) id))
                 (pendingTips st))) as Hf.
    { apply Forall_forall. intros x Hx. apply filter_In in Hx as [Hx _].
      now apply (proj1 (Forall_forall _ _) H). }
    destruct (getRealTimeFeedback _ _ _); intros [= <-]; exact Hf.
  - intros [= <-].
    now rewrite (proj2 (proj2 (proj2 (startRecording_fields st failure)))).
  - intros [= <-].
    now rewrite (proj2 (proj2 (proj2 (stopRecording_fields st)))).
Qed.

(** X11.  Whatever events follow the mount, every tip call in flight
    carries at most the last 100 characters of the transcript and a
    positive rate. *)
Theorem tip_calls_bounded (now : Z) (stream : bool) (es : list event)
    (st : state) (c : tip_call) :
  run (mount now stream) es = Some st ->
  In c (pendingTips st) ->
  String.length (call_transcript c) <= 100 /\
  gt (call_wpm c) zero = true.
Proof.
  intros H Hin.
  assert (calls_ok st) as Hok.
  { apply (run_invariant calls_ok step_calls_ok es _ _) in H; auto.
    constructor. }
  exact (proj1 (Forall_forall _ _) Hok c Hin).
Qed.

Lemma find_call_stopRecording (id : nat) (st : state) :
  find_call id (stopRecording st) = find_call id st.
Proof.
  unfold find_call.
  now rewrite (proj2 (proj2 (proj2 (stopRecording_fields st)))).
Qed.

(** X12.  [stopRecording] cancels no tip call: the calls in flight stay
    pending, and a call that settles after the stop is still shown and
    spoken. *)
Theorem stop_keeps_pending_tips (st : state) (id : nat) (c : tip_call)
    (outcome : result response) :
  find_call id st = Some c ->
  pendingTips (stopRecording st) = pendingTips st /\
  exists fb st',
    getRealTimeFeedback (fun _ => outcome) (call_transcript c) (call_wpm c)
    = Ok fb /\
    run st [StopRecording; TipSettled id outcome] = Some st' /\
    coachFeedback st' = fb /\
    spoken st' = fb :: spoken st.
Proof.
  intros Hc.
  split; [exact (proj2 (proj2 (proj2 (stopRecording_fields st))))|].
  assert (find_call id (stopRecording st) = Some c) as Hc'
    by now rewrite find_call_stopRecording.
  destruct (settle_shows_tip _ id c outcome Hc') as (fb & Hfb & Hstep).
  exists fb. eexists. split; [exact Hfb|]. split.
  - cbn [run]. change (step st StopRecording) with (Some (stopRecording st)).
    cbv iota. rewrite Hstep. reflexivity.
  - simpl. destruct (stopRecording_fields st) as (_ & _ & -> & _). auto.
Qed.

(** ** The transcript and its words *)

Import Recognition.

Lemma append_assoc (a b c : string) : (a ++ b) ++ c = a ++ (b ++ c).
Proof. induction a as [|x a IH]; simpl; congruence. Qed.

Lemma append_empty (a : string) : a ++ EmptyString = a.
Proof. induction a as [|x a IH]; simpl; congruence. Qed.

Lemma transcripts_accumulate (results : list speech_result)
    (f i : string) :
  transcripts results f i =
  (f ++ String.concat EmptyString
          (map transcript (filter isFinal results)),
   i ++ String.concat EmptyString
          (map transcript (filter (fun r => negb (isFinal r)) results))).
Proof.
  assert (Hcat : forall l x,
             String.concat EmptyString (x :: l)
             = x ++ String.concat EmptyString l).
  { intros [|y l] x; simpl; auto. now rewrite append_empty. }
  revert f i. induction results as [|r rest IH]; intros f i.
  - simpl. now rewrite !append_empty.
  - cbn [transcripts filter]. destruct (isFinal r); cbn [negb map].
    + rewrite IH, Hcat, append_assoc. reflexivity.
    + rewrite IH, Hcat, append_assoc. reflexivity.
Qed.

Section Text.

Variable isWhite : ascii -> bool.
Variable toLowerCase : string -> string.

(** X13.  The text of a recognition event is the lower-cased
    concatenation of its final results followed by its interim results,
    both taken from [resultIndex] on and each in the order of the
    event. *)
Theorem fullText_finals_first (results : list speech_result)
    (resultIndex : nat) :
  fullText toLowerCase results resultIndex =
  toLowerCase
    (String.concat EmptyString
       (map transcript (filter isFinal (skipn resultIndex results))) ++
     String.concat EmptyString
       (map transcript
          (filter (fun r => negb (isFinal r)) (skipn resultIndex results)))).
Proof.
  unfold fullText. now rewrite transcripts_accumulate.
Qed.

Lemma pieces_not_empty (b : bool) (s : string) : pieces isWhite b s <> [].
Proof.
  revert b. induction s as [|a s IH]; intros b; simpl; [discriminate|].
  destruct (isWhite a).
  - destruct b; [apply IH | discriminate].
  - destruct (pieces isWhite false s); discriminate.
Qed.

(** A string without trailing white space. *)
Lemma trimEnd_fixed_cons (a : ascii) (s : string) :
  trimEnd isWhite (String a s) = String a s ->
  (s = EmptyString /\ isWhite a = false) \/
  (s <> EmptyString /\ trimEnd isWhite s = s).
Proof.
  simpl. destruct (trimEnd isWhite s) as [|b t] eqn:E.
  - destruct (isWhite a); [discriminate|]. intros [= <-]. auto.
  - intros [= <-]. right. split; [discriminate | reflexivity].
Qed.

Lemma pieces_runs (s : string) :
  trimEnd isWhite s = s ->
  List.length (pieces isWhite false s) = S (runs isWhite true s) /\
  (s <> EmptyString ->
   List.length (pieces isWhite true s) = runs isWhite false s).
Proof.
  induction s as [|a s IH]; intros H.
  - split; [reflexivity|]. intros Hne. now elim Hne.
  - assert (Hlen : List.length
                     match pieces isWhite false s with
                     | [] => [String a EmptyString]
                     | w :: ws => String a w :: ws
                     end = List.length (pieces isWhite false s)).
    { destruct (pieces isWhite false s) eqn:E; auto.
      now elim (pieces_not_empty false s). }
    apply trimEnd_fixed_cons in H as [[-> Ha] | [Hne Hs]].
    + simpl. rewrite Ha. simpl. split; auto.
    + destruct (IH Hs) as [IH1 IH2]. specialize (IH2 Hne).
      simpl. destruct (isWhite a); simpl.
      * rewrite IH2. split; auto.
      * rewrite Hlen, IH1. split; auto.
Qed.

Lemma trimEnd_idempotent (s : string) :
  trimEnd isWhite (trimEnd isWhite s) = trimEnd isWhite s.
Proof.
  induction s as [|a s IH]; simpl; auto.
  destruct (trimEnd isWhite s) as [|b t] eqn:E.
  - destruct (isWhite a) eqn:Ha; simpl; auto. now rewrite Ha.
  - change (trimEnd isWhite (String a (String b t)) = String a (String b t)).
    cbn [trimEnd] in *. rewrite IH. reflexivity.
Qed.

Lemma runs_trimEnd (b : bool) (s : string) :
  runs isWhite b (trimEnd isWhite s) = runs isWhite b s.
Proof.
  revert b. induction s as [|a s IH]; intros b; simpl; auto.
  destruct (trimEnd isWhite s) as [|c t] eqn:E.
  - destruct (isWhite a) eqn:Ha; simpl; rewrite ?Ha, <- IH; reflexivity.
  - simpl. destruct (isWhite a); rewrite <- IH; reflexivity.
Qed.

Lemma runs_trimStart (s : string) :
  runs isWhite false (trimStart isWhite s) = runs isWhite false s.
Proof.
  induction s as [|a s IH]; simpl; auto.
  destruct (isWhite a) eqn:Ha; simpl; auto. now rewrite Ha.
Qed.

Lemma trim_starts_in_word (s : string) :
  trim isWhite s = EmptyString \/
  exists a t, trim isWhite s = String a t /\ isWhite a = false.
Proof.
  unfold trim.
  assert (trimStart isWhite s = EmptyString \/
          exists a t, trimStart isWhite s = String a t /\ isWhite a = false)
    as [-> | (a & t & -> & Ha)].
  { induction s as [|a s IH]; simpl; auto.
    destruct (isWhite a) eqn:Ha; eauto. }
  - now left.
  - right. simpl. destruct (trimEnd isWhite t) as [|b u].
    + rewrite Ha. eauto.
    + eauto.
Qed.

(** X14.  The word count of the pacer is the number of maximal runs of
    characters that are not white space, except that a text without any
    word counts as one word; it is never below 1. *)
Theorem wordCount_counts_words (s : string) :
  wordCount isWhite s = Z.of_nat (Nat.max 1 (words isWhite s)) /\
  (1 <= wordCount isWhite s)%Z /\
  (words isWhite s = 0 -> wordCount isWhite s = 1%Z).
Proof.
  assert (Hmain : List.length (split_white isWhite (trim isWhite s))
                  = Nat.max 1 (words isWhite s)).
  { unfold split_white, words.
    rewrite <- (runs_trimStart s).
    rewrite <- (runs_trimEnd false (trimStart isWhite s)).
    fold (trim isWhite s).
    destruct (pieces_runs (trim isWhite s)) as [H _];
      [apply trimEnd_idempotent|].
    rewrite H.
    destruct (trim_starts_in_word s) as [-> | (a & t & -> & Ha)].
    - reflexivity.
    - simpl. rewrite Ha. simpl. lia. }
  unfold wordCount. rewrite Hmain. repeat split; lia.
Qed.

End Text.

(** ** The coach view *)

Import Display.

Lemma decimal_injective (n m : nat) : decimal n = decimal m -> n = m.
Proof.
  unfold decimal. intros H. apply DecimalNat.Unsigned.to_uint_inj.
  assert (NilEmpty.uint_of_string (NilEmpty.string_of_uint (Nat.to_uint n))
          = NilEmpty.uint_of_string (NilEmpty.string_of_uint (Nat.to_uint m)))
    as E by now rewrite H.
  rewrite !NilEmpty.usu in E. now injection E.
Qed.

Lemma append_same_length (a b u v : string) :
  String.length a = String.length b -> a ++ u = b ++ v -> a = b /\ u = v.
Proof.
  revert b. induction a as [|x a IH]; intros [|y b]; simpl; try discriminate.
  - auto.
  - intros [= Hl] [= -> H]. destruct (IH _ Hl H) as [-> ->]. auto.
Qed.

Lemma append_length (a b : string) :
  String.length (a ++ b) = String.length a + String.length b.
Proof. induction a as [|x a IH]; simpl; auto. Qed.

Lemma two_digits (s : nat) :
  s < 60 -> String.length (padStart2 (decimal s)) = 2.
Proof.
  intros H.
  assert (forallb (fun s => Nat.eqb (String.length (padStart2 (decimal s))) 2)
            (seq 0 60) = true) as Hall by (vm_compute; reflexivity).
  apply Nat.eqb_eq.
  apply (proj1 (forallb_forall _ _) Hall). apply in_seq. lia.
Qed.

Lemma two_digits_injective (s t : nat) :
  s < 60 -> t < 60 ->
  padStart2 (decimal s) = padStart2 (decimal t) -> s = t.
Proof.
  intros Hs Ht H.
  assert (forallb
            (fun s => forallb
               (fun t => negb (String.eqb (padStart2 (decimal s))
                                 (padStart2 (decimal t)))
                         || Nat.eqb s t) (seq 0 60))
            (seq 0 60) = true) as Hall by (vm_compute; reflexivity).
  assert (In s (seq 0 60)) as Is by (apply in_seq; lia).
  assert (In t (seq 0 60)) as It by (apply in_seq; lia).
  pose proof (proj1 (forallb_forall _ _)
                (proj1 (forallb_forall _ _) Hall s Is) t It) as E.
  simpl in E. rewrite H, String.eqb_refl in E. simpl in E.
  now apply Nat.eqb_eq.
Qed.

(** X15.  [formatTime] shows the minutes, a colon and the seconds of the
    minute on exactly two characters, and different times are shown
    differently. *)
Theorem formatTime_shape (seconds : nat) :
  (exists digits,
      formatTime seconds = decimal (seconds / 60) ++ ":" ++ digits /\
      String.length digits = 2 /\
      digits = padStart2 (decimal (seconds mod 60))) /\
  (forall seconds', formatTime seconds = formatTime seconds' ->
                    seconds = seconds').
Proof.
  assert (Hmod : forall n, n mod 60 < 60)
    by (intros n; apply Nat.mod_upper_bound; discriminate).
  split.
  - eexists. split; [reflexivity|]. split; [|reflexivity].
    apply two_digits, Hmod.
  - intros seconds' H. unfold formatTime in H.
    assert (String.length (decimal (seconds / 60))
            = String.length (decimal (seconds' / 60))) as Hlen.
    { apply (f_equal String.length) in H.
      rewrite !append_length in H.
      change (String.length ":") with 1 in H.
      rewrite !two_digits in H by apply Hmod. lia. }
    destruct (append_same_length _ _ _ _ Hlen H) as [Hm Hs].
    assert (seconds / 60 = seconds' / 60) as Hq
      by (apply decimal_injective; exact Hm).
    assert (seconds mod 60 = seconds' mod 60) as Hr.
    { apply two_digits_injective; try apply Hmod. now injection Hs. }
    pose proof (Nat.div_mod_eq seconds 60) as E.
    pose proof (Nat.div_mod_eq seconds' 60) as E'.
    rewrite Hq, Hr in E. congruence.
Qed.

Lemma judgeRow_throws (j : value) (e : error) :
  judgeRow j = Throw e -> e = TypeError.
Proof.
  unfold judgeRow.
  destruct (get j "name") as [n|] eqn:Hn; simpl;
    [|intros [= <-]; eapply get_throws; eauto].
  destruct (first n) as [i|] eqn:Hi; simpl.
  - destruct (get j "role") as [r|] eqn:Hr; simpl;
      [|intros [= <-]; eapply get_throws; eauto].
    destruct (get j "company") as [c|] eqn:Hc; simpl;
      [discriminate|intros [= <-]; eapply get_throws; eauto].
  - intros [= <-]. destruct n as [| | | |[|]|[|]|]; simpl in Hi; congruence.
Qed.

Lemma judgeRow_nameless (j : value) :
  nameless j = true -> judgeRow j = Throw TypeError.
Proof.
  unfold nameless, judgeRow.
  destruct (get j "name") as [n|e] eqn:Hn; simpl.
  - destruct n; try discriminate; reflexivity.
  - intros _. now rewrite (get_throws _ _ _ Hn).
Qed.

Lemma first_renderable (n i : value) :
  first n = Ok i -> renderable n = true -> renderable i = true.
Proof.
  destruct n as [| | | |[|a s]|[|x elems] named|ps]; simpl;
    try discriminate; try (intros [= <-]; reflexivity).
  intros [= <-] H. now apply andb_prop in H as [H _].
Qed.

Lemma judgeRow_named (j : value) :
  is_object j = true -> nameless j = false ->
  exists row,
    judgeRow j = Ok row /\ get j "name" = Ok (row_name row) /\
    render row = if displayable j then Ok row else Throw invalid_child.
Proof.
  intros Hobj. unfold nameless, judgeRow, displayable.
  destruct (get_total j "name" Hobj) as [n ->].
  destruct (get_total j "role" Hobj) as [r ->].
  destruct (get_total j "company" Hobj) as [c ->].
  intros Hn. simpl.
  assert (exists i, first n = Ok i) as [i Hi].
  { destruct n as [| | | |[|]|[|]|]; simpl; try discriminate; eauto. }
  rewrite Hi. simpl. eexists. split; [reflexivity|].
  split; [reflexivity|]. unfold render. simpl.
  destruct (renderable n) eqn:En.
  - now rewrite (first_renderable _ _ Hi En).
  - now rewrite andb_false_r.
Qed.

Lemma mapM_throws (js : list value) :
  Exists (fun j => nameless j = true) js ->
  mapM judgeRow js = Throw TypeError.
Proof.
  induction 1 as [j js Hj | j js _ IH]; simpl.
  - now rewrite (judgeRow_nameless _ Hj).
  - destruct (judgeRow j) as [row|e] eqn:E; simpl.
    + now rewrite IH.
    + now rewrite (judgeRow_throws _ _ E).
Qed.

Lemma mapM_rows (js : list value) :
  Forall (fun j => is_object j = true /\ nameless j = false) js ->
  exists rows,
    mapM judgeRow js = Ok rows /\
    List.length rows = List.length js /\
    map (fun j => get j "name") js = map (fun r => Ok (row_name r)) rows /\
    (Forall (fun j => displayable j = true) js ->
     mapM render rows = Ok rows) /\
    (Exists (fun j => displayable j = false) js ->
     mapM render rows = Throw invalid_child).
Proof.
  induction 1 as [|j js [Hobj Hn] _ (rows & Hr & Hl & Hm & Hok & Hbad)];
    simpl.
  - exists []. repeat split; auto. intros H. inversion H.
  - destruct (judgeRow_named j Hobj Hn) as (row & -> & Hname & Hrender).
    simpl. rewrite Hr. simpl. exists (row :: rows). simpl.
    split; [reflexivity|]. split; [now rewrite Hl|].
    split; [now rewrite Hname, Hm|]. rewrite Hrender. split.
    + intros H. inversion H as [|? ? Hd Hds]; subst.
      rewrite Hd. simpl. now rewrite (Hok Hds).
    + intros H. destruct (displayable j) eqn:Ed; [|reflexivity].
      simpl. inversion H as [? ? Hd|? ? Hds]; subst; [congruence|].
      now rewrite (Hbad Hds).
Qed.

(** X16.  "The Panel" displays the first three judges, in their order
    and with their names, when each of them is an object with a name
    and its name, role and company can be rendered (each a string, a
    number, a boolean, missing, null or an array of such).  A judge
    without name among the first three makes the view throw a TypeError;
    when all three have a name, an object as name, role or company of
    one of them makes React throw its error for an invalid child. *)
Theorem panel_rows (hackathonData : value) (js : list value) :
  get hackathonData "judges" = Ok (VArr js []) ->
  (Forall (fun j => is_object j = true /\ nameless j = false /\
                    displayable j = true)
     (firstn 3 js) ->
   exists rows,
     panel hackathonData = Ok rows /\
     List.length rows = Nat.min 3 (List.length js) /\
     map (fun j => get j "name") (firstn 3 js)
     = map (fun r => Ok (row_name r)) rows) /\
  (Exists (fun j => nameless j = true) (firstn 3 js) ->
   panel hackathonData = Throw TypeError) /\
  (Forall (fun j => is_object j = true /\ nameless j = false)
     (firstn 3 js) ->
   Exists (fun j => displayable j = false) (firstn 3 js) ->
   panel hackathonData = Throw invalid_child).
Proof.
  intros Hj. unfold panel. rewrite Hj.
  cbn [bind array_method lookup]. split; [|split].
  - intros H.
    assert (H1 : Forall (fun j => is_object j = true /\ nameless j = false)
                   (firstn 3 js))
      by (eapply Forall_impl; [|exact H]; simpl; tauto).
    assert (H2 : Forall (fun j => displayable j = true) (firstn 3 js))
      by (eapply Forall_impl; [|exact H]; simpl; tauto).
    destruct (mapM_rows _ H1) as (rows & Hr & Hl & Hm & Hok & _).
    exists rows. rewrite Hr. split; [exact (Hok H2)|]. split; [|exact Hm].
    now rewrite Hl, length_firstn.
  - intros H. now rewrite (mapM_throws _ H).
  - intros H1 H2.
    destruct (mapM_rows _ H1) as (rows & Hr & _ & _ & _ & Hbad).
    rewrite Hr. exact (Hbad H2).
Qed.

Lemma concat_cons (sep x : string) (l : list string) :
  l <> [] -> String.concat sep (x :: l) = x ++ sep ++ String.concat sep l.
Proof. destruct l; [now intros H; elim H | reflexivity]. Qed.

Lemma split_blank_not_empty (s : string) : split_blank s <> [].
Proof.
  destruct s as [|a s]; simpl; [discriminate|].
  assert (match split_blank s with
          | [] => [String a EmptyString]
          | w :: ws => String a w :: ws
          end <> []) by (destruct (split_blank s); discriminate).
  destruct (Ascii.eqb a newline); auto.
  destruct s as [|b s]; auto.
  destruct (Ascii.eqb b newline); auto. discriminate.
Qed.

Lemma split_blank_joins (n : nat) (s : string) :
  String.length s <= n -> String.concat blank (split_blank s) = s.
Proof.
  revert s. induction n as [|n IH]; intros s Hn.
  - destruct s; [reflexivity | simpl in Hn; lia].
  - destruct s as [|a s]; [reflexivity|].
    assert (Hs : String.concat blank (split_blank s) = s)
      by (apply IH; simpl in Hn; lia).
    assert (Hkeep :
              String.concat blank
                match split_blank s with
                | [] => [String a EmptyString]
                | w :: ws => String a w :: ws
                end = String a s).
    { destruct (split_blank s) as [|w ws] eqn:E.
      - now elim (split_blank_not_empty s).
      - destruct ws; simpl in *; now rewrite <- Hs. }
    cbn [split_blank]. fold (split_blank s).
    destruct (Ascii.eqb a newline) eqn:Ea; [|exact Hkeep].
    destruct s as [|b s]; [exact Hkeep|].
    destruct (Ascii.eqb b newline) eqn:Eb; [|exact Hkeep].
    apply Ascii.eqb_eq in Ea, Eb. subst a b.
    rewrite concat_cons by apply split_blank_not_empty.
    rewrite IH by (simpl in Hn; lia). reflexivity.
Qed.

(** X17.  "Your Script" displays the paragraphs of a string script, at
    least one, which joined by empty lines give the script again; a
    truthy script that is no string is a TypeError; a truthy script is
    never replaced by "Script not available.". *)
Theorem paragraphs_of_script (hackathonData strategy : value) :
  get hackathonData "strategy" = Ok strategy ->
  truthy strategy = true ->
  (forall s,
      get strategy "generatedScript" = Ok (VStr s) ->
      exists p ps,
        paragraphs hackathonData = Ok (Some (p :: ps)) /\
        String.concat blank (p :: ps) = s) /\
  (forall script,
      get strategy "generatedScript" = Ok script ->
      truthy script = true -> is_string script = false ->
      paragraphs hackathonData = Throw TypeError) /\
  (forall script,
      get strategy "generatedScript" = Ok script ->
      truthy script = true ->
      paragraphs hackathonData <> Ok None).
Proof.
  intros Hs Ht. unfold paragraphs. rewrite Hs. simpl.
  assert (Hmatch : forall A (x y : A),
             match strategy with
             | VUndefined | VNull => x
             | _ => y
             end = y).
  { intros A x y. destruct strategy; try discriminate; reflexivity. }
  rewrite Hmatch. split; [|split].
  - intros s ->. simpl.
    destruct (split_blank s) as [|p ps] eqn:E;
      [now elim (split_blank_not_empty s)|].
    exists p, ps. split; [reflexivity|].
    change (String.concat blank (p :: ps) = s). rewrite <- E.
    now apply (split_blank_joins (String.length s)).
  - intros script -> Hts Hstr. simpl.
    destruct script; try discriminate; reflexivity.
  - intros script -> Hts. simpl.
    destruct script; try discriminate.
Qed.

(** ** The recorder *)

Import Recorder.

Lemma ondataavailable_fold (sizes : list Z) (st : state) :
  chunksRef (fold_left ondataavailable sizes st)
  = (chunksRef st ++ filter (fun size => (0 <? size)%Z) sizes)%list.
Proof.
  revert st. induction sizes as [|size sizes IH]; intros st; simpl.
  - now rewrite app_nil_r.
  - rewrite IH. unfold ondataavailable.
    destruct (0 <? size)%Z; simpl; auto. now rewrite <- app_assoc.
Qed.

(** X19.  The recorded blob is made of the chunks delivered since
    [startRecording] that are not empty, in the order of their delivery,
    and of nothing that an earlier recording left. *)
Theorem recording_chunks (st : state) (sizes : list Z) :
  streamRef st = true ->
  onstop (fold_left ondataavailable sizes (startRecording st None))
  = filter (fun size => (0 <? size)%Z) sizes /\
  Forall (fun size => (0 < size)%Z)
    (onstop (fold_left ondataavailable sizes (startRecording st None))).
Proof.
  intros Hs. unfold onstop. rewrite ondataavailable_fold.
  assert (chunksRef (startRecording st None) = []) as ->.
  { unfold startRecording. now rewrite Hs. }
  simpl. split; auto.
  apply Forall_forall. intros x Hx. apply filter_In in Hx as [_ Hx].
  now apply Z.ltb_lt.
Qed.

(** ** The failures of the critique *)

Section CritiqueFailures.

Variable JSON_parse : string -> option value.
Variable ToString : value -> result string.
Variable ToNumber : value -> result number.
Variable Blob : Type.
Variable readAsDataURL : Blob -> option string.
Variable generateContent : request -> result response.

(** X8.  The failures of [analyzeVideoDemo]: a failure while the prompt
    is built is thrown as it is, a response that [JSON.parse] rejects is a
    SyntaxError, and the call fails in no other way than by the failure of
    the request, of the inference call, by a response without text
    ("Analysis failed"), or by a text that does not parse. *)
Theorem analyzeVideoDemo_other_failures (videoBlob : Blob)
    (hackathonData : value) :
  (forall e,
      video_request ToString ToNumber Blob readAsDataURL videoBlob
        hackathonData = Throw e ->
      analyzeVideoDemo JSON_parse ToString ToNumber Blob readAsDataURL
        generateContent videoBlob hackathonData = Throw e) /\
  (forall req resp t,
      video_request ToString ToNumber Blob readAsDataURL videoBlob
        hackathonData = Ok req ->
      generateContent req = Ok resp ->
      text resp = Some t -> t <> EmptyString -> JSON_parse t = None ->
      analyzeVideoDemo JSON_parse ToString ToNumber Blob readAsDataURL
        generateContent videoBlob hackathonData = Throw SyntaxError) /\
  (forall e,
      analyzeVideoDemo JSON_parse ToString ToNumber Blob readAsDataURL
        generateContent videoBlob hackathonData = Throw e ->
      video_request ToString ToNumber Blob readAsDataURL videoBlob
        hackathonData = Throw e \/
      exists req,
        video_request ToString ToNumber Blob readAsDataURL videoBlob
          hackathonData = Ok req /\
        (generateContent req = Throw e \/
         exists resp,
           generateContent req = Ok resp /\
           (no_text resp /\ e = Error "Analysis failed" \/
            exists t,
              text resp = Some t /\ t <> EmptyString /\
              JSON_parse t = None /\ e = SyntaxError))).
Proof.
  rewrite analyzeVideoDemo_unfold.
  split; [|split].
  - intros e ->. reflexivity.
  - intros req resp t -> Hg Ht Hne Hp. simpl. rewrite Hg. simpl.
    rewrite Ht. apply String.eqb_neq in Hne. rewrite Hne. simpl.
    now rewrite Hp.
  - intros e.
    destruct (video_request ToString ToNumber Blob readAsDataURL videoBlob
                hackathonData) as [req|e'] eqn:Hreq; simpl.
    + intros H. right. exists req. split; [reflexivity|].
      destruct (generateContent req) as [resp|e'] eqn:Hg; simpl in H.
      * right. exists resp. split; [reflexivity|].
        unfold no_text.
        destruct (text resp) as [t|] eqn:Ht.
        -- destruct (String.eqb t EmptyString) eqn:Et; simpl in H.
           ++ apply String.eqb_eq in Et. subst t.
              injection H as <-. left. auto.
           ++ apply String.eqb_neq in Et.
              destruct (JSON_parse t) as [a|] eqn:Hp; [discriminate|].
              injection H as <-. right. exists t. auto.
        -- injection H as <-. left. auto.
      * left. now injection H as <-.
    + intros H. left. now injection H as <-.
Qed.

End CritiqueFailures.

(** ** The coach view after an analysis *)

Lemma panel_fallback (r : value) :
  get r "judges" = Ok fallbackJudges ->
  exists technical product,
    panel r = Ok [technical; product] /\
    row_name technical = VStr "The Technical Judge" /\
    row_initial technical = VStr "T" /\
    row_name product = VStr "The Product Judge" /\
    row_initial product = VStr "T".
Proof.
  intros H. unfold panel. rewrite H. do 2 eexists. repeat split.
Qed.

Section View.

Variable JSON_parse : string -> option value.
Variable generateContent : request -> result response.

(** X18.  The coach view on what the resolver returns: "Script not
    available." is never displayed; for a response of the shape of the
    schema the script is displayed as paragraphs that join to it; when the
    inference layer returned zero judges the panel shows the two fallback
    judges with the initial "T"; and a parsed judge without name among the
    first three makes the panel throw a TypeError, the sanitation having
    left the judges as parsed. *)
Theorem coach_view_after_analysis (url : string) (data r : value) :
  inferred JSON_parse generateContent url data ->
  analyzeHackathonUrl JSON_parse generateContent url = Ok r ->
  paragraphs r <> Ok None /\
  (conforms hackathonSchema data = true ->
   exists p ps script,
     get2 r "strategy" "generatedScript" = Ok (VStr script) /\
     script <> EmptyString /\
     paragraphs r = Ok (Some (p :: ps)) /\
     String.concat blank (p :: ps) = script) /\
  (forall judges,
      get data "judges" = Ok judges -> zero_judges judges ->
      exists technical product,
        panel r = Ok [technical; product] /\
        row_name technical = VStr "The Technical Judge" /\
        row_initial technical = VStr "T" /\
        row_name product = VStr "The Product Judge" /\
        row_initial product = VStr "T") /\
  (forall js,
      get data "judges" = Ok (VArr js []) ->
      Exists (fun j => nameless j = true) (firstn 3 js) ->
      panel r = Throw TypeError).
Proof.
  intros Hi Hr.
  assert (Hs : sanitize data = Ok r).
  { apply analyzeHackathonUrl_inv in Hr as (d & Hd & Hs).
    now rewrite (inferred_functional _ _ _ _ _ Hi Hd). }
  destruct (sanitize_spec _ _ Hs)
    as [(j0 & s0 & s & g0 & st0 & kp0 & Hj0 & Hs0 & Hj & Hst & _ & Hg0
         & _ & _ & Hg & _) _].
  assert (Tg : truthy (repaired g0 (VStr "Script generation incomplete."))
               = true) by now apply repaired_truthy.
  assert (Ts : s <> VUndefined /\ s <> VNull).
  { split; intros ->; discriminate. }
  split; [|split; [|split]].
  - unfold paragraphs. rewrite Hst. simpl.
    destruct s; try (now elim (proj1 Ts)); try (now elim (proj2 Ts));
      rewrite Hg; simpl;
      destruct (repaired g0 (VStr "Script generation incomplete."));
      simpl; discriminate.
  - intros Hc.
    pose proof (sanitize_completes _ _ Hc Hs) as Hcomp.
    unfold complete, get2 in Hcomp. rewrite Hst in Hcomp.
    simpl in Hcomp. rewrite Hg in Hcomp.
    apply andb_prop in Hcomp as [Hcomp _].
    apply andb_prop in Hcomp as [Hcomp _].
    apply andb_prop in Hcomp as [_ Hcomp].
    destruct (repaired g0 (VStr "Script generation incomplete."))
      as [| | | |script| |] eqn:E; try discriminate.
    simpl in Hcomp. apply negb_true_iff, String.eqb_neq in Hcomp.
    destruct (split_blank script) as [|p ps] eqn:Esp;
      [now elim (split_blank_not_empty script)|].
    exists p, ps, script. split; [|split; [exact Hcomp|split]].
    + unfold get2. rewrite Hst. simpl. now rewrite Hg.
    + unfold paragraphs. rewrite Hst. simpl.
      destruct s; try (now elim (proj1 Ts)); try (now elim (proj2 Ts));
        rewrite Hg; simpl; now rewrite Esp.
    + rewrite <- Esp.
      now apply (split_blank_joins (String.length script)).
  - intros judges Hjd Hz.
    assert (judges = j0) by congruence. subst judges.
    rewrite (zero_judges_no_judges _ Hz) in Hj.
    exact (panel_fallback r Hj).
  - intros js Hjd Hex.
    assert (j0 = VArr js []) by congruence. subst j0.
    assert (Hn : no_judges (VArr js []) = false).
    { destruct js; [inversion Hex | reflexivity]. }
    rewrite Hn in Hj.
    unfold panel. rewrite Hj. cbn [bind array_method lookup].
    now rewrite (mapM_throws _ Hex).
Qed.

End View.

(** ** The further properties on the samples *)

(** The record returned for the sample with one bare judge is returned
    unchanged when it is sanitized again. *)
Lemma sanitize_idempotent_witness :
  sanitize Sample.bare_judge_data = Ok Rehearsal.bare_judge_record /\
  sanitize Rehearsal.bare_judge_record = Ok Rehearsal.bare_judge_record.
Proof.
  split; [reflexivity|].
  apply (sanitize_idempotent Sample.bare_judge_data). reflexivity.
Defined.

(** An unreachable service makes the resolver throw the rejection, and a
    response without text the error of the missing data. *)
Lemma analyzeHackathonUrl_failures_witness :
  analyzeHackathonUrl Sample.JSON_parse Sample.unreachable Sample.url
  = Throw (Rejected "NetworkError") /\
  analyzeHackathonUrl Sample.JSON_parse Rehearsal.silent Sample.url
  = Throw (Error "No data returned from Gemini").
Proof.
  destruct (analyzeHackathonUrl_failures Sample.JSON_parse Sample.unreachable
              Sample.url) as (Hthrow & _).
  destruct (analyzeHackathonUrl_failures Sample.JSON_parse Rehearsal.silent
              Sample.url) as (_ & Hsilent & _).
  split.
  - apply Hthrow. reflexivity.
  - apply (Hsilent {| text := None |}); [reflexivity | left; reflexivity].
Defined.

(** The sample with one bare judge has the shape of the schema, and so
    has the complete record returned for it. *)
Lemma sanitize_keeps_schema_witness :
  conforms hackathonSchema Sample.bare_judge_data = true /\
  exists r,
    sanitize Sample.bare_judge_data = Ok r /\
    conforms hackathonSchema r = true /\
    complete r = true.
Proof.
  split; [reflexivity|].
  apply (sanitize_keeps_schema Sample.bare_judge_data). reflexivity.
Defined.

(** The payload of the sample video is what follows the comma. *)
Lemma blobToBase64_payload_witness :
  blobToBase64 (option string) Sample.readAsDataURL Sample.video
  = Ok (VStr "GkXfo59ChoEB").
Proof.
  destruct (blobToBase64_payload (option string) Sample.readAsDataURL
              Sample.video) as (_ & _ & Hpayload).
  apply (Hpayload "data:video/webm;codecs=vp9;base64" "GkXfo59ChoEB");
    reflexivity.
Defined.

(** The panel of the sample with one bare judge is listed as "Ada". *)
Lemma judgesList_behaviour_witness :
  get Sample.bare_judge_data "judges"
  = Ok (VArr [ VObj [ ("name", VStr "Ada") ] ] []) /\
  judgesList Sample.ToString Sample.ToNumber Sample.bare_judge_data
  = Ok "Ada".
Proof.
  split; [reflexivity|].
  destruct (judgesList_behaviour Sample.ToString Sample.ToNumber
              (fun s => eq_refl) Sample.bare_judge_data
              (VArr [ VObj [ ("name", VStr "Ada") ] ] []) eq_refl)
    as (_ & _ & Hnames & _).
  apply (Hnames (VObj [ ("name", VStr "Ada") ]) []); [reflexivity|].
  repeat constructor.
Defined.

(** The sample with one bare judge has no criteria: the default label is
    listed. *)
Lemma criteriaList_behaviour_witness :
  criteriaList Sample.ToString Sample.bare_judge_data
  = Ok "General Hackathon Criteria".
Proof.
  destruct (criteriaList_behaviour Sample.ToString (fun s => eq_refl)
              Sample.bare_judge_data) as (_ & Hdefault & _).
  apply (Hdefault VUndefined); [reflexivity | left; reflexivity].
Defined.

(** The critique of the sample video against the record returned for the
    sample with one bare judge has a request. *)
Lemma critique_request_after_analysis_witness :
  conforms hackathonSchema Sample.bare_judge_data = true /\
  sanitize Sample.bare_judge_data = Ok Rehearsal.bare_judge_record /\
  exists base64Video title criteria j js,
    get Rehearsal.bare_judge_record "judges" = Ok (VArr (j :: js) []) /\
    criteria <> EmptyString /\
    video_request Sample.ToString Sample.ToNumber (option string)
      Sample.readAsDataURL Sample.video Rehearsal.bare_judge_record
    = Ok (videoRequest base64Video title
            (String.concat ", " (map judge_name (j :: js))) criteria).
Proof.
  split; [reflexivity|]. split; [reflexivity|].
  apply (critique_request_after_analysis Sample.ToString Sample.ToNumber
           (option string) Sample.readAsDataURL (fun s => eq_refl) eq_refl
           Sample.bare_judge_data Rehearsal.bare_judge_record Sample.video
           "data:video/webm;codecs=vp9;base64,GkXfo59ChoEB");
    reflexivity.
Defined.

(** An unparsable answer to the critique is a SyntaxError. *)
Lemma analyzeVideoDemo_other_failures_witness :
  analyzeVideoDemo Sample.JSON_parse Sample.ToString Sample.ToNumber
    (option string) Sample.readAsDataURL (Sample.answers "Sorry.")
    Sample.video Rehearsal.bare_judge_record
  = Throw SyntaxError.
Proof.
  destruct (analyzeVideoDemo_other_failures Sample.JSON_parse
              Sample.ToString Sample.ToNumber (option string)
              Sample.readAsDataURL (Sample.answers "Sorry.")
              Sample.video Rehearsal.bare_judge_record)
    as (_ & Hsyntax & _).
  eapply (Hsyntax _ {| text := Some "Sorry." |} "Sorry.");
    [reflexivity | reflexivity | reflexivity | discriminate | reflexivity].
Defined.

(** After two results the rate is positive. *)
Lemma rate_never_negative_witness :
  run (mount 0 true) Rehearsal.two_results = Some Sample.two_pending /\
  rate_ok Sample.two_pending /\
  gt zero (wpm Sample.two_pending) = false.
Proof.
  split; [reflexivity|].
  apply (rate_never_negative 0 true Rehearsal.two_results). reflexivity.
Defined.

(** After two results nothing was spoken, and the coach box shows its
    first text. *)
Lemma shown_tip_is_last_spoken_witness :
  coachFeedback Sample.two_pending
  = hd "Ready when you are..." (spoken Sample.two_pending) /\
  Forall (fun fb => fb <> EmptyString) (spoken Sample.two_pending) /\
  coachFeedback Sample.two_pending <> EmptyString.
Proof.
  apply (shown_tip_is_last_spoken 0 true Rehearsal.two_results).
  reflexivity.
Defined.

(** The second pending call after two results carries ten characters and
    a positive rate. *)
Lemma tip_calls_bounded_witness :
  String.length "more words" <= 100 /\ gt (of_Z 120) zero = true.
Proof.
  apply (tip_calls_bounded 0 true Rehearsal.two_results Sample.two_pending
           {| call_id := 1;
              call_transcript := "more words";
              call_wpm := of_Z 120 |}).
  - vm_compute. reflexivity.
  - vm_compute. right. left. reflexivity.
Defined.

(** Stopping while two calls are pending keeps both, and the first one
    that settles is shown. *)
Lemma stop_keeps_pending_tips_witness :
  pendingTips (stopRecording Sample.two_pending)
  = pendingTips Sample.two_pending /\
  exists fb st',
    getRealTimeFeedback (fun _ => Sample.tip "Slow down a little.")
      "first words" (of_Z 120) = Ok fb /\
    run Sample.two_pending
      [StopRecording; TipSettled 0 (Sample.tip "Slow down a little.")]
    = Some st' /\
    coachFeedback st' = fb /\
    spoken st' = fb :: spoken Sample.two_pending.
Proof.
  apply (stop_keeps_pending_tips Sample.two_pending 0
           {| call_id := 0;
              call_transcript := "first words";
              call_wpm := of_Z 120 |}
           (Sample.tip "Slow down a little.")).
  reflexivity.
Defined.

(** Three spaces count as one word. *)
Lemma wordCount_counts_words_witness :
  (1 <= Recognition.wordCount Rehearsal.isWhite "   ")%Z.
Proof.
  exact (proj1 (proj2 (wordCount_counts_words Rehearsal.isWhite "   "))).
Defined.

(** The panel of the sample with one bare judge has one row. *)
Lemma panel_rows_witness :
  get Sample.bare_judge_data "judges"
  = Ok (VArr [ VObj [ ("name", VStr "Ada") ] ] []) /\
  (exists rows,
      panel Sample.bare_judge_data = Ok rows /\
      List.length rows = 1 /\
      [get (VObj [ ("name", VStr "Ada") ]) "name"]
      = map (fun r => Ok (row_name r)) rows) /\
  get Rehearsal.object_name_data "judges"
  = Ok (VArr Rehearsal.object_name_panel []) /\
  panel Rehearsal.object_name_data = Throw invalid_child.
Proof.
  split; [reflexivity|].
  destruct (panel_rows Sample.bare_judge_data
              [ VObj [ ("name", VStr "Ada") ] ] eq_refl) as (Hrows & _).
  split; [apply Hrows; repeat constructor|].
  split; [reflexivity|].
  destruct (panel_rows Rehearsal.object_name_data
              Rehearsal.object_name_panel eq_refl) as (_ & _ & Hchild).
  apply Hchild.
  - repeat constructor.
  - left. reflexivity.
Defined.

(** A script of two paragraphs is displayed as paragraphs that join to
    the script. *)
Lemma paragraphs_of_script_witness :
  exists p ps,
    paragraphs Rehearsal.scripted = Ok (Some (p :: ps)) /\
    String.concat blank (p :: ps) = Rehearsal.two_paragraphs.
Proof.
  destruct (paragraphs_of_script Rehearsal.scripted
              (VObj [ ("generatedScript", VStr Rehearsal.two_paragraphs) ])
              eq_refl eq_refl) as (Hscript & _).
  apply Hscript. reflexivity.
Defined.

(** After the analysis of the sample with one bare judge the script is
    displayed. *)
Lemma coach_view_after_analysis_witness :
  (exists r,
      analyzeHackathonUrl Sample.JSON_parse
        (Sample.answers Sample.bare_judge_text) Sample.url = Ok r /\
      paragraphs r <> Ok None) /\
  (exists r,
      analyzeHackathonUrl Rehearsal.JSON_parse
        (Sample.answers Rehearsal.nameless_text) Sample.url = Ok r /\
      panel r = Throw TypeError).
Proof.
  split.
  - exists Rehearsal.bare_judge_record.
    split; [reflexivity|].
    apply (coach_view_after_analysis Sample.JSON_parse
             (Sample.answers Sample.bare_judge_text) Sample.url
             Sample.bare_judge_data Rehearsal.bare_judge_record
             bare_judge_inferred eq_refl).
  - eexists. split; [vm_compute; reflexivity|].
    refine (proj2 (proj2 (proj2
             (coach_view_after_analysis Rehearsal.JSON_parse
                (Sample.answers Rehearsal.nameless_text) Sample.url
                Rehearsal.nameless_data _ _ eq_refl)))
             Rehearsal.nameless_panel eq_refl _).
    + exists {| text := Some Rehearsal.nameless_text |},
        Rehearsal.nameless_text.
      repeat split. discriminate.
    + right. left. reflexivity.
Defined.

(** Of four delivered chunks the two that are not empty are recorded. *)
Lemma recording_chunks_witness :
  onstop (fold_left ondataavailable Rehearsal.chunk_sizes
            (startRecording Sample.used None))
  = [512; 2048]%Z.
Proof.
  exact (proj1 (recording_chunks Sample.used Rehearsal.chunk_sizes eq_refl)).
Defined.
